(** * multimedios-xmltv: the schedule parser of [scrape.py]

    A shallow embedding of the core of [scrape.py]: the section/date
    resolver [choose_date_for_section], the two line patterns [SECTION_RE]
    and [TIME_RE], the line scanner of [parse_schedule] and its finalizer
    (sort, stop assignment, filter, deduplication).

    Conventions.
    - A Python [date] is carried by its proleptic Gregorian ordinal
      (day 1 is 0001-01-01), which is how the [datetime] module orders
      dates and does arithmetic on them; [year], [month], [day] are read
      back with the module's [_ord2ymd].
    - Every [datetime] of the program carries the one module-level zone
      [TZ], so comparison and arithmetic act on the wall-clock fields.
    - A Python [str] is a sequence of code points; the model carries the
      code points below 256 (Latin-1, the alphabet of the scraped page),
      one [ascii] per code point.
    - Exceptions are values of [exn]; a computation that may raise has
      type [result A]. *)

From Stdlib Require Import ZArith List Bool Lia String Ascii.
From Stdlib Require Import Sorting.Sorted.
Import ListNotations.
Local Open Scope Z_scope.

(** ** Exceptions *)

Inductive exn : Type :=
| ValueError
| OverflowError
| IndexError.

Inductive result (A : Type) : Type :=
| Ok (a : A)
| Raise (e : exn).
Arguments Ok {A} a.
Arguments Raise {A} e.

Definition bind {A B : Type} (r : result A) (k : A -> result B) : result B :=
  match r with
  | Ok a => k a
  | Raise e => Raise e
  end.

Notation "x <- r ;; k" := (bind r (fun x => k))
  (at level 61, r at next level, right associativity).

(** ** The calendar of the [datetime] module *)

Module Calendar.

Definition MINYEAR : Z := 1.
Definition MAXYEAR : Z := 9999.
Definition MAXORDINAL : Z := 3652059.

Definition is_leap (y : Z) : bool :=
  (y mod 4 =? 0) && (negb (y mod 100 =? 0) || (y mod 400 =? 0)).

Definition DAYS_IN_MONTH (m : Z) : Z :=
  match m with
  | 1 => 31 | 2 => 28 | 3 => 31 | 4 => 30 | 5 => 31 | 6 => 30
  | 7 => 31 | 8 => 31 | 9 => 30 | 10 => 31 | 11 => 30 | 12 => 31
  | _ => 0
  end.

Definition DAYS_BEFORE_MONTH (m : Z) : Z :=
  match m with
  | 1 => 0 | 2 => 31 | 3 => 59 | 4 => 90 | 5 => 120 | 6 => 151
  | 7 => 181 | 8 => 212 | 9 => 243 | 10 => 273 | 11 => 304 | 12 => 334
  | _ => 0
  end.

Definition days_before_year (y : Z) : Z :=
  let p := y - 1 in p * 365 + p / 4 - p / 100 + p / 400.

Definition days_in_month (y m : Z) : Z :=
  if (m =? 2) && is_leap y then 29 else DAYS_IN_MONTH m.

Definition days_before_month (y m : Z) : Z :=
  DAYS_BEFORE_MONTH m + (if (2 <? m) && is_leap y then 1 else 0).

Definition ymd2ord (y m d : Z) : Z :=
  days_before_year y + days_before_month y m + d.

(** [_ord2ymd]: the 400/100/4/1-year cycle decomposition. *)
Definition ord2ymd (n : Z) : Z * Z * Z :=
  let n := n - 1 in
  let n400 := n / 146097 in
  let n := n mod 146097 in
  let year := n400 * 400 + 1 in
  let n100 := n / 36524 in
  let n := n mod 36524 in
  let n4 := n / 1461 in
  let n := n mod 1461 in
  let n1 := n / 365 in
  let n := n mod 365 in
  let year := year + n100 * 100 + n4 * 4 + n1 in
  if (n1 =? 4) || (n100 =? 4) then (year - 1, 12, 31)
  else
    let leapyear := (n1 =? 3) && (negb (n4 =? 24) || (n100 =? 3)) in
    let month := Z.shiftr (n + 50) 5 in
    let preceding :=
      DAYS_BEFORE_MONTH month + (if (2 <? month) && leapyear then 1 else 0) in
    let '(month, preceding) :=
      if n <? preceding
      then (month - 1,
            preceding - (DAYS_IN_MONTH (month - 1)
                         + (if (month - 1 =? 2) && leapyear then 1 else 0)))
      else (month, preceding) in
    (year, month, n - preceding + 1).

End Calendar.

(** ** [datetime.date] *)

Record date : Type := mkdate { toordinal : Z }.

Definition year (d : date) : Z := fst (fst (Calendar.ord2ymd (toordinal d))).
Definition month (d : date) : Z := snd (fst (Calendar.ord2ymd (toordinal d))).
Definition day (d : date) : Z := snd (Calendar.ord2ymd (toordinal d)).

(** The arguments of [date] are converted to C [int]s first. *)
Definition INT_MIN : Z := -2147483648.
Definition INT_MAX : Z := 2147483647.

Definition fits_c_int (n : Z) : bool := (INT_MIN <=? n) && (n <=? INT_MAX).

(** [date(y, m, d)]: [OverflowError] for an argument that is no C [int],
    [ValueError] outside the calendar. *)
Definition date_new (y m d : Z) : result date :=
  if negb (fits_c_int y && fits_c_int m && fits_c_int d)
  then Raise OverflowError
  else if (Calendar.MINYEAR <=? y) && (y <=? Calendar.MAXYEAR)
          && (1 <=? m) && (m <=? 12)
          && (1 <=? d) && (d <=? Calendar.days_in_month y m)
  then Ok (mkdate (Calendar.ymd2ord y m d))
  else Raise ValueError.

(** [d + timedelta(days=n)]: [OverflowError] outside the calendar. *)
Definition date_add_days (d : date) (n : Z) : result date :=
  let o := toordinal d + n in
  if (1 <=? o) && (o <=? Calendar.MAXORDINAL)
  then Ok (mkdate o)
  else Raise OverflowError.

(** [(a - b).days] *)
Definition days_between (a b : date) : Z := toordinal a - toordinal b.

(** [d.weekday()], Monday is 0. *)
Definition weekday (d : date) : Z := (toordinal d + 6) mod 7.

(** ** [list.sort(key=...)]: a stable sort on integer keys *)

Section StableSort.
Context {A : Type}.
Variable ltb : A -> A -> bool.

(** [x] is placed before the first element that is not below it, so
    equal keys keep their order of appearance. *)
Fixpoint insert_stable (x : A) (l : list A) : list A :=
  match l with
  | [] => [x]
  | y :: r => if ltb y x then y :: insert_stable x r else x :: y :: r
  end.

Fixpoint sort_stable (l : list A) : list A :=
  match l with
  | [] => []
  | x :: r => insert_stable x (sort_stable r)
  end.
End StableSort.

(** ** [choose_date_for_section] *)

(** One turn of the loop over [month_offset]: the candidate of that
    offset, if it exists and falls on the wanted weekday. *)
Definition candidate_at (target_weekday target_day : Z) (today : date)
    (month_offset : Z) : result (list date) :=
  first_of_month <- date_new (year today) (month today) 1 ;;
  approx <- date_add_days first_of_month (31 * month_offset) ;;
  let y := year approx in
  let m := month approx in
  match date_new y m target_day with
  | Raise ValueError => Ok []
  | Raise e => Raise e
  | Ok d => if weekday d =? target_weekday then Ok [d] else Ok []
  end.

Fixpoint candidates_over (target_weekday target_day : Z) (today : date)
    (offsets : list Z) : result (list date) :=
  match offsets with
  | [] => Ok []
  | o :: rest =>
      c <- candidate_at target_weekday target_day today o ;;
      cs <- candidates_over target_weekday target_day today rest ;;
      Ok (c ++ cs)
  end.

Definition candidates (target_weekday target_day : Z) (today : date)
    : result (list date) :=
  candidates_over target_weekday target_day today [-1; 0; 1].

(** The sort key [abs((d - today).days)]. *)
Definition distance (today d : date) : Z := Z.abs (days_between d today).

Definition choose_date_for_section (target_weekday target_day : Z)
    (today : date) : result date :=
  cands <- candidates target_weekday target_day today ;;
  match cands with
  | [] =>
      match date_new (year today) (month today) target_day with
      | Raise ValueError => Ok today
      | r => r
      end
  | _ :: _ =>
      match sort_stable (fun a b => distance today a <? distance today b)
              cands with
      | c :: _ => Ok c
      | [] => Raise IndexError
      end
  end.

(** The resolver as the specification words it: the candidates are the
    dates with day [target_day] in the calendar month before today's, in
    today's month and in the month after. *)
Module SpecResolver.

Definition prev_month (y m : Z) : Z * Z :=
  if m =? 1 then (y - 1, 12) else (y, m - 1).

Definition next_month (y m : Z) : Z * Z :=
  if m =? 12 then (y + 1, 1) else (y, m + 1).

Definition candidate_in (target_weekday target_day : Z) (ym : Z * Z)
    : list date :=
  match date_new (fst ym) (snd ym) target_day with
  | Ok d => if weekday d =? target_weekday then [d] else []
  | Raise _ => []
  end.

Definition candidates (target_weekday target_day : Z) (today : date)
    : list date :=
  let y := year today in
  let m := month today in
  candidate_in target_weekday target_day (prev_month y m)
  ++ candidate_in target_weekday target_day (y, m)
  ++ candidate_in target_weekday target_day (next_month y m).

(** The surviving candidate nearest to [today], if there is one. *)
Definition choose (target_weekday target_day : Z) (today : date)
    : option date :=
  match sort_stable (fun a b => distance today a <? distance today b)
          (candidates target_weekday target_day today) with
  | c :: _ => Some c
  | [] => None
  end.

End SpecResolver.

(** ** Text: code points, [str] helpers and the two patterns *)

Definition ord (c : ascii) : Z := Z.of_N (N_of_ascii c).
Definition chr (n : Z) : ascii := ascii_of_N (Z.to_N n).

(** [\s] on a [str] pattern: the code points for which [str.isspace]
    holds (below 256: TAB..CR, FS..US, SPACE, NEL, NBSP). *)
Definition is_space (c : ascii) : bool :=
  let n := ord c in
  ((9 <=? n) && (n <=? 13)) || ((28 <=? n) && (n <=? 32))
  || (n =? 133) || (n =? 160).

(** [\d]: the decimal digits (below 256 these are 0-9). *)
Definition is_digit (c : ascii) : bool :=
  let n := ord c in (48 <=? n) && (n <=? 57).

(** [str.lower] on one code point: A-Z and the Latin-1 capitals. *)
Definition lower (c : ascii) : ascii :=
  let n := ord c in
  if ((65 <=? n) && (n <=? 90))
     || ((192 <=? n) && (n <=? 222) && negb (n =? 215))
  then chr (n + 32) else c.

Fixpoint str_lower (s : string) : string :=
  match s with
  | EmptyString => EmptyString
  | String c r => String (lower c) (str_lower r)
  end.

Definition a_acute : ascii := chr 225.
Definition e_acute : ascii := chr 233.
Definition i_acute : ascii := chr 237.
Definition o_acute : ascii := chr 243.
Definition u_acute : ascii := chr 250.
Definition n_tilde : ascii := chr 241.

(** The class [[A-Za-zÁÉÍÓÚáéíóúñÑ]] under [re.IGNORECASE]. *)
Definition is_letter (c : ascii) : bool :=
  let n := ord (lower c) in
  ((97 <=? n) && (n <=? 122))
  || (n =? ord a_acute) || (n =? ord e_acute) || (n =? ord i_acute)
  || (n =? ord o_acute) || (n =? ord u_acute) || (n =? ord n_tilde).

(** Skip a maximal run of whitespace ([\s*]). *)
Fixpoint skip_spaces (s : string) : string :=
  match s with
  | String c r => if is_space c then skip_spaces r else s
  | EmptyString => EmptyString
  end.

Fixpoint all_spaces (s : string) : bool :=
  match s with
  | String c r => is_space c && all_spaces r
  | EmptyString => true
  end.

(** [TIME_RE.match(ln)]: the captured group, or [None].  The pattern is
    [^\s*(\d{2}:\d{2})\s*$]. *)
Definition TIME_RE_match (ln : string) : option string :=
  match skip_spaces ln with
  | String h1 (String h2 (String c (String m1 (String m2 rest)))) =>
      if is_digit h1 && is_digit h2 && (ord c =? 58)
         && is_digit m1 && is_digit m2 && all_spaces rest
      then Some (String h1 (String h2 (String c (String m1 (String m2 EmptyString)))))
      else None
  | _ => None
  end.

(** A literal of the pattern, compared without regard to case. *)
Fixpoint match_literal (lit s : string) : option string :=
  match lit with
  | EmptyString => Some s
  | String a lit' =>
      match s with
      | String b s' =>
          if ord (lower a) =? ord (lower b) then match_literal lit' s' else None
      | EmptyString => None
      end
  end.

(** [\s+] *)
Definition spaces1 (s : string) : option string :=
  match s with
  | String c r => if is_space c then Some (skip_spaces r) else None
  | EmptyString => None
  end.

Fixpoint take_letters (s : string) : string * string :=
  match s with
  | String c r =>
      if is_letter c
      then let '(g, rest) := take_letters r in (String c g, rest)
      else (EmptyString, s)
  | EmptyString => (EmptyString, EmptyString)
  end.

(** [([A-Za-z...]+)] *)
Definition letters1 (s : string) : option (string * string) :=
  match take_letters s with
  | (EmptyString, _) => None
  | (g, rest) => Some (g, rest)
  end.

(** [(\d{1,2})], greedy. *)
Definition digits12 (s : string) : option string :=
  match s with
  | String a r =>
      if is_digit a then
        match r with
        | String b _ =>
            if is_digit b then Some (String a (String b EmptyString))
            else Some (String a EmptyString)
        | EmptyString => Some (String a EmptyString)
        end
      else None
  | EmptyString => None
  end.

Definition opt_bind {A B : Type} (o : option A) (k : A -> option B) : option B :=
  match o with
  | Some a => k a
  | None => None
  end.

Definition Programacion : string :=
  ("Programaci" ++ String o_acute "n")%string.

(** The pattern [Programación\s+de\s+([A-Za-z...]+)\s+(\d{1,2})] tried at
    the head of [s]; the two groups. *)
Definition section_at (s : string) : option (string * string) :=
  opt_bind (match_literal Programacion s) (fun r1 =>
  opt_bind (spaces1 r1) (fun r2 =>
  opt_bind (match_literal "de" r2) (fun r3 =>
  opt_bind (spaces1 r3) (fun r4 =>
  opt_bind (letters1 r4) (fun '(g1, r5) =>
  opt_bind (spaces1 r5) (fun r6 =>
  opt_bind (digits12 r6) (fun g2 => Some (g1, g2)))))))).

(** [SECTION_RE.search(ln)]: the leftmost position where the pattern
    matches. *)
Fixpoint SECTION_RE_search (ln : string) : option (string * string) :=
  match section_at ln with
  | Some g => Some g
  | None =>
      match ln with
      | String _ r => SECTION_RE_search r
      | EmptyString => None
      end
  end.

(** [WEEKDAY_ES]: Spanish weekday to Python weekday (Monday is 0). *)
Definition WEEKDAY_ES : list (string * Z) :=
  [ ("lunes", 0);
    ("martes", 1);
    ("mi" ++ String e_acute "rcoles", 2);
    ("miercoles", 2);
    ("jueves", 3);
    ("viernes", 4);
    ("s" ++ String a_acute "bado", 5);
    ("sabado", 5);
    ("domingo", 6) ]%string.

(** [dict.get] *)
Fixpoint dict_get (d : list (string * Z)) (k : string) : option Z :=
  match d with
  | [] => None
  | (k', v) :: r => if String.eqb k' k then Some v else dict_get r k
  end.

(** [int(s)] on a run of decimal digits; [ValueError] on anything else. *)
Fixpoint int_digits (acc : Z) (s : string) : result Z :=
  match s with
  | EmptyString => Ok acc
  | String c r =>
      if is_digit c then int_digits (acc * 10 + (ord c - 48)) r
      else Raise ValueError
  end.

Definition int (s : string) : result Z :=
  match s with
  | EmptyString => Raise ValueError
  | _ => int_digits 0 s
  end.

(** [s.split(":")] *)
Fixpoint split_colon (s : string) : list string :=
  match s with
  | EmptyString => [EmptyString]
  | String c r =>
      if ord c =? 58 then EmptyString :: split_colon r
      else match split_colon r with
           | h :: t => String c h :: t
           | [] => [String c EmptyString]
           end
  end.

Fixpoint map_result {A B : Type} (f : A -> result B) (l : list A)
    : result (list B) :=
  match l with
  | [] => Ok []
  | a :: r => b <- f a ;; bs <- map_result f r ;; Ok (b :: bs)
  end.

(** ** [datetime.time], [datetime.datetime] and [Programme] *)

Record time : Type := mktime {
  hour : Z;
  minute : Z;
  second : Z;
  microsecond : Z
}.

(** [time(hh, mm)]: [ValueError] outside 0..23 and 0..59. *)
Definition time_new (hh mm : Z) : result time :=
  if (0 <=? hh) && (hh <? 24) && (0 <=? mm) && (mm <? 60)
  then Ok (mktime hh mm 0 0)
  else Raise ValueError.

Record datetime : Type := mkdatetime {
  dt_date : date;
  dt_time : time
}.

(** [datetime.combine(d, t).replace(tzinfo=TZ)] *)
Definition combine (d : date) (t : time) : datetime := mkdatetime d t.

Record Programme : Type := mkProgramme {
  start : datetime;
  stop : datetime;
  title : string
}.

(** ** The line scanner of [parse_schedule] *)

Record scan_state : Type := mkstate {
  programmes : list Programme;
  current_date : option date;
  pending_start_time : option time
}.

(** The branch of the loop body that a line takes. *)
Inductive line_class : Type :=
| SectionHeader (weekday_name : string) (day_digits : string)
| TimeMarker (hhmm : string)
| TimeShapedTitle
| TitleLine (d : date) (t : time)
| Unrecognised.

Definition classify (st : scan_state) (ln : string) : line_class :=
  match SECTION_RE_search ln with
  | Some (g1, g2) => SectionHeader g1 g2
  | None =>
      match TIME_RE_match ln, current_date st with
      | Some g, Some _ => TimeMarker g
      | _, _ =>
          match pending_start_time st, current_date st with
          | Some t, Some d =>
              match TIME_RE_match ln with
              | Some _ => TimeShapedTitle
              | None => TitleLine d t
              end
          | _, _ => Unrecognised
          end
      end
  end.

(** The body of the branch [c], on state [st] and line [ln]. *)
Definition step_of (c : line_class) (today : date) (st : scan_state)
    (ln : string) : result scan_state :=
  match c with
  | SectionHeader g1 g2 =>
      let weekday_es := str_lower g1 in
      daynum <- int g2 ;;
      cd <- match dict_get WEEKDAY_ES weekday_es with
            | None => Ok None
            | Some wd =>
                d <- choose_date_for_section wd daynum today ;; Ok (Some d)
            end ;;
      Ok (mkstate (programmes st) cd None)
  | TimeMarker g =>
      parts <- map_result int (split_colon g) ;;
      match parts with
      | [hh; mm] =>
          t <- time_new hh mm ;;
          Ok (mkstate (programmes st) (current_date st) (Some t))
      | _ => Raise ValueError
      end
  | TimeShapedTitle => Ok st
  | TitleLine d t =>
      let start_dt := combine d t in
      Ok (mkstate (programmes st ++ [mkProgramme start_dt start_dt ln])
                  (current_date st) None)
  | Unrecognised => Ok st
  end.

(** One turn of the [while] loop. *)
Definition step (today : date) (st : scan_state) (ln : string)
    : result scan_state :=
  step_of (classify st ln) today st ln.

Fixpoint scan (today : date) (lines : list string) (st : scan_state)
    : result scan_state :=
  match lines with
  | [] => Ok st
  | ln :: rest => st' <- step today st ln ;; scan today rest st'
  end.

Definition initial_state : scan_state := mkstate [] None None.


(** ** The finalizer of [parse_schedule] *)

Definition lex (c1 c2 : comparison) : comparison :=
  match c1 with
  | Eq => c2
  | _ => c1
  end.

(** Comparison of two [datetime]s of the same zone: field by field. *)
Definition dt_compare (a b : datetime) : comparison :=
  lex (toordinal (dt_date a) ?= toordinal (dt_date b))
 (lex (hour (dt_time a) ?= hour (dt_time b))
 (lex (minute (dt_time a) ?= minute (dt_time b))
 (lex (second (dt_time a) ?= second (dt_time b))
      (microsecond (dt_time a) ?= microsecond (dt_time b))))).

Definition dt_ltb (a b : datetime) : bool :=
  match dt_compare a b with
  | Lt => true
  | _ => false
  end.

Definition dt_eqb (a b : datetime) : bool :=
  match dt_compare a b with
  | Eq => true
  | _ => false
  end.

(** [(s + timedelta(days=1)).replace(hour=0, minute=0, second=0,
    microsecond=0)] *)
Definition midnight_after (s : datetime) : result datetime :=
  d <- date_add_days (dt_date s) 1 ;;
  Ok (mkdatetime d (mktime 0 0 0 0)).

Definition set_stop (p : Programme) (s : datetime) : Programme :=
  mkProgramme (start p) s (title p).

(** The loop over [idx]: every entry stops where the next starts, the
    last one at the following midnight. *)
Fixpoint assign_stops (l : list Programme) : result (list Programme) :=
  match l with
  | [] => Ok []
  | p :: r =>
      match r with
      | [] => s <- midnight_after (start p) ;; Ok [set_stop p s]
      | q :: _ => r' <- assign_stops r ;; Ok (set_stop p (start q) :: r')
      end
  end.

(** [p.title and p.stop > p.start] *)
Definition keep (p : Programme) : bool :=
  negb (String.eqb (title p) EmptyString) && dt_ltb (start p) (stop p).

Definition key_eqb (a b : Programme) : bool :=
  dt_eqb (start a) (start b) && dt_eqb (stop a) (stop b)
  && String.eqb (title a) (title b).

(** The loop over the set [seen]; [seen] holds the entries whose key was
    added. *)
Fixpoint dedup (seen : list Programme) (l : list Programme) : list Programme :=
  match l with
  | [] => []
  | p :: r =>
      if existsb (key_eqb p) seen then dedup seen r
      else p :: dedup (p :: seen) r
  end.

Definition sort_by_start (l : list Programme) : list Programme :=
  sort_stable (fun a b => dt_ltb (start a) (start b)) l.

Definition finalize (provisional : list Programme) : result (list Programme) :=
  match sort_by_start provisional with
  | [] => Ok []
  | sorted =>
      with_stops <- assign_stops sorted ;;
      Ok (dedup [] (filter keep with_stops))
  end.

(** ** [extract_lines] and [parse_schedule] *)

Fixpoint rstrip (s : string) : string :=
  match s with
  | EmptyString => EmptyString
  | String c r =>
      match rstrip r with
      | EmptyString => if is_space c then EmptyString else String c EmptyString
      | r' => String c r'
      end
  end.

(** [str.strip()] *)
Definition strip (s : string) : string := rstrip (skip_spaces s).

Definition truthy (s : string) : bool := negb (String.eqb s EmptyString).

(** The comprehension of [extract_lines], on the lines [raw_lines] of the
    page's text (obtained from the HTML by the external parser). *)
Definition extract_lines (raw_lines : list string) : list string :=
  map strip (filter (fun ln => truthy ln && truthy (strip ln)) raw_lines).

(** [parse_schedule], on today's date and the page's text lines. *)
Definition parse_schedule (today_local : date) (raw_lines : list string)
    : result (list Programme) :=
  let lines := extract_lines raw_lines in
  st <- scan today_local lines initial_state ;;
  finalize (programmes st).

(** The scanner without the guard of the title branch: a line that
    reaches that branch is always taken as the title. *)
Definition classify_unguarded (st : scan_state) (ln : string) : line_class :=
  match SECTION_RE_search ln with
  | Some (g1, g2) => SectionHeader g1 g2
  | None =>
      match TIME_RE_match ln, current_date st with
      | Some g, Some _ => TimeMarker g
      | _, _ =>
          match pending_start_time st, current_date st with
          | Some t, Some d => TitleLine d t
          | _, _ => Unrecognised
          end
      end
  end.

Fixpoint scan_unguarded (today : date) (lines : list string) (st : scan_state)
    : result scan_state :=
  match lines with
  | [] => Ok st
  | ln :: rest =>
      st' <- step_of (classify_unguarded st ln) today st ln ;;
      scan_unguarded today rest st'
  end.

Definition parse_schedule_unguarded (today_local : date)
    (raw_lines : list string) : result (list Programme) :=
  let lines := extract_lines raw_lines in
  st <- scan_unguarded today_local lines initial_state ;;
  finalize (programmes st).

(** The time marker as the specification words it: [HH:MM] with the hour
    in 00-23 and the minute in 00-59, optionally surrounded by
    whitespace; the time of day it denotes. *)
Module SpecTimeMarker.

Definition digit_value (c : ascii) : Z := ord c - 48.

Definition parse (ln : string) : option time :=
  match skip_spaces ln with
  | String h1 (String h2 (String c (String m1 (String m2 rest)))) =>
      let hh := 10 * digit_value h1 + digit_value h2 in
      let mm := 10 * digit_value m1 + digit_value m2 in
      if is_digit h1 && is_digit h2 && (ord c =? 58)
         && is_digit m1 && is_digit m2 && all_spaces rest
         && (hh <=? 23) && (mm <=? 59)
      then Some (mktime hh mm 0 0)
      else None
  | _ => None
  end.

Definition is_time_marker (ln : string) : bool :=
  match parse ln with
  | Some _ => true
  | None => false
  end.

End SpecTimeMarker.

(** Some inputs used below. *)
Definition header_jueves_1 : string := (Programacion ++ " de Jueves 1")%string.
Definition d20240130 : date := mkdate 738915.
Definition d20230502 : date := mkdate 738642.
Definition d20230215 : date := mkdate 738566.

Definition d20230410 : date := mkdate 738620.

(** ** Notions used in the statements and proofs *)

Module CalendarChecks.
Import Calendar.

(** The month and day that [_ord2ymd] reads off the day [n] (from 0) of a
    year. *)
Definition month_day (leapyear : bool) (n : Z) : Z * Z :=
  let month := Z.shiftr (n + 50) 5 in
  let preceding :=
    DAYS_BEFORE_MONTH month + (if (2 <? month) && leapyear then 1 else 0) in
  if n <? preceding
  then (month - 1,
        n - (preceding - (DAYS_IN_MONTH (month - 1)
                          + (if (month - 1 =? 2) && leapyear then 1 else 0))) + 1)
  else (month, n - preceding + 1).

(** The integers [lo], [lo + 1], ..., [len] of them. *)
Definition zrange (lo : Z) (len : nat) : list Z :=
  map (fun i => lo + Z.of_nat i) (seq 0 len).

(** Every day of every month is read back from its day of the year; the
    last day of a leap year is handled apart by [_ord2ymd]. *)
Definition month_day_check (leapyear : bool) : bool :=
  forallb (fun m =>
    forallb (fun d =>
      let dim := if (m =? 2) && leapyear then 29 else DAYS_IN_MONTH m in
      let k := DAYS_BEFORE_MONTH m
               + (if (2 <? m) && leapyear then 1 else 0) + d - 1 in
      if (d <=? dim) && (k <=? 364)
      then (let '(m', d') := month_day leapyear k in (m' =? m) && (d' =? d))
      else if d <=? dim then (m =? 12) && (d =? 31) else true)
      (zrange 1 31))
    (zrange 1 12).

(** Every day of the year but the 366th is read as a day of a month,
    and is the day of the year of that day. *)
Definition month_day_inverse_check (leapyear : bool) : bool :=
  forallb (fun k =>
    let '(m, d) := month_day leapyear k in
    (1 <=? m) && (m <=? 12) && (1 <=? d)
    && (d <=? (if (m =? 2) && leapyear then 29 else DAYS_IN_MONTH m))
    && (DAYS_BEFORE_MONTH m + (if (2 <? m) && leapyear then 1 else 0) + d - 1
        =? k))
    (zrange 0 365).

End CalendarChecks.

(** The dates that have a following day in the calendar. *)
Definition date_in_range (d : date) : Prop :=
  1 <= toordinal d <= Calendar.MAXORDINAL - 1.

(** The characters a line of the time shape is made of. *)
Definition time_char (c : ascii) : bool :=
  is_space c || is_digit c || (ord c =? 58).

Fixpoint all_time_chars (s : string) : bool :=
  match s with
  | String c r => time_char c && all_time_chars r
  | EmptyString => true
  end.

(** The shape that [TIME_RE] accepts: two digits, a colon and two digits,
    with whitespace only around them. *)
Definition time_shaped (ln : string) : Prop :=
  exists pre h1 h2 m1 m2 post,
    ln = (pre ++ String h1 (String h2 (String ":" (String m1 (String m2 post)))))%string
    /\ all_spaces pre = true /\ all_spaces post = true
    /\ is_digit h1 = true /\ is_digit h2 = true
    /\ is_digit m1 = true /\ is_digit m2 = true.

(** [a < b] on [datetime]s, field by field. *)
Definition dt_lt (a b : datetime) : Prop :=
  toordinal (dt_date a) < toordinal (dt_date b)
  \/ (toordinal (dt_date a) = toordinal (dt_date b)
      /\ (hour (dt_time a) < hour (dt_time b)
          \/ (hour (dt_time a) = hour (dt_time b)
              /\ (minute (dt_time a) < minute (dt_time b)
                  \/ (minute (dt_time a) = minute (dt_time b)
                      /\ (second (dt_time a) < second (dt_time b)
                          \/ (second (dt_time a) = second (dt_time b)
                              /\ microsecond (dt_time a)
                                 < microsecond (dt_time b)))))))).

(** The order of two entries by start time. *)
Definition le_start (p q : Programme) : Prop :=
  dt_ltb (start q) (start p) = false.

Definition lt_start (p q : Programme) : Prop :=
  dt_ltb (start p) (start q) = true.

Definition nonempty_title (p : Programme) : Prop :=
  title p <> EmptyString.

(** The scanner's state holds dates of the calendar only. *)
Definition state_in_range (st : scan_state) : Prop :=
  (forall d, current_date st = Some d -> date_in_range d)
  /\ Forall (fun p => date_in_range (dt_date (start p))) (programmes st).

(** The end-to-end scenario and its result. *)
Definition two_programmes : list string :=
  [header_jueves_1; "08:00"; "Morning News"; "09:30"; "Talk Show"]%string.

Definition morning_news : Programme :=
  mkProgramme (mkdatetime (mkdate 738917) (mktime 8 0 0 0))
              (mkdatetime (mkdate 738917) (mktime 9 30 0 0))
              "Morning News".

Definition talk_show : Programme :=
  mkProgramme (mkdatetime (mkdate 738917) (mktime 9 30 0 0))
              (mkdatetime (mkdate 738918) (mktime 0 0 0 0))
              "Talk Show".

(** Two entries at 08:00, of which the first is dropped, and one at
    07:00 that is moved to the front. *)
Definition repeated_start : list string :=
  [header_jueves_1; "08:00"; "A"; "08:00"; "B"; "07:00"; "C"]%string.

Definition repeated_start_provisional : list Programme :=
  let at_ h := mkdatetime (mkdate 738917) (mktime h 0 0 0) in
  [ mkProgramme (at_ 8) (at_ 8) "A";
    mkProgramme (at_ 8) (at_ 8) "B";
    mkProgramme (at_ 7) (at_ 7) "C" ].

Definition repeated_start_with_stops : list Programme :=
  let at_ h := mkdatetime (mkdate 738917) (mktime h 0 0 0) in
  [ mkProgramme (at_ 7) (at_ 8) "C";
    mkProgramme (at_ 8) (at_ 8) "A";
    mkProgramme (at_ 8) (mkdatetime (mkdate 738918) (mktime 0 0 0 0)) "B" ].

Definition repeated_start_out : list Programme :=
  [ mkProgramme (mkdatetime (mkdate 738917) (mktime 7 0 0 0))
                (mkdatetime (mkdate 738917) (mktime 8 0 0 0)) "C";
    mkProgramme (mkdatetime (mkdate 738917) (mktime 8 0 0 0))
                (mkdatetime (mkdate 738918) (mktime 0 0 0 0)) "B" ].

(** ** Further notions and inputs *)

(** A time of day on a whole minute, as [time(hh, mm)] builds it. *)
Definition time_on_minute (t : time) : Prop :=
  0 <= hour t <= 23 /\ 0 <= minute t <= 59
  /\ second t = 0 /\ microsecond t = 0.

(** A header whose weekday is not in [WEEKDAY_ES], followed by a time
    and a title. *)
Definition unknown_weekday_page : list string :=
  [(Programacion ++ " de Funday 3")%string; "08:00"; "Morning News"]%string.

(** The scanner's state holds times on whole minutes only. *)
Definition state_on_minute (st : scan_state) : Prop :=
  (forall t, pending_start_time st = Some t -> time_on_minute t)
  /\ Forall (fun p => time_on_minute (dt_time (start p))) (programmes st).

Definition starts_with_space (s : string) : bool :=
  match s with
  | String c _ => is_space c
  | EmptyString => false
  end.

Fixpoint ends_with_space (s : string) : bool :=
  match s with
  | EmptyString => false
  | String c r =>
      match r with
      | EmptyString => is_space c
      | _ => ends_with_space r
      end
  end.

(** A page as the HTML parser may hand it over: blank lines and lines
    with whitespace around the text. *)
Definition untidy_page : list string :=
  [""; ("  " ++ header_jueves_1 ++ " ")%string; "   "; " 08:00";
   "Morning News  "; ""; "09:30 "; "  Talk Show"]%string.

(** The header of Thursday 1 in capitals. *)
Definition header_jueves_1_upper : string :=
  ("PROGRAMACI" ++ String (chr 211) "N DE JUEVES 1")%string.

(** The groups of a header match, the weekday name in lower case. *)
Definition lower_groups (g : string * string) : string * string :=
  (str_lower (fst g), snd g).

(** The first three lines of the loop body of [choose_date_for_section]:
    the year and month in which the offset [month_offset] looks for a
    candidate. *)
Definition visited_month (today : date) (month_offset : Z) : result (Z * Z) :=
  first_of_month <- date_new (year today) (month today) 1 ;;
  approx <- date_add_days first_of_month (31 * month_offset) ;;
  Ok (year approx, month approx).

(** What the loop body does with the visited month. *)
Definition candidate_in_visited (target_weekday target_day : Z) (ym : Z * Z)
    : result (list date) :=
  match date_new (fst ym) (snd ym) target_day with
  | Raise ValueError => Ok []
  | Raise e => Raise e
  | Ok d => if weekday d =? target_weekday then Ok [d] else Ok []
  end.

Definition d20230531 : date := mkdate 738671.

(** 2023-03-01, with the two Wednesdays 2023-02-15 and 2023-03-15, both
    14 days from it, and 2023-05-15 (a Monday). *)
Definition d20230301 : date := mkdate 738580.
Definition d20230315 : date := mkdate 738594.
Definition d20230515 : date := mkdate 738655.

(** A section with a current date and nothing pending. *)
Definition in_section : scan_state := mkstate [] (Some d20240130) None.

(** ** The XMLTV emitter: [xmltv_dt], [_indent_xml], [build_xmltv], [main] *)

(** The settings read from the environment when the module is loaded,
    and the rendering of [%z] for a [datetime] of the zone [TZ] (given by
    the time zone database). *)
Record Config : Type := mkConfig {
  CHANNEL_ID : string;
  CHANNEL_NAME : string;
  CHANNEL_LANG : string;
  strftime_z : datetime -> string
}.

Definition digit_char (n : Z) : ascii := chr (48 + n).

(** [%m], [%d], [%H], [%M], [%S]: two digits. *)
Definition pad2 (n : Z) : string :=
  String (digit_char (n / 10)) (String (digit_char (n mod 10)) EmptyString).

(** [%Y]: four digits (for the years from 1000 on; below, the padding is
    the C library's choice). *)
Definition pad4 (n : Z) : string :=
  String (digit_char (n / 1000))
    (String (digit_char ((n / 100) mod 10))
       (String (digit_char ((n / 10) mod 10))
          (String (digit_char (n mod 10)) EmptyString))).

(** [dt.strftime("%Y%m%d%H%M%S %z")] *)
Definition xmltv_dt (cfg : Config) (dt : datetime) : string :=
  (pad4 (year (dt_date dt)) ++ pad2 (month (dt_date dt))
   ++ pad2 (day (dt_date dt)) ++ pad2 (hour (dt_time dt))
   ++ pad2 (minute (dt_time dt)) ++ pad2 (second (dt_time dt))
   ++ " " ++ strftime_z cfg dt)%string.

(** An [xml.etree.ElementTree.Element]. *)
Local Unset Elimination Schemes.
Inductive Element : Type :=
| mkElement (tag : string) (attrib : list (string * string))
            (text tail : option string) (children : list Element).
Local Set Elimination Schemes.

Definition e_tag (e : Element) : string :=
  match e with mkElement tag _ _ _ _ => tag end.
Definition e_attrib (e : Element) : list (string * string) :=
  match e with mkElement _ attrib _ _ _ => attrib end.
Definition e_text (e : Element) : option string :=
  match e with mkElement _ _ text _ _ => text end.
Definition e_tail (e : Element) : option string :=
  match e with mkElement _ _ _ tail _ => tail end.
Definition e_children (e : Element) : list Element :=
  match e with mkElement _ _ _ _ children => children end.

(** [not s or not s.strip()] for a text or tail [s]. *)
Definition blank (o : option string) : bool :=
  match o with
  | None => true
  | Some s => negb (truthy s) || negb (truthy (strip s))
  end.

(** [level * s] *)
Fixpoint repeat_string (level : nat) (s : string) : string :=
  match level with
  | O => EmptyString
  | S k => (s ++ repeat_string k s)%string
  end.

(** [i = "\n" + level * "  "] *)
Definition indent_of (level : nat) : string :=
  String (chr 10) (repeat_string level "  ").

Fixpoint _indent_xml (elem : Element) (level : nat) : Element :=
  match elem with
  | mkElement tag attrib text tail children =>
      let i := indent_of level in
      match children with
      | [] =>
          mkElement tag attrib text
            (if negb (Nat.eqb level 0) && blank tail then Some i else tail)
            []
      | _ :: _ =>
          mkElement tag attrib
            (if blank text then Some (i ++ "  ")%string else text)
            (if blank tail then Some i else tail)
            (map (fun child => _indent_xml child (S level)) children)
      end
  end.

(** The tree that [build_xmltv] returns, by its root. *)
Definition build_xmltv (cfg : Config) (programmes : list Programme) : Element :=
  let dn := mkElement "display-name" [] (Some (CHANNEL_NAME cfg)) None [] in
  let ch := mkElement "channel" [("id", CHANNEL_ID cfg)]%string None None [dn] in
  let prog (p : Programme) :=
    mkElement "programme"
      [("start", xmltv_dt cfg (start p));
       ("stop", xmltv_dt cfg (stop p));
       ("channel", CHANNEL_ID cfg)]%string
      None None
      [mkElement "title" [("lang", CHANNEL_LANG cfg)]%string
                 (Some (title p)) None []] in
  let tv :=
    mkElement "tv"
      [("generator-info-name", "multimedios-xmltv-scraper")]%string
      None None (ch :: map prog programmes) in
  _indent_xml tv 0.

(** What [main] ends with: [sys.exit(code)], or the document written to
    [OUTPUT_FILE].  The page is given by its text lines; the messages
    printed and the creation of the output directory are left out. *)
Inductive main_outcome : Type :=
| Exit (code : Z)
| Written (tree : Element).

Definition main (cfg : Config) (today : date) (raw_lines : list string)
    : result main_outcome :=
  programmes <- parse_schedule today raw_lines ;;
  match programmes with
  | [] => Ok (Exit 2)
  | _ :: _ => Ok (Written (build_xmltv cfg programmes))
  end.

(** Reading an element: [elem.get(key)], [elem.findall(tag)] and
    [elem.find(tag)]. *)
Fixpoint get_attr (attrib : list (string * string)) (key : string)
    : option string :=
  match attrib with
  | [] => None
  | (k, v) :: r => if String.eqb k key then Some v else get_attr r key
  end.

Definition findall (tag : string) (e : Element) : list Element :=
  filter (fun c => String.eqb (e_tag c) tag) (e_children e).

Definition find (tag : string) (e : Element) : option Element :=
  match findall tag e with
  | c :: _ => Some c
  | [] => None
  end.

(** The start, stop, channel and title of a [programme] element. *)
Definition read_programme (e : Element)
    : option (string * string * string * string) :=
  opt_bind (get_attr (e_attrib e) "start") (fun s =>
  opt_bind (get_attr (e_attrib e) "stop") (fun t =>
  opt_bind (get_attr (e_attrib e) "channel") (fun c =>
  opt_bind (find "title" e) (fun ti =>
  opt_bind (e_text ti) (fun x => Some (s, t, c, x)))))).

(** An element without the texts and tails that are absent or blank. *)
Definition significant (o : option string) : option string :=
  if blank o then None else o.

Fixpoint skeleton (e : Element) : Element :=
  match e with
  | mkElement tag attrib text tail children =>
      mkElement tag attrib (significant text) (significant tail)
        (map skeleton children)
  end.

(** The default settings. *)
Definition default_config : Config :=
  mkConfig "multimedios.canal6.monterrey" "Canal 6 Multimedios Monterrey"
           "es" (fun _ => "-0600"%string).

(** A datetime of the calendar with a four-digit year, on a whole
    minute. *)
Definition printable (dt : datetime) : Prop :=
  1 <= toordinal (dt_date dt) <= Calendar.MAXORDINAL
  /\ 1000 <= year (dt_date dt)
  /\ time_on_minute (dt_time dt).

(** * Properties *)

(** ** The calendar *)

Module CalendarFacts.
Import Calendar CalendarChecks.

Lemma days_before_year_cycles (y : Z) :
  1 <= y ->
  days_before_year y
  = 146097 * ((y - 1) / 400) + 36524 * (((y - 1) mod 400) / 100)
    + 1461 * (((y - 1) mod 100) / 4) + 365 * ((y - 1) mod 4).
Proof.
  intros Hy. unfold days_before_year. cbv zeta.
  Z.div_mod_to_equations. lia.
Qed.

Lemma is_leap_cycles (y : Z) :
  1 <= y ->
  is_leap y
  = (((y - 1) mod 4 =? 3)
     && (negb (((y - 1) mod 100) / 4 =? 24) || (((y - 1) mod 400) / 100 =? 3))).
Proof.
  intros Hy. unfold is_leap.
  repeat match goal with
         | |- context [?a =? ?b] => destruct (Z.eqb_spec a b)
         end; simpl; try reflexivity; exfalso; Z.div_mod_to_equations; lia.
Qed.

Ltac month_cases m :=
  let H := fresh in
  assert (H : m = 1 \/ m = 2 \/ m = 3 \/ m = 4 \/ m = 5 \/ m = 6 \/ m = 7
              \/ m = 8 \/ m = 9 \/ m = 10 \/ m = 11 \/ m = 12) by lia;
  repeat (destruct H as [H|H]; [subst m|]); [..|subst m].

(** Evaluate the month tests and table look-ups once the month is a
    numeral. *)
Ltac month_tables :=
  repeat match goal with
         | |- context [Z.eqb ?a ?b] =>
             let v := eval vm_compute in (Z.eqb a b) in
             change (Z.eqb a b) with v
         | |- context [Z.ltb ?a ?b] =>
             let v := eval vm_compute in (Z.ltb a b) in
             change (Z.ltb a b) with v
         | H : context [Z.eqb ?a ?b] |- _ =>
             let v := eval vm_compute in (Z.eqb a b) in
             change (Z.eqb a b) with v in H
         | H : context [Z.ltb ?a ?b] |- _ =>
             let v := eval vm_compute in (Z.ltb a b) in
             change (Z.ltb a b) with v in H
         end;
  unfold DAYS_BEFORE_MONTH, DAYS_IN_MONTH in *;
  cbn [andb] in *.

Lemma in_zrange (lo x : Z) (len : nat) :
  lo <= x < lo + Z.of_nat len -> In x (zrange lo len).
Proof.
  intros H. unfold zrange. apply in_map_iff.
  exists (Z.to_nat (x - lo)). split; [lia|].
  apply in_seq. lia.
Qed.

Lemma month_day_check_ok (leapyear : bool) : month_day_check leapyear = true.
Proof. destruct leapyear; vm_compute; reflexivity. Qed.

Lemma month_day_cases (leapyear : bool) (m d : Z) :
  1 <= m <= 12 ->
  1 <= d <= (if (m =? 2) && leapyear then 29 else DAYS_IN_MONTH m) ->
  let k := DAYS_BEFORE_MONTH m
           + (if (2 <? m) && leapyear then 1 else 0) + d - 1 in
  0 <= k <= 365
  /\ (k <= 364 -> month_day leapyear k = (m, d))
  /\ (364 < k -> k = 365 /\ leapyear = true /\ m = 12 /\ d = 31).
Proof.
  intros Hm Hd k.
  assert (Hd31 : d <= 31).
  { destruct ((m =? 2) && leapyear); [lia|].
    assert (DAYS_IN_MONTH m <= 31); [|lia].
    month_cases m; month_tables; lia. }
  pose proof (month_day_check_ok leapyear) as Hc.
  unfold month_day_check in Hc. rewrite forallb_forall in Hc.
  specialize (Hc m (in_zrange 1 m 12 ltac:(lia))).
  rewrite forallb_forall in Hc.
  specialize (Hc d (in_zrange 1 d 31 ltac:(lia))).
  cbv zeta in Hc. fold k in Hc.
  assert (Hle : (d <=? (if (m =? 2) && leapyear then 29 else DAYS_IN_MONTH m)) = true)
    by (apply Z.leb_le; lia).
  rewrite Hle in Hc.
  assert (Hk : 0 <= k <= 365).
  { clear Hc Hle. unfold k. month_cases m; destruct leapyear; month_tables; lia. }
  split; [exact Hk|]. split.
  - intros H364. apply Z.leb_le in H364. rewrite H364 in Hc. simpl in Hc.
    destruct (month_day leapyear k) as [m' d'].
    apply andb_prop in Hc. destruct Hc as [H1 H2].
    apply Z.eqb_eq in H1, H2. now subst.
  - intros H364. assert (E : (k <=? 364) = false) by (apply Z.leb_gt; lia).
    rewrite E in Hc. simpl in Hc.
    apply andb_prop in Hc. destruct Hc as [H1 H2].
    apply Z.eqb_eq in H1, H2. subst m d.
    clear Hle. unfold k in *. destruct leapyear; month_tables; repeat split; lia.
Qed.

Lemma ord2ymd_in_year (a b c e k : Z) :
  0 <= a -> 0 <= b <= 3 -> 0 <= c <= 24 -> 0 <= e <= 3 -> 0 <= k <= 364 ->
  ord2ymd (146097 * a + 36524 * b + 1461 * c + 365 * e + k + 1)
  = (400 * a + 100 * b + 4 * c + e + 1,
     fst (month_day ((e =? 3) && (negb (c =? 24) || (b =? 3))) k),
     snd (month_day ((e =? 3) && (negb (c =? 24) || (b =? 3))) k)).
Proof.
  intros Ha Hb Hc He Hk. unfold ord2ymd. cbv zeta.
  replace (146097 * a + 36524 * b + 1461 * c + 365 * e + k + 1 - 1)
    with (146097 * a + (36524 * b + 1461 * c + 365 * e + k)) by ring.
  set (N1 := 36524 * b + 1461 * c + 365 * e + k).
  assert (E1 : (146097 * a + N1) / 146097 = a)
    by (unfold N1; Z.div_mod_to_equations; lia).
  assert (E2 : (146097 * a + N1) mod 146097 = N1)
    by (unfold N1; Z.div_mod_to_equations; lia).
  rewrite E1, E2.
  set (N2 := 1461 * c + 365 * e + k).
  assert (E3 : N1 / 36524 = b) by (unfold N1; Z.div_mod_to_equations; lia).
  assert (E4 : N1 mod 36524 = N2) by (unfold N1, N2; Z.div_mod_to_equations; lia).
  rewrite E3, E4.
  assert (E5 : N2 / 1461 = c) by (unfold N2; Z.div_mod_to_equations; lia).
  assert (E6 : N2 mod 1461 = 365 * e + k) by (unfold N2; Z.div_mod_to_equations; lia).
  rewrite E5, E6.
  assert (E7 : (365 * e + k) / 365 = e) by (Z.div_mod_to_equations; lia).
  assert (E8 : (365 * e + k) mod 365 = k) by (Z.div_mod_to_equations; lia).
  rewrite E7, E8.
  assert (E9 : (e =? 4) = false) by (apply Z.eqb_neq; lia).
  assert (E10 : (b =? 4) = false) by (apply Z.eqb_neq; lia).
  rewrite E9, E10. simpl orb. cbv iota.
  unfold month_day. cbv zeta.
  replace (a * 400 + 1 + b * 100 + c * 4 + e)
    with (400 * a + 100 * b + 4 * c + e + 1) by ring.
  destruct (k <? _); reflexivity.
Qed.

Ltac same_year :=
  match goal with
  | |- (?x, _, _) = (?y, _, _) => replace x with y by ring
  end;
  reflexivity.

Lemma ord2ymd_year_end (a b c e : Z) :
  0 <= a -> 0 <= b <= 3 -> 0 <= c <= 24 -> e = 3 ->
  (c = 24 -> b = 3) ->
  ord2ymd (146097 * a + 36524 * b + 1461 * c + 365 * e + 365 + 1)
  = (400 * a + 100 * b + 4 * c + e + 1, 12, 31).
Proof.
  intros Ha Hb Hc -> Hcb. unfold ord2ymd. cbv zeta.
  replace (146097 * a + 36524 * b + 1461 * c + 365 * 3 + 365 + 1 - 1)
    with (146097 * a + (36524 * b + 1461 * c + 1460)) by ring.
  set (N1 := 36524 * b + 1461 * c + 1460).
  assert (E1 : (146097 * a + N1) / 146097 = a)
    by (unfold N1; Z.div_mod_to_equations; lia).
  assert (E2 : (146097 * a + N1) mod 146097 = N1)
    by (unfold N1; Z.div_mod_to_equations; lia).
  rewrite E1, E2.
  destruct (Z.eq_dec c 24) as [E24|Hc24].
  - assert (E3 : N1 / 36524 = 4)
      by (unfold N1; rewrite E24, (Hcb E24); reflexivity).
    assert (E4 : N1 mod 36524 = 0)
      by (unfold N1; rewrite E24, (Hcb E24); reflexivity).
    rewrite E3, E4.
    change (0 / 1461) with 0. change (0 mod 1461) with 0.
    change (0 / 365) with 0.
    change ((0 =? 4) || (4 =? 4)) with true. cbv iota.
    rewrite E24, (Hcb E24). same_year.
  - set (N2 := 1461 * c + 1460).
    assert (E3 : N1 / 36524 = b) by (unfold N1; Z.div_mod_to_equations; lia).
    assert (E4 : N1 mod 36524 = N2)
      by (unfold N1, N2; Z.div_mod_to_equations; lia).
    rewrite E3, E4.
    assert (E5 : N2 / 1461 = c) by (unfold N2; Z.div_mod_to_equations; lia).
    assert (E6 : N2 mod 1461 = 1460)
      by (unfold N2; Z.div_mod_to_equations; lia).
    rewrite E5, E6.
    change (1460 / 365) with 4.
    change (4 =? 4) with true. cbn [orb]. same_year.
Qed.

Theorem ord2ymd_ymd2ord (y m d : Z) :
  1 <= y -> 1 <= m <= 12 -> 1 <= d <= days_in_month y m ->
  ord2ymd (ymd2ord y m d) = (y, m, d).
Proof.
  intros Hy Hm Hd.
  pose proof (days_before_year_cycles y Hy) as Hdby.
  pose proof (is_leap_cycles y Hy) as Hleap.
  set (a := (y - 1) / 400) in *.
  set (b := ((y - 1) mod 400) / 100) in *.
  set (c := ((y - 1) mod 100) / 4) in *.
  set (e := (y - 1) mod 4) in *.
  assert (Hbounds : 0 <= a /\ 0 <= b <= 3 /\ 0 <= c <= 24 /\ 0 <= e <= 3
                    /\ y = 400 * a + 100 * b + 4 * c + e + 1).
  { unfold a, b, c, e. Z.div_mod_to_equations. lia. }
  destruct Hbounds as (Ha & Hb & Hc & He & Hyeq).
  unfold days_in_month in Hd.
  destruct (month_day_cases (is_leap y) m d Hm Hd) as (Hk & Hin & Hend).
  cbv zeta in Hk, Hin, Hend.
  set (k := DAYS_BEFORE_MONTH m
            + (if (2 <? m) && is_leap y then 1 else 0) + d - 1) in *.
  assert (Hord : ymd2ord y m d
                 = 146097 * a + 36524 * b + 1461 * c + 365 * e + k + 1).
  { unfold ymd2ord, days_before_month. rewrite Hdby. unfold k. ring. }
  rewrite Hord.
  destruct (Z_le_gt_dec k 364) as [H364|H364].
  - rewrite ord2ymd_in_year by lia.
    rewrite <- Hleap, (Hin H364). simpl. now rewrite Hyeq.
  - destruct (Hend ltac:(lia)) as (Ek & El & -> & ->).
    rewrite Ek. rewrite El in Hleap. symmetry in Hleap.
    apply andb_prop in Hleap. destruct Hleap as [He3 Hcb].
    apply Z.eqb_eq in He3.
    rewrite ord2ymd_year_end by lia.
    now rewrite Hyeq.
Qed.

Lemma month_day_inverse_check_ok (leapyear : bool) :
  month_day_inverse_check leapyear = true.
Proof. destruct leapyear; vm_compute; reflexivity. Qed.

Lemma month_day_valid (leapyear : bool) (k : Z) :
  0 <= k <= 364 ->
  let m := fst (month_day leapyear k) in
  let d := snd (month_day leapyear k) in
  1 <= m <= 12
  /\ 1 <= d <= (if (m =? 2) && leapyear then 29 else DAYS_IN_MONTH m)
  /\ DAYS_BEFORE_MONTH m + (if (2 <? m) && leapyear then 1 else 0) + d - 1 = k.
Proof.
  intros Hk.
  pose proof (month_day_inverse_check_ok leapyear) as Hc.
  unfold month_day_inverse_check in Hc. rewrite forallb_forall in Hc.
  specialize (Hc k (in_zrange 0 k 365 ltac:(lia))).
  destruct (month_day leapyear k) as [m d]. cbn [fst snd].
  repeat (apply andb_prop in Hc; destruct Hc as [Hc ?]).
  repeat match goal with
         | H : (_ <=? _) = true |- _ => apply Z.leb_le in H
         | H : (_ =? _) = true |- _ => apply Z.eqb_eq in H
         end.
  lia.
Qed.

(** Every ordinal from 1 on is the ordinal of the date that [_ord2ymd]
    reads off it, and that date is one of the calendar. *)
Theorem ymd2ord_ord2ymd (n : Z) :
  1 <= n ->
  let '(y, m, d) := ord2ymd n in
  1 <= y /\ 1 <= m <= 12 /\ 1 <= d <= days_in_month y m
  /\ ymd2ord y m d = n
  /\ (n <= MAXORDINAL -> y <= MAXYEAR).
Proof.
  intros Hn.
  set (a := (n - 1) / 146097).
  set (r1 := (n - 1) mod 146097).
  set (b := r1 / 36524).
  set (r2 := r1 mod 36524).
  set (c := r2 / 1461).
  set (r3 := r2 mod 1461).
  set (e := r3 / 365).
  set (k := r3 mod 365).
  assert (Hdec : 0 <= a /\ 0 <= b <= 4 /\ 0 <= c <= 24 /\ 0 <= e <= 4
                 /\ 0 <= k <= 364
                 /\ n = 146097 * a + 36524 * b + 1461 * c + 365 * e + k + 1
                 /\ (b = 4 -> c = 0 /\ e = 0 /\ k = 0)
                 /\ (e = 4 -> k = 0 /\ c <= 23)).
  { unfold a, b, c, e, k, r3, r2, r1. Z.div_mod_to_equations. lia. }
  destruct Hdec as (Ha & Hb & Hc & He & Hk & Hneq & Hb4 & He4).
  clearbody a b c e k. clear r1 r2 r3. subst n.
  destruct (Z.eq_dec b 4) as [Eb|Eb].
  - destruct (Hb4 Eb) as (Ec & Ee & Ek).
    replace (146097 * a + 36524 * b + 1461 * c + 365 * e + k + 1)
      with (146097 * a + 36524 * 3 + 1461 * 24 + 365 * 3 + 365 + 1) by lia.
    rewrite ord2ymd_year_end by lia.
    assert (Hl : is_leap (400 * a + 100 * 3 + 4 * 24 + 3 + 1) = true).
    { rewrite is_leap_cycles by lia.
      assert (E1 : (400 * a + 100 * 3 + 4 * 24 + 3 + 1 - 1) mod 4 = 3)
        by (Z.div_mod_to_equations; lia).
      assert (E3 : ((400 * a + 100 * 3 + 4 * 24 + 3 + 1 - 1) mod 400) / 100 = 3)
        by (Z.div_mod_to_equations; lia).
      rewrite E1, E3. change (3 =? 3) with true. cbn [andb].
      apply orb_true_r. }
    unfold days_in_month, ymd2ord, days_before_month. rewrite Hl.
    rewrite days_before_year_cycles by lia.
    change (12 =? 2) with false. change (2 <? 12) with true.
    cbn [andb DAYS_IN_MONTH DAYS_BEFORE_MONTH].
    repeat split; try lia.
    + Z.div_mod_to_equations. lia.
    + unfold MAXORDINAL, MAXYEAR. lia.
  - destruct (Z.eq_dec e 4) as [Ee|Ee].
    + destruct (He4 Ee) as (Ek & Hc23).
      replace (146097 * a + 36524 * b + 1461 * c + 365 * e + k + 1)
        with (146097 * a + 36524 * b + 1461 * c + 365 * 3 + 365 + 1) by lia.
      rewrite ord2ymd_year_end by lia.
      set (y := 400 * a + 100 * b + 4 * c + 3 + 1).
      assert (Hy : 1 <= y) by (unfold y; lia).
      assert (Hl : is_leap y = true).
      { rewrite (is_leap_cycles y Hy).
        assert (E1 : (y - 1) mod 4 = 3) by (unfold y; Z.div_mod_to_equations; lia).
        assert (E2 : ((y - 1) mod 100) / 4 = c)
          by (unfold y; Z.div_mod_to_equations; lia).
        rewrite E1, E2. change (3 =? 3) with true. cbn [andb].
        assert (E3 : (c =? 24) = false) by (apply Z.eqb_neq; lia).
        now rewrite E3. }
      unfold days_in_month, ymd2ord, days_before_month. rewrite Hl.
      rewrite days_before_year_cycles by lia.
      change (12 =? 2) with false. change (2 <? 12) with true.
      cbn [andb DAYS_IN_MONTH DAYS_BEFORE_MONTH].
      repeat split; try lia.
      * unfold y. Z.div_mod_to_equations. lia.
      * unfold MAXORDINAL, MAXYEAR, y. lia.
    + rewrite ord2ymd_in_year by lia.
      set (y := 400 * a + 100 * b + 4 * c + e + 1).
      assert (Hy : 1 <= y) by (unfold y; lia).
      assert (E1 : (y - 1) mod 4 = e) by (unfold y; Z.div_mod_to_equations; lia).
      assert (E2 : ((y - 1) mod 100) / 4 = c)
        by (unfold y; Z.div_mod_to_equations; lia).
      assert (E3 : ((y - 1) mod 400) / 100 = b)
        by (unfold y; Z.div_mod_to_equations; lia).
      assert (E4 : (y - 1) / 400 = a) by (unfold y; Z.div_mod_to_equations; lia).
      assert (Hl : is_leap y = (e =? 3) && (negb (c =? 24) || (b =? 3)))
        by (rewrite (is_leap_cycles y Hy); now rewrite E1, E2, E3).
      rewrite <- Hl.
      destruct (month_day_valid (is_leap y) k Hk) as (Hm & Hd & Hkeq).
      cbv zeta in Hm, Hd, Hkeq.
      unfold days_in_month, ymd2ord, days_before_month.
      rewrite days_before_year_cycles by lia.
      rewrite E1, E2, E3, E4.
      repeat split; try lia.
      unfold MAXORDINAL, MAXYEAR, y. lia.
Qed.
End CalendarFacts.


(** ** The stable sort *)

Section StableSortFacts.
Context {A : Type}.
Variable key : A -> Z.

Let ltb (a b : A) : bool := key a <? key b.

Lemma insert_stable_not_nil (x : A) (l : list A) :
  insert_stable ltb x l <> [].
Proof.
  destruct l as [|y r]; simpl; [discriminate|].
  destruct (ltb y x); discriminate.
Qed.

Lemma sort_stable_nil_inv (l : list A) :
  sort_stable ltb l = [] -> l = [].
Proof.
  destruct l as [|x r]; simpl; [reflexivity|].
  intros H. exfalso. exact (insert_stable_not_nil _ _ H).
Qed.

(** The head of the sorted list is the first element of least key. *)
Lemma sort_stable_head (l : list A) (c : A) (r : list A) :
  sort_stable ltb l = c :: r ->
  exists l1 l2,
    l = l1 ++ c :: l2
    /\ (forall x, In x l1 -> key c < key x)
    /\ (forall x, In x l2 -> key c <= key x).
Proof.
  revert c r. induction l as [|x t IH]; intros c r; simpl; [discriminate|].
  destruct (sort_stable ltb t) as [|c' r'] eqn:Et.
  - apply sort_stable_nil_inv in Et. subst t. simpl.
    intros H. injection H as <- _.
    exists [], []. repeat split; simpl; intros ? [].
  - destruct (IH c' r' eq_refl) as (l1 & l2 & Hl & H1 & H2).
    simpl. unfold ltb at 1. destruct (key c' <? key x) eqn:Ecmp.
    + intros H. injection H as <- _.
      apply Z.ltb_lt in Ecmp.
      exists (x :: l1), l2. repeat split.
      * simpl. now rewrite Hl.
      * intros y [<-|Hy]; [exact Ecmp | now apply H1].
      * exact H2.
    + intros H. injection H as <- _.
      apply Z.ltb_ge in Ecmp.
      exists [], t. repeat split.
      * intros ? [].
      * intros y Hy. rewrite Hl in Hy.
        apply in_app_or in Hy. destruct Hy as [Hy|[<-|Hy]].
        -- specialize (H1 y Hy). lia.
        -- exact Ecmp.
        -- specialize (H2 y Hy). lia.
Qed.
End StableSortFacts.

(** ** The section/date resolver *)

(** Fixed points of the calendar: [date.min], [date.max], the ordinals of
    1970-01-01 and 2000-01-01, a leap day, and the weekday of
    2024-02-01, a Thursday. *)
Example calendar_landmarks :
  Calendar.ymd2ord 1 1 1 = 1
  /\ Calendar.ymd2ord 9999 12 31 = Calendar.MAXORDINAL
  /\ Calendar.ymd2ord 1970 1 1 = 719163
  /\ Calendar.ord2ymd 730120 = (2000, 1, 1)
  /\ Calendar.ord2ymd (Calendar.ymd2ord 2024 2 29) = (2024, 2, 29)
  /\ date_new 2023 2 29 = Raise ValueError
  /\ (d <- date_new 2024 2 1 ;; Ok (weekday d)) = Ok 3.
Proof. vm_compute. repeat split; reflexivity. Qed.

Lemma date_new_raises (y m d : Z) (e : exn) :
  date_new y m d = Raise e ->
  (e = OverflowError
   /\ fits_c_int y && fits_c_int m && fits_c_int d = false)
  \/ (e = ValueError
      /\ fits_c_int y && fits_c_int m && fits_c_int d = true).
Proof.
  unfold date_new.
  destruct (fits_c_int y && fits_c_int m && fits_c_int d); cbn [negb].
  - destruct (_ && _); [discriminate|]. intros [= <-]. now right.
  - intros [= <-]. now left.
Qed.

Lemma date_new_raises_ValueError (y m d : Z) (e : exn) :
  fits_c_int y && fits_c_int m && fits_c_int d = true ->
  date_new y m d = Raise e -> e = ValueError.
Proof.
  intros Hfit H. apply date_new_raises in H.
  destruct H as [[_ H]|[H _]]; [congruence | exact H].
Qed.

Lemma days_in_month_le_31 (y m : Z) : Calendar.days_in_month y m <= 31.
Proof.
  unfold Calendar.days_in_month, Calendar.DAYS_IN_MONTH.
  destruct ((m =? 2) && Calendar.is_leap y); [lia|].
  destruct m as [|p|p]; try lia.
  do 4 (destruct p as [p|p|]; try lia).
Qed.

Lemma date_new_inv (y m d : Z) (x : date) :
  date_new y m d = Ok x ->
  (1 <= y <= Calendar.MAXYEAR /\ 1 <= m <= 12
   /\ 1 <= d <= Calendar.days_in_month y m)
  /\ toordinal x = Calendar.ymd2ord y m d.
Proof.
  unfold date_new, Calendar.MINYEAR.
  destruct (negb _); [discriminate|].
  destruct ((1 <=? y) && (y <=? Calendar.MAXYEAR) && (1 <=? m) && (m <=? 12)
            && (1 <=? d) && (d <=? Calendar.days_in_month y m)) eqn:E;
    [|discriminate].
  intros [= <-]. split; [lia | reflexivity].
Qed.

Lemma date_new_ok (y m d : Z) :
  1 <= y <= Calendar.MAXYEAR -> 1 <= m <= 12 ->
  1 <= d <= Calendar.days_in_month y m ->
  date_new y m d = Ok (mkdate (Calendar.ymd2ord y m d)).
Proof.
  intros Hy Hm Hd. unfold date_new, Calendar.MINYEAR.
  pose proof (days_in_month_le_31 y m) as H31.
  unfold Calendar.MAXYEAR in Hy.
  assert (Hfit : fits_c_int y && fits_c_int m && fits_c_int d = true)
    by (unfold fits_c_int, INT_MIN, INT_MAX; lia).
  rewrite Hfit. cbn [negb].
  assert (E : (1 <=? y) && (y <=? 9999) && (1 <=? m) && (m <=? 12)
              && (1 <=? d) && (d <=? Calendar.days_in_month y m) = true)
    by lia.
  unfold Calendar.MAXYEAR. now rewrite E.
Qed.

(** [date(y, m, d)] has the year, month and day it was built from. *)
Lemma date_new_fields (y m d : Z) (x : date) :
  date_new y m d = Ok x -> year x = y /\ month x = m /\ day x = d.
Proof.
  intros H. apply date_new_inv in H. destruct H as ((Hy & Hm & Hd) & Ho).
  unfold year, month, day. rewrite Ho.
  rewrite CalendarFacts.ord2ymd_ymd2ord by lia. auto.
Qed.

(** A date of the calendar is rebuilt from its year, month and day. *)
Lemma date_of_fields (x : date) :
  1 <= toordinal x <= Calendar.MAXORDINAL ->
  date_new (year x) (month x) (day x) = Ok x.
Proof.
  intros [Hlo Hhi]. unfold year, month, day.
  pose proof (CalendarFacts.ymd2ord_ord2ymd (toordinal x) Hlo) as H.
  destruct (Calendar.ord2ymd (toordinal x)) as [[y m] d]. cbn [fst snd].
  destruct H as (Hy & Hm & Hd & Ho & Hmax).
  specialize (Hmax Hhi).
  rewrite date_new_ok by lia.
  rewrite Ho. now destruct x.
Qed.

(** A date built in the month of [x] is at most 30 days from [x]. *)
Lemma same_month_near (x d : date) (target_day : Z) :
  1 <= toordinal x <= Calendar.MAXORDINAL ->
  date_new (year x) (month x) target_day = Ok d ->
  -30 <= toordinal d - toordinal x <= 30.
Proof.
  intros Hx Hd.
  pose proof (date_of_fields x Hx) as Hx'.
  apply date_new_inv in Hx', Hd.
  destruct Hx' as ((_ & _ & Hdx) & Hox), Hd as ((_ & _ & Hdd) & Hod).
  pose proof (days_in_month_le_31 (year x) (month x)).
  rewrite Hod, Hox. unfold Calendar.ymd2ord. lia.
Qed.

(** The months that the loop visits for [month_offset = -1], for a day in
    each month of 2023: after a month shorter than 31 days the step of 31
    days lands two months back. *)
Example offset_minus_1_months_2023 :
  map (fun m =>
         match date_add_days (mkdate (Calendar.ymd2ord 2023 m 1)) (31 * -1) with
         | Ok approx => month approx
         | Raise _ => 0
         end)
      [1; 2; 3; 4; 5; 6; 7; 8; 9; 10; 11; 12]
  = [12; 1; 1; 3; 3; 5; 5; 7; 8; 8; 10; 10].
Proof. vm_compute. reflexivity. Qed.

(** C1 (evaluated at the failing input).  On 2023-05-02 a section headed
    "Domingo 30" is resolved by looking at March, May and June 2023: the
    offset -1 lands on 2023-03-31, so April is never tried, no candidate
    survives and the fallback 2023-05-30 (a Tuesday) is returned, although
    the previous calendar month holds the Sunday 2023-04-30, which the
    resolver as specified returns as its only candidate. *)
Theorem choose_date_misses_previous_month :
  year d20230502 = 2023 /\ month d20230502 = 5 /\ day d20230502 = 2
  /\ (first_of_month <- date_new (year d20230502) (month d20230502) 1 ;;
      approx <- date_add_days first_of_month (31 * -1) ;;
      Ok (year approx, month approx, day approx)) = Ok (2023, 3, 31)
  /\ candidates 6 30 d20230502 = Ok []
  /\ choose_date_for_section 6 30 d20230502 = date_new 2023 5 30
  /\ (d <- date_new 2023 5 30 ;; Ok (weekday d)) = Ok 1
  /\ Ok (SpecResolver.candidates 6 30 d20230502)
     = (d <- date_new 2023 4 30 ;; Ok [d])
  /\ Ok (SpecResolver.choose 6 30 d20230502)
     = (d <- date_new 2023 4 30 ;; Ok (Some d))
  /\ (d <- date_new 2023 4 30 ;; Ok (weekday d)) = Ok 6.
Proof. vm_compute. repeat split; reflexivity. Qed.

(** The head of the sorted candidates, in terms of the enumeration. *)
Lemma choose_date_tie_first_enumerated_aux
    (target_weekday target_day : Z) (today : date) (cands : list date) :
  candidates target_weekday target_day today = Ok cands ->
  cands <> [] ->
  exists before c after,
    cands = before ++ c :: after
    /\ choose_date_for_section target_weekday target_day today = Ok c
    /\ (forall x, In x before -> distance today c < distance today x)
    /\ (forall x, In x after -> distance today c <= distance today x).
Proof.
  intros Hc Hne. unfold choose_date_for_section. rewrite Hc. simpl.
  destruct cands as [|c0 cs]; [contradiction|].
  destruct (sort_stable (fun a b => distance today a <? distance today b)
              (c0 :: cs)) as [|c r] eqn:Es.
  - apply (sort_stable_nil_inv (distance today)) in Es. discriminate.
  - destruct (sort_stable_head (distance today) _ _ _ Es)
      as (l1 & l2 & Hl & H1 & H2).
    exists l1, c, l2. auto.
Qed.

Lemma candidates_enumeration
    (target_weekday target_day : Z) (today : date) (cands : list date) :
  candidates target_weekday target_day today = Ok cands ->
  exists c_prev c_cur c_next,
    candidate_at target_weekday target_day today (-1) = Ok c_prev
    /\ candidate_at target_weekday target_day today 0 = Ok c_cur
    /\ candidate_at target_weekday target_day today 1 = Ok c_next
    /\ cands = c_prev ++ c_cur ++ c_next.
Proof.
  unfold candidates, candidates_over.
  destruct (candidate_at target_weekday target_day today (-1)) as [c1|];
    cbn [bind]; [|discriminate].
  destruct (candidate_at target_weekday target_day today 0) as [c2|];
    cbn [bind]; [|discriminate].
  destruct (candidate_at target_weekday target_day today 1) as [c3|];
    cbn [bind]; [|discriminate].
  intros [= <-]. exists c1, c2, c3. now rewrite app_nil_r.
Qed.

(** The sort is stable.  The candidates are collected in the order of the
    offsets -1, 0, 1; when there are candidates, the date returned is one
    of least distance from [today], and every candidate collected before
    it is strictly farther. *)
Theorem choose_date_tie_first_enumerated
    (target_weekday target_day : Z) (today : date) (cands : list date) :
  candidates target_weekday target_day today = Ok cands ->
  cands <> [] ->
  (exists c_prev c_cur c_next,
      candidate_at target_weekday target_day today (-1) = Ok c_prev
      /\ candidate_at target_weekday target_day today 0 = Ok c_cur
      /\ candidate_at target_weekday target_day today 1 = Ok c_next
      /\ cands = c_prev ++ c_cur ++ c_next)
  /\ exists before c after,
       cands = before ++ c :: after
       /\ choose_date_for_section target_weekday target_day today = Ok c
       /\ (forall x, In x before -> distance today c < distance today x)
       /\ (forall x, In x after -> distance today c <= distance today x).
Proof.
  intros Hc Hne. split.
  - exact (candidates_enumeration _ _ _ _ Hc).
  - exact (choose_date_tie_first_enumerated_aux _ _ _ _ Hc Hne).
Qed.

(** On 2023-02-15 the Wednesdays 2023-02-01 and 2023-03-01 are both 14
    days away; the one of the current month, enumerated first, wins. *)
Lemma choose_date_tie_first_enumerated_witness :
  candidates 2 1 d20230215 = Ok [mkdate 738552; mkdate 738580]
  /\ distance d20230215 (mkdate 738552) = distance d20230215 (mkdate 738580)
  /\ (exists c_prev c_cur c_next,
         candidate_at 2 1 d20230215 (-1) = Ok c_prev
         /\ candidate_at 2 1 d20230215 0 = Ok c_cur
         /\ candidate_at 2 1 d20230215 1 = Ok c_next
         /\ [mkdate 738552; mkdate 738580] = c_prev ++ c_cur ++ c_next)
  /\ exists before c after,
       [mkdate 738552; mkdate 738580] = before ++ c :: after
       /\ choose_date_for_section 2 1 d20230215 = Ok c
       /\ (forall x, In x before -> distance d20230215 c < distance d20230215 x)
       /\ (forall x, In x after -> distance d20230215 c <= distance d20230215 x).
Proof.
  split; [vm_compute; reflexivity|].
  split; [vm_compute; reflexivity|].
  apply (choose_date_tie_first_enumerated 2 1 d20230215).
  - vm_compute. reflexivity.
  - discriminate.
Defined.

Example choose_date_tie_example :
  choose_date_for_section 2 1 d20230215 = Ok (mkdate 738552)
  /\ Calendar.ord2ymd 738552 = (2023, 2, 1)
  /\ Calendar.ord2ymd 738580 = (2023, 3, 1).
Proof. vm_compute. repeat split; reflexivity. Qed.

(** C6 (evaluated at the failing input).  On 2023-03-01 a section headed
    "Miércoles 15" has two dates at the same distance of 14 days: the
    Wednesday 2023-02-15 of the previous month and the Wednesday
    2023-03-15 of the current month.  Previous month before current
    month, the date to return is 2023-02-15, and the resolver as
    specified returns it.  The code returns 2023-03-15: its offset -1
    lands on 2023-01-29, so January is tried instead of February, and
    2023-03-15 is its only candidate. *)
Theorem choose_date_tie_misses_previous_month :
  (year d20230301, month d20230301, day d20230301) = (2023, 3, 1)
  /\ (year d20230215, month d20230215, day d20230215) = (2023, 2, 15)
  /\ (year d20230315, month d20230315, day d20230315) = (2023, 3, 15)
  /\ SpecResolver.candidates 2 15 d20230301 = [d20230215; d20230315]
  /\ distance d20230301 d20230215 = 14
  /\ distance d20230301 d20230315 = 14
  /\ SpecResolver.choose 2 15 d20230301 = Some d20230215
  /\ visited_month d20230301 (-1) = Ok (2023, 1)
  /\ candidates 2 15 d20230301 = Ok [d20230315]
  /\ choose_date_for_section 2 15 d20230301 = Ok d20230315.
Proof. vm_compute. repeat split; reflexivity. Qed.

Lemma candidates_ok_first_of_month
    (target_weekday target_day : Z) (today : date) (cands : list date) :
  candidates target_weekday target_day today = Ok cands ->
  exists f, date_new (year today) (month today) 1 = Ok f.
Proof.
  unfold candidates, candidates_over, candidate_at.
  destruct (date_new (year today) (month today) 1) as [f|e]; [eauto|].
  discriminate.
Qed.

(** The turn of the loop for [month_offset = 0] builds the very date of
    the fallback, so when the loop ends without raising, the only error
    left to the fallback is the [ValueError] that it catches. *)
Lemma candidate_at_current_month
    (target_weekday target_day : Z) (today : date) (c : list date) (e : exn) :
  candidate_at target_weekday target_day today 0 = Ok c ->
  date_new (year today) (month today) target_day = Raise e ->
  e = ValueError.
Proof.
  unfold candidate_at.
  destruct (date_new (year today) (month today) 1) as [f|] eqn:Ef;
    cbn [bind]; [|discriminate].
  destruct (date_new_fields _ _ _ _ Ef) as (Hy & Hm & _).
  unfold date_add_days. change (31 * 0) with 0. rewrite Z.add_0_r.
  destruct ((1 <=? toordinal f) && (toordinal f <=? Calendar.MAXORDINAL));
    cbn [bind]; [|discriminate].
  replace (mkdate (toordinal f)) with f by now destruct f.
  rewrite Hy, Hm. intros H He. rewrite He in H.
  destruct e; [reflexivity | discriminate | discriminate].
Qed.

Lemma choose_date_no_candidate
    (target_weekday target_day : Z) (today : date) :
  candidates target_weekday target_day today = Ok [] ->
  choose_date_for_section target_weekday target_day today
  = Ok (match date_new (year today) (month today) target_day with
        | Ok d => d
        | Raise _ => today
        end).
Proof.
  intros Hc. unfold choose_date_for_section. rewrite Hc. cbn [bind].
  destruct (candidates_enumeration _ _ _ _ Hc) as (c1 & c2 & c3 & _ & H0 & _).
  destruct (date_new (year today) (month today) target_day) as [d|e] eqn:Ed.
  - reflexivity.
  - rewrite (candidate_at_current_month _ _ _ _ _ H0 Ed). reflexivity.
Qed.

(** The fallback.  When the loop ends with an empty list, the resolver
    returns a date: the one with today's year, today's month and the
    wanted day of the month when that month has such a day, and [today]
    itself otherwise. *)
Theorem choose_date_fallback
    (target_weekday target_day : Z) (today : date) :
  candidates target_weekday target_day today = Ok [] ->
  exists r,
    choose_date_for_section target_weekday target_day today = Ok r
    /\ if (1 <=? target_day)
          && (target_day <=? Calendar.days_in_month (year today) (month today))
       then year r = year today /\ month r = month today /\ day r = target_day
       else r = today.
Proof.
  intros Hc. rewrite (choose_date_no_candidate _ _ _ Hc).
  destruct (candidates_ok_first_of_month _ _ _ _ Hc) as (f & Hf).
  apply date_new_inv in Hf. destruct Hf as ((Hy & Hm & _) & _).
  eexists. split; [reflexivity|].
  destruct ((1 <=? target_day)
            && (target_day <=? Calendar.days_in_month (year today) (month today)))
    eqn:E.
  - rewrite date_new_ok by lia.
    apply date_new_fields. apply date_new_ok; lia.
  - destruct (date_new (year today) (month today) target_day) as [d|e] eqn:Ed;
      [|reflexivity].
    apply date_new_inv in Ed. lia.
Qed.

(** Both fallbacks: "Domingo 30" on 2023-05-02 gives 2023-05-30, and
    "Lunes 31" on 2023-04-10 (April has 30 days) gives 2023-04-10. *)
Lemma choose_date_fallback_witness :
  (candidates 6 30 d20230502 = Ok []
   /\ exists r,
        choose_date_for_section 6 30 d20230502 = Ok r
        /\ year r = 2023 /\ month r = 5 /\ day r = 30)
  /\ (candidates 0 31 d20230410 = Ok []
      /\ exists r,
           choose_date_for_section 0 31 d20230410 = Ok r /\ r = d20230410).
Proof.
  split.
  - split; [vm_compute; reflexivity|].
    apply (choose_date_fallback 6 30 d20230502). vm_compute. reflexivity.
  - split; [vm_compute; reflexivity|].
    apply (choose_date_fallback 0 31 d20230410). vm_compute. reflexivity.
Defined.

(** C7 (evaluated at the failing input).  On 2023-05-02 a section headed
    "Miércoles 15" matches no date of the previous, current and next
    month (2023-04-15 is a Saturday, 2023-05-15 a Monday, 2023-06-15 a
    Thursday), so the date to return is the fallback 2023-05-15.  The
    code returns 2023-03-15: its offset -1 lands on 2023-03-31, March is
    tried instead of April, and the Wednesday 2023-03-15, 48 days back,
    is its only candidate. *)
Theorem choose_date_fallback_missed :
  (year d20230502, month d20230502, day d20230502) = (2023, 5, 2)
  /\ (year d20230315, month d20230315, day d20230315) = (2023, 3, 15)
  /\ SpecResolver.candidates 2 15 d20230502 = []
  /\ ((d <- date_new 2023 4 15 ;; Ok (weekday d)) = Ok 5
      /\ (d <- date_new 2023 5 15 ;; Ok (weekday d)) = Ok 0
      /\ (d <- date_new 2023 6 15 ;; Ok (weekday d)) = Ok 3)
  /\ date_new (year d20230502) (month d20230502) 15 = Ok d20230515
  /\ visited_month d20230502 (-1) = Ok (2023, 3)
  /\ candidates 2 15 d20230502 = Ok [d20230315]
  /\ choose_date_for_section 2 15 d20230502 = Ok d20230315
  /\ d20230315 <> d20230515
  /\ distance d20230502 d20230315 = 48.
Proof. vm_compute. repeat split; try reflexivity. discriminate. Qed.

(** Away from the two ends of the calendar the enumeration never raises,
    and every candidate is within 91 days of [today]. *)
Lemma candidate_at_returns
    (target_weekday target_day : Z) (today : date) (month_offset : Z) :
  INT_MIN <= target_day <= INT_MAX ->
  92 <= toordinal today <= Calendar.MAXORDINAL - 92 ->
  -1 <= month_offset <= 1 ->
  exists c,
    candidate_at target_weekday target_day today month_offset = Ok c
    /\ Forall (fun d => -91 <= toordinal d - toordinal today <= 91) c.
Proof.
  intros Hday Ht Ho. unfold candidate_at.
  assert (Htoday : 1 <= toordinal today <= Calendar.MAXORDINAL) by lia.
  pose proof (date_of_fields today Htoday) as Hf.
  apply date_new_inv in Hf. destruct Hf as ((Hy & Hm & Hd) & _).
  pose proof (date_new_ok (year today) (month today) 1 Hy Hm ltac:(lia)) as Hfirst.
  rewrite Hfirst. cbn [bind].
  pose proof (same_month_near today _ 1 Htoday Hfirst) as Hnear.
  generalize dependent (mkdate (Calendar.ymd2ord (year today) (month today) 1)).
  intros first_of_month _ Hnear.
  unfold date_add_days.
  destruct ((1 <=? toordinal first_of_month + 31 * month_offset)
            && (toordinal first_of_month + 31 * month_offset
                <=? Calendar.MAXORDINAL)) eqn:E; [|lia].
  cbn [bind].
  set (approx := mkdate (toordinal first_of_month + 31 * month_offset)).
  assert (Happrox : 1 <= toordinal approx <= Calendar.MAXORDINAL)
    by (unfold approx; cbn [toordinal]; lia).
  destruct (date_new (year approx) (month approx) target_day) as [d|e] eqn:Ed.
  - pose proof (same_month_near approx d target_day Happrox Ed) as Hnd.
    destruct (weekday d =? target_weekday); eexists; split; try reflexivity;
      repeat constructor.
    + unfold approx in Hnd. cbn [toordinal] in Hnd. lia.
    + unfold approx in Hnd. cbn [toordinal] in Hnd. lia.
  - assert (Hap : date_new (year approx) (month approx) (day approx) = Ok approx)
      by exact (date_of_fields approx Happrox).
    apply date_new_inv in Hap. destruct Hap as ((Hya & Hma & _) & _).
    apply date_new_raises_ValueError in Ed.
    + subst e. eexists. split; [reflexivity | constructor].
    + unfold fits_c_int, INT_MIN, INT_MAX, Calendar.MAXYEAR in *. lia.
Qed.

Lemma candidates_returns
    (target_weekday target_day : Z) (today : date) :
  INT_MIN <= target_day <= INT_MAX ->
  92 <= toordinal today <= Calendar.MAXORDINAL - 92 ->
  exists cands,
    candidates target_weekday target_day today = Ok cands
    /\ Forall (fun d => -91 <= toordinal d - toordinal today <= 91) cands.
Proof.
  intros Hday Ht. unfold candidates, candidates_over.
  destruct (candidate_at_returns target_weekday target_day today (-1) Hday Ht
              ltac:(lia)) as (c1 & -> & H1).
  destruct (candidate_at_returns target_weekday target_day today 0 Hday Ht
              ltac:(lia)) as (c2 & -> & H2).
  destruct (candidate_at_returns target_weekday target_day today 1 Hday Ht
              ltac:(lia)) as (c3 & -> & H3).
  cbn [bind]. eexists. split; [reflexivity|].
  rewrite app_nil_r. repeat (apply Forall_app; split); assumption.
Qed.

(** For every [today] from 0001-04-02 to 9999-09-30 and every
    [target_day] that is a C [int] the resolver returns a date, within 91
    days of [today]. *)
Lemma choose_date_returns
    (target_weekday target_day : Z) (today : date) :
  INT_MIN <= target_day <= INT_MAX ->
  92 <= toordinal today <= Calendar.MAXORDINAL - 92 ->
  exists d,
    choose_date_for_section target_weekday target_day today = Ok d
    /\ -91 <= toordinal d - toordinal today <= 91.
Proof.
  intros Hday Ht.
  destruct (candidates_returns target_weekday target_day today Hday Ht)
    as (cands & Hc & Hnear).
  destruct cands as [|c0 cs].
  - rewrite (choose_date_no_candidate _ _ _ Hc).
    eexists. split; [reflexivity|].
    destruct (date_new (year today) (month today) target_day) as [r|e] eqn:Er.
    + pose proof (same_month_near today r target_day ltac:(lia) Er). lia.
    + lia.
  - destruct (choose_date_tie_first_enumerated_aux _ _ _ _ Hc ltac:(discriminate))
      as (l1 & c & l2 & Hl & Hr & _).
    exists c. split; [exact Hr|].
    rewrite Forall_forall in Hnear. apply Hnear. rewrite Hl.
    apply in_or_app. right. now left.
Qed.

(** ** The two patterns *)

Ltac each_ascii c :=
  destruct c as [[] [] [] [] [] [] [] []].

Lemma time_char_not_P (b : ascii) :
  time_char b = true -> (ord (lower "P") =? ord (lower b)) = false.
Proof. each_ascii b; vm_compute; congruence. Qed.

Lemma digit_not_space (c : ascii) : is_digit c = true -> is_space c = false.
Proof. each_ascii c; vm_compute; congruence. Qed.

Lemma digit_not_colon (c : ascii) : is_digit c = true -> (ord c =? 58) = false.
Proof. each_ascii c; vm_compute; congruence. Qed.

Lemma colon_inv (c : ascii) : (ord c =? 58) = true -> c = ":"%char.
Proof. each_ascii c; vm_compute; congruence. Qed.

Lemma digit_range (c : ascii) : is_digit c = true -> 0 <= ord c - 48 <= 9.
Proof.
  unfold is_digit. intros H. apply andb_prop in H. destruct H as [H1 H2].
  apply Z.leb_le in H1. apply Z.leb_le in H2. lia.
Qed.

Lemma all_spaces_time_chars (s : string) :
  all_spaces s = true -> all_time_chars s = true.
Proof.
  induction s as [|c r IH]; simpl; [reflexivity|].
  intros H. apply andb_prop in H. destruct H as [Hc Hr].
  unfold time_char. rewrite Hc. simpl. auto.
Qed.

Lemma skip_spaces_time_chars (s : string) :
  all_time_chars (skip_spaces s) = true -> all_time_chars s = true.
Proof.
  induction s as [|c r IH]; simpl; [reflexivity|].
  destruct (is_space c) eqn:Ec; [|exact (fun H => H)].
  intros H. unfold time_char. rewrite Ec. simpl. auto.
Qed.

(** [skip_spaces] removes a whitespace prefix and nothing else. *)
Lemma skip_spaces_split (s : string) :
  exists pre, s = (pre ++ skip_spaces s)%string /\ all_spaces pre = true.
Proof.
  induction s as [|c r IH]; simpl.
  - exists EmptyString. auto.
  - destruct (is_space c) eqn:Ec.
    + destruct IH as (pre & Hs & Hp). exists (String c pre). simpl.
      rewrite Ec, Hp. split; [now rewrite <- Hs | reflexivity].
    + exists EmptyString. auto.
Qed.

Lemma skip_spaces_app (pre s : string) :
  all_spaces pre = true ->
  skip_spaces (pre ++ s) = skip_spaces s.
Proof.
  induction pre as [|c r IH]; simpl; [reflexivity|].
  intros H. apply andb_prop in H. destruct H as [Hc Hr].
  rewrite Hc. auto.
Qed.

Ltac split_andb :=
  repeat match goal with
         | H : _ && _ = true |- _ => apply andb_prop in H; destruct H
         end.

Lemma TIME_RE_match_shape (ln : string) :
  (exists g, TIME_RE_match ln = Some g) <-> time_shaped ln.
Proof.
  unfold TIME_RE_match, time_shaped. split.
  - intros [g Hg].
    destruct (skip_spaces_split ln) as (pre & Hs & Hp).
    destruct (skip_spaces ln) as [|h1 [|h2 [|c [|m1 [|m2 post]]]]];
      try discriminate.
    destruct (is_digit h1 && is_digit h2 && (ord c =? 58)
              && is_digit m1 && is_digit m2 && all_spaces post) eqn:E;
      [|discriminate].
    split_andb.
    match goal with H : (ord c =? 58) = true |- _ => apply colon_inv in H; subst c end.
    exists pre, h1, h2, m1, m2, post. auto 10.
  - intros (pre & h1 & h2 & m1 & m2 & post & -> & Hp & Hq & H1 & H2 & H3 & H4).
    rewrite (skip_spaces_app _ _ Hp). simpl.
    rewrite (digit_not_space _ H1), H1, H2, H3, H4, Hq. simpl. eauto.
Qed.

Lemma TIME_RE_match_time_chars (ln g : string) :
  TIME_RE_match ln = Some g -> all_time_chars ln = true.
Proof.
  unfold TIME_RE_match. intros H. apply skip_spaces_time_chars.
  destruct (skip_spaces ln) as [|h1 [|h2 [|c [|m1 [|m2 post]]]]];
    try discriminate.
  destruct (is_digit h1 && is_digit h2 && (ord c =? 58)
            && is_digit m1 && is_digit m2 && all_spaces post) eqn:E;
    [|discriminate].
  split_andb. simpl. unfold time_char.
  repeat match goal with H : _ = true |- _ => rewrite H; clear H end.
  rewrite ?orb_true_r. simpl. now apply all_spaces_time_chars.
Qed.

(** A header needs the letter P, which no time-shaped line contains. *)
Lemma no_section_in_time_chars (s : string) :
  all_time_chars s = true -> SECTION_RE_search s = None.
Proof.
  induction s as [|c r IH]; [reflexivity|].
  intros H. simpl in H. apply andb_prop in H. destruct H as [Hc Hr].
  cbn [SECTION_RE_search]. rewrite (IH Hr).
  unfold section_at, Programacion. cbn [append match_literal].
  rewrite (time_char_not_P _ Hc). reflexivity.
Qed.

Lemma TIME_RE_match_not_section (ln g : string) :
  TIME_RE_match ln = Some g -> SECTION_RE_search ln = None.
Proof.
  intros H. apply no_section_in_time_chars.
  exact (TIME_RE_match_time_chars _ _ H).
Qed.

(** ** The line scanner *)

(** C2 (evaluated at the failing input).  Inside an active section the
    line "99:99" has the shape of [TIME_RE] and is handed to
    [time(99, 99)], which raises [ValueError]; nothing catches it, so the
    whole parse raises.  The same line outside a section is skipped. *)
Theorem parse_schedule_raises_on_9999 :
  TIME_RE_match "99:99" = Some "99:99"%string
  /\ time_new 99 99 = Raise ValueError
  /\ parse_schedule d20240130 [header_jueves_1; "99:99"%string]
     = Raise ValueError
  /\ parse_schedule d20240130 ["99:99"%string] = Ok [].
Proof. vm_compute. repeat split; reflexivity. Qed.

(** The classification of a line as a time marker looks at the shape
    only. *)
Lemma classify_time_marker (st : scan_state) (ln : string) :
  (exists g, classify st ln = TimeMarker g)
  <-> (time_shaped ln /\ current_date st <> None).
Proof.
  rewrite <- TIME_RE_match_shape. unfold classify. split.
  - intros [g Hg].
    destruct (SECTION_RE_search ln) as [[g1 g2]|]; [discriminate|].
    destruct (TIME_RE_match ln) as [g'|].
    + destruct (current_date st) as [d|].
      * split; [eauto | discriminate].
      * destruct (pending_start_time st); discriminate.
    + destruct (pending_start_time st), (current_date st); discriminate.
  - intros [[g Hg] Hd].
    rewrite (TIME_RE_match_not_section _ _ Hg), Hg.
    destruct (current_date st); [eauto | contradiction].
Qed.

Lemma spec_time_marker_step (today : date) (st : scan_state) (ln : string)
    (t : time) :
  SpecTimeMarker.parse ln = Some t ->
  current_date st <> None ->
  step today st ln
  = Ok (mkstate (programmes st) (current_date st) (Some t)).
Proof.
  unfold SpecTimeMarker.parse. intros Hp Hd.
  destruct (skip_spaces ln) as [|h1 [|h2 [|c [|m1 [|m2 post]]]]] eqn:Es;
    try discriminate.
  set (hh := 10 * SpecTimeMarker.digit_value h1 + SpecTimeMarker.digit_value h2) in *.
  set (mm := 10 * SpecTimeMarker.digit_value m1 + SpecTimeMarker.digit_value m2) in *.
  destruct (is_digit h1 && is_digit h2 && (ord c =? 58) && is_digit m1
            && is_digit m2 && all_spaces post && (hh <=? 23) && (mm <=? 59))
    eqn:E; [|discriminate].
  injection Hp as <-. split_andb.
  assert (Hm : TIME_RE_match ln
               = Some (String h1 (String h2 (String c (String m1 (String m2 EmptyString)))))).
  { unfold TIME_RE_match. rewrite Es.
    repeat match goal with H : _ = true |- _ => rewrite H end.
    reflexivity. }
  unfold step, classify.
  rewrite (TIME_RE_match_not_section _ _ Hm), Hm.
  destruct (current_date st) as [d|] eqn:Ed; [|contradiction].
  cbn [step_of split_colon].
  repeat match goal with
         | H : is_digit _ = true |- _ =>
             rewrite (digit_not_colon _ H); pose proof (digit_range _ H);
             revert H
         end.
  intros.
  match goal with H : (ord c =? 58) = true |- _ => rewrite H end.
  cbn [map_result int int_digits bind].
  repeat match goal with H : is_digit _ = true |- _ => rewrite H end.
  cbn [bind].
  unfold time_new.
  repeat match goal with
         | H : (_ <=? _) = true |- _ => apply Z.leb_le in H
         end.
  unfold SpecTimeMarker.digit_value in *.
  replace ((0 * 10 + (ord h1 - 48)) * 10 + (ord h2 - 48)) with hh
    by (unfold hh; ring).
  replace ((0 * 10 + (ord m1 - 48)) * 10 + (ord m2 - 48)) with mm
    by (unfold mm; ring).
  assert (H0h : (0 <=? hh) = true) by (apply Z.leb_le; unfold hh; lia).
  assert (H0m : (0 <=? mm) = true) by (apply Z.leb_le; unfold mm; lia).
  assert (H1h : (hh <? 24) = true) by (apply Z.ltb_lt; lia).
  assert (H1m : (mm <? 60) = true) by (apply Z.ltb_lt; lia).
  rewrite H0h, H0m, H1h, H1m. cbn [andb bind]. rewrite Ed. reflexivity.
Qed.

(** Two time lines in a row: the first is dropped and the title goes
    with the second. *)
Example parse_two_time_lines :
  parse_schedule d20240130
    [header_jueves_1; "08:00"; "09:30"; "Talk Show"]%string
  = Ok [mkProgramme (mkdatetime (mkdate 738917) (mktime 9 30 0 0))
                    (mkdatetime (mkdate 738918) (mktime 0 0 0 0))
                    "Talk Show"].
Proof. vm_compute. reflexivity. Qed.

(** Without a recognised header nothing is produced. *)
Example parse_without_header :
  parse_schedule d20240130 ["08:00"; "Morning News"]%string = Ok [].
Proof. vm_compute. reflexivity. Qed.

(** C3 (evaluated at the failing input).  Inside an active section the
    line "24:00" is no time marker (its hour is not in 00-23), and
    neither is "23:60".  Both have the shape of [TIME_RE], which does not
    look at the values, so they are taken by the time-marker branch and
    handed to [time], which raises [ValueError]: no pending start time is
    stored and the parse raises. *)
Theorem time_marker_out_of_range_raises :
  SpecTimeMarker.is_time_marker "24:00" = false
  /\ SpecTimeMarker.is_time_marker "23:60" = false
  /\ current_date in_section = Some d20240130
  /\ classify in_section "24:00" = TimeMarker "24:00"
  /\ classify in_section "23:60" = TimeMarker "23:60"
  /\ time_new 24 0 = Raise ValueError
  /\ time_new 23 60 = Raise ValueError
  /\ step d20240130 in_section "24:00" = Raise ValueError
  /\ step d20240130 in_section "23:60" = Raise ValueError
  /\ parse_schedule d20240130 [header_jueves_1; "24:00"%string]
     = Raise ValueError
  /\ parse_schedule d20240130 [header_jueves_1; "23:60"%string]
     = Raise ValueError.
Proof. vm_compute. repeat split; reflexivity. Qed.

(** The classification is not the one by values: with a current date set,
    the line "24:00" is taken as a time marker. *)
Lemma time_marker_not_range_checked :
  ~ (forall (st : scan_state) (ln : string),
        (exists g, classify st ln = TimeMarker g)
        <-> (SpecTimeMarker.is_time_marker ln = true
             /\ current_date st <> None)).
Proof.
  intros H.
  destruct (H (mkstate [] (Some d20240130) None) "24:00"%string) as [H1 _].
  destruct H1 as [H1 _]; [eexists; vm_compute; reflexivity|].
  vm_compute in H1. discriminate.
Qed.

(** What the scanner does with a time line.  A line is taken as a time
    marker exactly when it has the shape of two digits, a colon and two
    digits with only whitespace around them and a current date is set;
    when moreover the hour is in 00-23 and the minute in 00-59, the step
    stores that time of day as the pending start time, whatever was
    pending before, and changes nothing else. *)
Theorem time_marker_recognition (st : scan_state) (ln : string) :
  ((exists g, classify st ln = TimeMarker g)
   <-> (time_shaped ln /\ current_date st <> None))
  /\ (forall (today : date) (t : time),
         SpecTimeMarker.parse ln = Some t ->
         current_date st <> None ->
         step today st ln
         = Ok (mkstate (programmes st) (current_date st) (Some t))).
Proof.
  split.
  - apply classify_time_marker.
  - intros today t. apply spec_time_marker_step.
Qed.

(** A pending 08:00 is replaced by 09:30. *)
Lemma time_marker_recognition_witness :
  let st := mkstate [] (Some d20240130) (Some (mktime 8 0 0 0)) in
  SpecTimeMarker.parse " 09:30 " = Some (mktime 9 30 0 0)
  /\ current_date st <> None
  /\ step d20240130 st " 09:30 "
     = Ok (mkstate [] (Some d20240130) (Some (mktime 9 30 0 0))).
Proof.
  intros st.
  split; [vm_compute; reflexivity|].
  split; [discriminate|].
  apply (proj2 (time_marker_recognition st " 09:30 ") d20240130 (mktime 9 30 0 0)).
  - vm_compute. reflexivity.
  - discriminate.
Defined.

Lemma classify_unguarded_eq (st : scan_state) (ln : string) :
  classify_unguarded st ln = classify st ln.
Proof.
  unfold classify_unguarded, classify.
  destruct (SECTION_RE_search ln) as [[g1 g2]|]; [reflexivity|].
  destruct (TIME_RE_match ln) as [g|], (current_date st) as [d|],
    (pending_start_time st) as [t|]; reflexivity.
Qed.

Lemma scan_unguarded_eq (today : date) (lines : list string) (st : scan_state) :
  scan_unguarded today lines st = scan today lines st.
Proof.
  revert st. induction lines as [|ln rest IH]; intros st; simpl; [reflexivity|].
  unfold step. rewrite classify_unguarded_eq.
  destruct (step_of (classify st ln) today st ln); simpl; auto.
Qed.

(** C10.  No line is ever classified into the guarded branch: a line of
    the time shape met with a current date set has already been taken as
    a time marker.  The parser without the guard returns the same result
    on every input. *)
Theorem time_shaped_title_guard_unreachable :
  (forall (st : scan_state) (ln : string), classify st ln <> TimeShapedTitle)
  /\ (forall (today : date) (raw_lines : list string),
         parse_schedule_unguarded today raw_lines
         = parse_schedule today raw_lines).
Proof.
  split.
  - intros st ln. unfold classify.
    destruct (SECTION_RE_search ln) as [[g1 g2]|]; [discriminate|].
    destruct (TIME_RE_match ln) as [g|], (current_date st) as [d|],
      (pending_start_time st) as [t|]; discriminate.
  - intros today raw_lines. unfold parse_schedule_unguarded, parse_schedule.
    now rewrite scan_unguarded_eq.
Qed.

(** ** The order on [datetime] *)

Lemma dt_ltb_iff (a b : datetime) : dt_ltb a b = true <-> dt_lt a b.
Proof.
  unfold dt_ltb, dt_compare, dt_lt.
  repeat (match goal with
          | |- context [?x ?= ?y] => destruct (Z.compare_spec x y)
          end; cbn [lex]);
    (split; [first [discriminate | intros _; lia]
            | first [reflexivity | intros; lia]]).
Qed.

Lemma dt_ltb_false_iff (a b : datetime) : dt_ltb a b = false <-> ~ dt_lt a b.
Proof.
  rewrite <- dt_ltb_iff. destruct (dt_ltb a b); split; intros; congruence.
Qed.

Lemma dt_eqb_eq (a b : datetime) : dt_eqb a b = true -> a = b.
Proof.
  unfold dt_eqb, dt_compare, lex.
  destruct a as [[oa] [ha ma sa ua]], b as [[ob] [hb mb sb ub]]. simpl.
  repeat (match goal with
          | |- context [?x ?= ?y] => destruct (Z.compare_spec x y)
          end; try discriminate).
  intros _. subst. reflexivity.
Qed.

Ltac dt_arith :=
  repeat match goal with
         | H : dt_ltb _ _ = true |- _ => apply dt_ltb_iff in H
         | H : dt_ltb _ _ = false |- _ => apply dt_ltb_false_iff in H
         | |- dt_ltb _ _ = true => apply dt_ltb_iff
         | |- dt_ltb _ _ = false => apply dt_ltb_false_iff
         end;
  unfold dt_lt in *; simpl in *; lia.

Lemma dt_ltb_irrefl (a : datetime) : dt_ltb a a = false.
Proof. dt_arith. Qed.

Lemma dt_lt_le_trans (a b c : datetime) :
  dt_ltb a b = true -> dt_ltb c b = false -> dt_ltb a c = true.
Proof. intros. dt_arith. Qed.

Lemma dt_le_trans (a b c : datetime) :
  dt_ltb b a = false -> dt_ltb c b = false -> dt_ltb c a = false.
Proof. intros. dt_arith. Qed.

Lemma dt_ltb_asym (a b : datetime) :
  dt_ltb a b = true -> dt_ltb b a = false.
Proof. intros. dt_arith. Qed.

Lemma dt_le_antisym (a b : datetime) :
  dt_ltb a b = false -> dt_ltb b a = false -> a = b.
Proof.
  intros H1 H2. apply dt_ltb_false_iff in H1, H2. unfold dt_lt in *.
  destruct a as [[oa] [ha ma sa ua]], b as [[ob] [hb mb sb ub]].
  simpl in *.
  assert (oa = ob) by lia. assert (ha = hb) by lia.
  assert (ma = mb) by lia. assert (sa = sb) by lia.
  assert (ua = ub) by lia. subst. reflexivity.
Qed.

Lemma dt_ltb_neq (a b : datetime) : dt_ltb a b = true -> dt_eqb b a = false.
Proof.
  intros H. destruct (dt_eqb b a) eqn:E; [|reflexivity].
  apply dt_eqb_eq in E. subst. rewrite dt_ltb_irrefl in H. discriminate.
Qed.

Lemma midnight_after_later (s m : datetime) :
  midnight_after s = Ok m -> dt_ltb s m = true.
Proof.
  unfold midnight_after, date_add_days. simpl.
  destruct (_ && _); simpl; [|discriminate].
  intros [= <-]. dt_arith.
Qed.

Lemma midnight_after_inv (s m : datetime) :
  midnight_after s = Ok m ->
  toordinal (dt_date m) = toordinal (dt_date s) + 1
  /\ dt_time m = mktime 0 0 0 0.
Proof.
  unfold midnight_after, date_add_days. simpl.
  destruct (_ && _); simpl; [|discriminate].
  intros [= <-]. auto.
Qed.

(** ** The finalizer *)

Lemma lt_start_le_start (p q : Programme) : lt_start p q -> le_start p q.
Proof. apply dt_ltb_asym. Qed.

Lemma in_insert_by_start (x z : Programme) (l : list Programme) :
  In z (insert_stable (fun a b => dt_ltb (start a) (start b)) x l)
  -> z = x \/ In z l.
Proof.
  induction l as [|y r IH]; simpl.
  - intros [<-|[]]. now left.
  - destruct (dt_ltb (start y) (start x)); simpl.
    + intros [<-|H]; [right; now left|].
      destruct (IH H); auto.
    + intros [<-|[<-|H]]; auto.
Qed.

Lemma insert_by_start_sorted (x : Programme) (l : list Programme) :
  StronglySorted le_start l ->
  StronglySorted le_start
    (insert_stable (fun a b => dt_ltb (start a) (start b)) x l).
Proof.
  induction 1 as [|y r Hs IH Hy]; simpl.
  - repeat constructor.
  - destruct (dt_ltb (start y) (start x)) eqn:E.
    + constructor; [exact IH|].
      apply Forall_forall. intros z Hz.
      apply in_insert_by_start in Hz. destruct Hz as [->|Hz].
      * now apply lt_start_le_start.
      * rewrite Forall_forall in Hy. now apply Hy.
    + constructor; [now constructor|].
      constructor; [exact E|].
      apply Forall_forall. intros z Hz.
      rewrite Forall_forall in Hy. specialize (Hy z Hz).
      unfold le_start in *. exact (dt_le_trans _ _ _ E Hy).
Qed.

Lemma sort_by_start_sorted (l : list Programme) :
  StronglySorted le_start (sort_by_start l).
Proof.
  induction l as [|x r IH]; simpl; [constructor|].
  now apply insert_by_start_sorted.
Qed.

(** Sorting leaves a sorted list as it is. *)
Lemma sort_by_start_id (l : list Programme) :
  StronglySorted le_start l -> sort_by_start l = l.
Proof.
  unfold sort_by_start.
  induction 1 as [|x r Hs IH Hx]; simpl; [reflexivity|].
  rewrite IH. destruct r as [|y r']; simpl; [reflexivity|].
  inversion Hx as [|? ? Hxy _]; subst.
  unfold le_start in Hxy. now rewrite Hxy.
Qed.

Lemma insert_by_start_Forall (P : Programme -> Prop) (x : Programme)
    (l : list Programme) :
  P x -> Forall P l ->
  Forall P (insert_stable (fun a b => dt_ltb (start a) (start b)) x l).
Proof.
  intros Hx Hl. apply Forall_forall. intros z Hz.
  apply in_insert_by_start in Hz. destruct Hz as [->|Hz]; [exact Hx|].
  rewrite Forall_forall in Hl. now apply Hl.
Qed.

Lemma sort_by_start_Forall (P : Programme -> Prop) (l : list Programme) :
  Forall P l -> Forall P (sort_by_start l).
Proof.
  induction 1 as [|x r Hx Hr IH]; simpl; [constructor|].
  now apply insert_by_start_Forall.
Qed.

(** Stop assignment keeps the start times, in order. *)
Lemma assign_stops_starts (l ws : list Programme) :
  assign_stops l = Ok ws -> map start ws = map start l.
Proof.
  revert ws. induction l as [|p r IH]; intros ws; simpl.
  - now intros [= <-].
  - destruct r as [|q r'].
    + destruct (midnight_after (start p)); simpl; [|discriminate].
      now intros [= <-].
    + destruct (assign_stops (q :: r')) as [ws'|]; simpl; [|discriminate].
      intros [= <-]. simpl. f_equal. now apply IH.
Qed.

Lemma assign_stops_in_start (l ws : list Programme) (w : Programme) :
  assign_stops l = Ok ws -> In w ws ->
  exists x, In x l /\ start x = start w.
Proof.
  intros Ha Hw. apply assign_stops_starts in Ha.
  apply (in_map start) in Hw. rewrite Ha in Hw.
  apply in_map_iff in Hw. destruct Hw as (x & Hx & Hin). eauto.
Qed.

(** After the filter the start times increase strictly. *)
Lemma kept_strictly_increasing (l ws : list Programme) :
  StronglySorted le_start l ->
  assign_stops l = Ok ws ->
  StronglySorted lt_start (filter keep ws).
Proof.
  intros Hs. revert ws. induction Hs as [|p r Hs IH Hp]; intros ws; simpl.
  - intros [= <-]. constructor.
  - destruct r as [|q r'].
    + destruct (midnight_after (start p)); simpl; [|discriminate].
      intros [= <-]. simpl. destruct (keep _); repeat constructor.
    + destruct (assign_stops (q :: r')) as [ws'|] eqn:Ea; simpl; [|discriminate].
      intros [= <-]. simpl.
      destruct (keep (set_stop p (start q))) eqn:Ek; [|now apply IH].
      constructor; [now apply IH|].
      apply Forall_forall. intros w Hw.
      apply filter_In in Hw. destruct Hw as [Hw _].
      destruct (assign_stops_in_start _ _ _ Ea Hw) as (x & Hx & Hxw).
      unfold keep in Ek. apply andb_prop in Ek. destruct Ek as [_ Ek].
      simpl in Ek. unfold lt_start. simpl. rewrite <- Hxw.
      inversion Hs as [|? ? _ Hq]; subst.
      destruct Hx as [<-|Hx]; [exact Ek|].
      rewrite Forall_forall in Hq. specialize (Hq x Hx).
      exact (dt_lt_le_trans _ _ _ Ek Hq).
Qed.

(** Strictly increasing start times leave nothing to deduplicate. *)
Lemma dedup_strictly_increasing (l seen : list Programme) :
  StronglySorted lt_start l ->
  (forall x s, In x l -> In s seen -> key_eqb x s = false) ->
  dedup seen l = l.
Proof.
  intros Hs. revert seen. induction Hs as [|p r Hs IH Hp]; intros seen Hseen;
    simpl; [reflexivity|].
  assert (E : existsb (key_eqb p) seen = false).
  { destruct (existsb (key_eqb p) seen) eqn:E; [|reflexivity].
    apply existsb_exists in E. destruct E as (s & Hin & Hk).
    rewrite (Hseen p s (or_introl eq_refl) Hin) in Hk. discriminate. }
  rewrite E. f_equal. apply IH.
  intros x s Hx [<-|Hin].
  - rewrite Forall_forall in Hp. specialize (Hp x Hx).
    unfold key_eqb. now rewrite (dt_ltb_neq _ _ Hp).
  - apply Hseen; [now right | exact Hin].
Qed.

Lemma strictly_increasing_no_repeat (l : list Programme) :
  StronglySorted lt_start l ->
  ForallOrdPairs (fun a b => key_eqb a b = false) l.
Proof.
  induction 1 as [|p r Hs IH Hp]; constructor; [|exact IH].
  revert Hp. apply Forall_impl. intros x Hx.
  unfold key_eqb. destruct (dt_eqb (start p) (start x)) eqn:E; [|reflexivity].
  apply dt_eqb_eq in E. unfold lt_start in Hx. rewrite E in Hx.
  rewrite dt_ltb_irrefl in Hx. discriminate.
Qed.

Lemma finalize_inv (ps out : list Programme) :
  finalize ps = Ok out ->
  exists ws, assign_stops (sort_by_start ps) = Ok ws
             /\ out = dedup [] (filter keep ws).
Proof.
  unfold finalize.
  destruct (sort_by_start ps) as [|p r] eqn:Es.
  - intros [= <-]. exists []. auto.
  - destruct (assign_stops (p :: r)) as [ws|]; simpl; [|discriminate].
    intros [= <-]. eauto.
Qed.

Lemma finalize_filtered (ps ws : list Programme) :
  assign_stops (sort_by_start ps) = Ok ws ->
  StronglySorted lt_start (filter keep ws)
  /\ dedup [] (filter keep ws) = filter keep ws
  /\ finalize ps = Ok (filter keep ws).
Proof.
  intros Ha.
  assert (Hinc : StronglySorted lt_start (filter keep ws))
    by exact (kept_strictly_increasing _ _ (sort_by_start_sorted ps) Ha).
  assert (Hd : dedup [] (filter keep ws) = filter keep ws)
    by (apply dedup_strictly_increasing; [exact Hinc | intros ? ? _ []]).
  repeat split; [exact Hinc | exact Hd|].
  unfold finalize. destruct (sort_by_start ps) as [|p r] eqn:Es.
  - simpl in Ha. injection Ha as <-. reflexivity.
  - rewrite Ha. simpl. now rewrite Hd.
Qed.

Lemma keep_last (p : Programme) (s : datetime) :
  nonempty_title p -> midnight_after (start p) = Ok s ->
  keep (set_stop p s) = true.
Proof.
  intros Ht Hm. unfold keep. simpl.
  rewrite (midnight_after_later _ _ Hm), andb_true_r.
  destruct (String.eqb (title p) EmptyString) eqn:E; [|reflexivity].
  apply String.eqb_eq in E. contradiction.
Qed.

(** With titles present the last entry survives the filter, and the last
    kept entry is the one that stops at the following midnight. *)
Lemma kept_last (l ws : list Programme) :
  Forall nonempty_title l ->
  assign_stops l = Ok ws ->
  (l <> [] -> filter keep ws <> [])
  /\ (forall front x, filter keep ws = front ++ [x] ->
                      midnight_after (start x) = Ok (stop x)).
Proof.
  intros Ht. revert ws. induction Ht as [|p r Hp Hr IH]; intros ws; simpl.
  - intros [= <-]. split; [contradiction|].
    intros [|? ?] x; discriminate.
  - destruct r as [|q r'].
    + destruct (midnight_after (start p)) as [s|] eqn:Em; simpl; [|discriminate].
      intros [= <-]. simpl. rewrite (keep_last _ _ Hp Em).
      split; [discriminate|].
      intros [|a [|? ?]] x; simpl; try discriminate.
      intros [= <-]. exact Em.
    + destruct (assign_stops (q :: r')) as [ws'|] eqn:Ea; simpl; [|discriminate].
      intros [= <-]. simpl.
      destruct (IH ws' eq_refl) as [Hne Hlast].
      specialize (Hne ltac:(discriminate)).
      destruct (keep (set_stop p (start q))).
      * split; [discriminate|].
        intros [|a front] x; simpl.
        -- intros [= _ E]. now rewrite E in Hne.
        -- intros [= _ E]. exact (Hlast _ _ E).
      * split; [intros _; exact Hne | exact Hlast].
Qed.

(** With titles present, the first kept entry of a sorted list starts
    when the list's first entry starts: entries dropped before it all
    share that start. *)
Lemma kept_head_start (l ws : list Programme) (q : Programme) (r : list Programme) :
  StronglySorted le_start l ->
  Forall nonempty_title l ->
  l = q :: r ->
  assign_stops l = Ok ws ->
  exists k rest, filter keep ws = k :: rest /\ start k = start q.
Proof.
  intros Hs. revert ws q r.
  induction Hs as [|p r0 Hs IH Hp]; intros ws q r Ht El; [discriminate|].
  injection El as -> ->. inversion Ht as [|? ? Hq Hr]; subst.
  simpl. destruct r as [|q2 r2].
  - destruct (midnight_after (start q)) as [s|] eqn:Em; simpl; [|discriminate].
    intros [= <-]. simpl. rewrite (keep_last _ _ Hq Em). eauto.
  - destruct (assign_stops (q2 :: r2)) as [ws'|] eqn:Ea; simpl; [|discriminate].
    intros [= <-]. simpl.
    destruct (keep (set_stop q (start q2))) eqn:Ek; [eauto|].
    destruct (IH ws' q2 r2 Hr eq_refl eq_refl) as (k & rest & Hk & Hst).
    exists k, rest. split; [exact Hk|]. rewrite Hst.
    unfold keep in Ek. simpl in Ek.
    destruct (String.eqb (title q) EmptyString) eqn:E.
    + apply String.eqb_eq in E. contradiction.
    + simpl in Ek. inversion Hp as [|? ? Hle _]; subst.
      symmetry. exact (dt_le_antisym _ _ Ek Hle).
Qed.

Lemma assign_stops_cons2 (p q : Programme) (r : list Programme) :
  assign_stops (p :: q :: r)
  = (r' <- assign_stops (q :: r) ;; Ok (set_stop p (start q) :: r')).
Proof. reflexivity. Qed.

(** Assigning stops again to the kept entries changes nothing. *)
Lemma assign_stops_kept (l ws : list Programme) :
  StronglySorted le_start l ->
  Forall nonempty_title l ->
  assign_stops l = Ok ws ->
  assign_stops (filter keep ws) = Ok (filter keep ws).
Proof.
  intros Hs. revert ws. induction Hs as [|p r Hs IH Hp]; intros ws Ht.
  - simpl. now intros [= <-].
  - inversion Ht as [|? ? Hpt Hr]; subst. simpl.
    destruct r as [|q r'].
    + destruct (midnight_after (start p)) as [s|] eqn:Em; simpl; [|discriminate].
      intros [= <-]. simpl. rewrite (keep_last _ _ Hpt Em). simpl.
      rewrite Em. reflexivity.
    + destruct (assign_stops (q :: r')) as [ws'|] eqn:Ea; simpl; [|discriminate].
      intros [= <-]. simpl.
      specialize (IH ws' Hr eq_refl).
      destruct (keep (set_stop p (start q))) eqn:Ek; [|exact IH].
      destruct (kept_head_start _ _ _ _ Hs Hr eq_refl Ea)
        as (k & rest & Hk & Hst).
      rewrite Hk in *. rewrite assign_stops_cons2, IH. simpl.
      unfold set_stop. simpl. now rewrite Hst.
Qed.

Lemma filter_keep_id (l : list Programme) : filter keep (filter keep l) = filter keep l.
Proof.
  induction l as [|p r IH]; simpl; [reflexivity|].
  destruct (keep p) eqn:E; simpl; [rewrite E; now f_equal | exact IH].
Qed.

Lemma StronglySorted_lt_le (l : list Programme) :
  StronglySorted lt_start l -> StronglySorted le_start l.
Proof.
  induction 1 as [|p r Hs IH Hp]; constructor; [exact IH|].
  revert Hp. apply Forall_impl. exact (lt_start_le_start p).
Qed.

(** Finalizing the result of a finalization of entries that all carry a
    title gives the same list. *)
Lemma finalize_idempotent (ps out : list Programme) :
  Forall nonempty_title ps ->
  finalize ps = Ok out ->
  finalize out = Ok out.
Proof.
  intros Ht Hf.
  destruct (finalize_inv _ _ Hf) as (ws & Ha & ->).
  destruct (finalize_filtered _ _ Ha) as (Hinc & Hd & _).
  rewrite Hd.
  pose proof (assign_stops_kept _ _ (sort_by_start_sorted ps)
                (sort_by_start_Forall nonempty_title _ Ht) Ha) as Hagain.
  pose proof (filter_keep_id ws) as Hff.
  unfold finalize.
  rewrite (sort_by_start_id _ (StronglySorted_lt_le _ Hinc)).
  destruct (filter keep ws) as [|k rest]; [reflexivity|].
  rewrite Hagain. cbn [bind]. now rewrite Hff, Hd.
Qed.

(** ** From the lines to the provisional list *)

Lemma extract_lines_nonempty (raw_lines : list string) :
  Forall (fun ln => ln <> EmptyString) (extract_lines raw_lines).
Proof.
  unfold extract_lines. apply Forall_forall. intros ln Hin.
  apply in_map_iff in Hin. destruct Hin as (r & <- & Hr).
  apply filter_In in Hr. destruct Hr as [_ Hr].
  apply andb_prop in Hr. destruct Hr as [_ Hr].
  unfold truthy in Hr. intros E. rewrite E in Hr. discriminate.
Qed.

Lemma step_titles (today : date) (st st' : scan_state) (ln : string) :
  ln <> EmptyString ->
  Forall nonempty_title (programmes st) ->
  step today st ln = Ok st' ->
  Forall nonempty_title (programmes st').
Proof.
  intros Hln Hst. unfold step.
  destruct (classify st ln) as [g1 g2|g| |d t|]; cbn [step_of].
  - destruct (int g2) as [n|]; cbn [bind]; [|discriminate].
    destruct (dict_get WEEKDAY_ES (str_lower g1)) as [wd|]; cbn [bind].
    + destruct (choose_date_for_section wd n today); cbn [bind]; [|discriminate].
      now intros [= <-].
    + now intros [= <-].
  - destruct (map_result int (split_colon g)) as [[|hh [|mm [|? ?]]]|];
      cbn [bind]; try discriminate.
    destruct (time_new hh mm); cbn [bind]; [|discriminate].
    now intros [= <-].
  - now intros [= <-].
  - intros [= <-]. cbn [programmes]. apply Forall_app. split; [exact Hst|].
    constructor; [exact Hln | constructor].
  - now intros [= <-].
Qed.

Lemma scan_titles (today : date) (lines : list string) (st st' : scan_state) :
  Forall (fun ln => ln <> EmptyString) lines ->
  Forall nonempty_title (programmes st) ->
  scan today lines st = Ok st' ->
  Forall nonempty_title (programmes st').
Proof.
  intros Hl. revert st. induction Hl as [|ln rest Hln Hrest IH]; intros st Hst;
    simpl.
  - now intros [= <-].
  - destruct (step today st ln) as [st1|] eqn:E; simpl; [|discriminate].
    apply IH. exact (step_titles _ _ _ _ Hln Hst E).
Qed.

Lemma parse_schedule_inv (today : date) (raw_lines : list string)
    (out : list Programme) :
  parse_schedule today raw_lines = Ok out ->
  exists ps, Forall nonempty_title ps /\ finalize ps = Ok out.
Proof.
  unfold parse_schedule.
  destruct (scan today (extract_lines raw_lines) initial_state) as [st|] eqn:E;
    simpl; [|discriminate].
  intros Hf. exists (programmes st). split; [|exact Hf].
  apply (scan_titles today (extract_lines raw_lines) initial_state st
           (extract_lines_nonempty raw_lines)); [constructor | exact E].
Qed.

(** ** When the parse returns *)

Lemma digits12_int (s g : string) :
  digits12 s = Some g -> exists n, int g = Ok n /\ 0 <= n <= 99.
Proof.
  unfold digits12. destruct s as [|a r]; [discriminate|].
  destruct (is_digit a) eqn:Ea; [|discriminate].
  pose proof (digit_range a Ea) as Ha.
  destruct r as [|b r'].
  - intros [= <-]. cbn [int int_digits]. rewrite Ea.
    eexists. split; [reflexivity | lia].
  - destruct (is_digit b) eqn:Eb; intros [= <-]; cbn [int int_digits];
      rewrite Ea, ?Eb; (eexists; split; [reflexivity|]).
    + pose proof (digit_range b Eb). lia.
    + lia.
Qed.

Lemma section_at_digits (s g1 g2 : string) :
  section_at s = Some (g1, g2) -> exists n, int g2 = Ok n /\ 0 <= n <= 99.
Proof.
  unfold section_at, opt_bind.
  repeat match goal with
         | |- context [match ?o with Some _ => _ | None => _ end] =>
             destruct o as [?|] eqn:?; [|discriminate]
         | |- context [let '(_, _) := ?x in _] => destruct x
         end.
  intros [= <- <-]. eapply digits12_int. eassumption.
Qed.

Lemma SECTION_RE_search_digits (ln g1 g2 : string) :
  SECTION_RE_search ln = Some (g1, g2) ->
  exists n, int g2 = Ok n /\ 0 <= n <= 99.
Proof.
  induction ln as [|c r IH]; cbn [SECTION_RE_search].
  - destruct (section_at EmptyString) as [[a b]|] eqn:E; [|discriminate].
    intros [= <- <-]. exact (section_at_digits _ _ _ E).
  - destruct (section_at (String c r)) as [[a b]|] eqn:E; [|exact IH].
    intros [= <- <-]. exact (section_at_digits _ _ _ E).
Qed.

(** A day of the month read from a header is a C [int]. *)
Lemma header_day_fits (n : Z) : 0 <= n <= 99 -> INT_MIN <= n <= INT_MAX.
Proof. unfold INT_MIN, INT_MAX. lia. Qed.

Lemma classify_section_inv (st : scan_state) (ln g1 g2 : string) :
  classify st ln = SectionHeader g1 g2 ->
  SECTION_RE_search ln = Some (g1, g2).
Proof.
  unfold classify.
  destruct (SECTION_RE_search ln) as [[a b]|]; [now intros [= <- <-]|].
  destruct (TIME_RE_match ln), (current_date st), (pending_start_time st);
    discriminate.
Qed.

Lemma classify_title_inv (st : scan_state) (ln : string) (d : date) (t : time) :
  classify st ln = TitleLine d t -> current_date st = Some d.
Proof.
  unfold classify.
  destruct (SECTION_RE_search ln) as [[a b]|]; [discriminate|].
  destruct (TIME_RE_match ln), (current_date st), (pending_start_time st);
    try discriminate; now intros [= <- _].
Qed.

(** One turn of the loop returns when [today] is away from the ends of
    the calendar and the line, if of the time shape, is a time of day. *)
Lemma step_returns (today : date) (st : scan_state) (ln : string) :
  92 <= toordinal today <= Calendar.MAXORDINAL - 92 ->
  state_in_range st ->
  (time_shaped ln -> SpecTimeMarker.is_time_marker ln = true) ->
  exists st', step today st ln = Ok st' /\ state_in_range st'.
Proof.
  intros Ht [Hcur Hprogs] Hln.
  destruct (classify st ln) as [g1 g2|g| |d t|] eqn:Ec.
  - unfold step. rewrite Ec. cbn [step_of].
    apply classify_section_inv in Ec.
    destruct (SECTION_RE_search_digits _ _ _ Ec) as (n & -> & Hn). cbn [bind].
    destruct (dict_get WEEKDAY_ES (str_lower g1)) as [wd|]; cbn [bind].
    + destruct (choose_date_returns wd n today (header_day_fits n Hn) Ht)
        as (d & -> & Hd).
      cbn [bind]. eexists. split; [reflexivity|].
      split; cbn [current_date programmes]; [|exact Hprogs].
      intros d' [= <-]. unfold date_in_range. lia.
    + eexists. split; [reflexivity|].
      split; cbn [current_date programmes]; [discriminate | exact Hprogs].
  - destruct (proj1 (classify_time_marker st ln) (ex_intro _ g Ec))
      as [Hshape Hdate].
    specialize (Hln Hshape). unfold SpecTimeMarker.is_time_marker in Hln.
    destruct (SpecTimeMarker.parse ln) as [t|] eqn:Ep; [|discriminate].
    rewrite (spec_time_marker_step today st ln t Ep Hdate).
    eexists. split; [reflexivity|].
    split; cbn [current_date programmes]; assumption.
  - unfold step. rewrite Ec. exists st. split; [reflexivity | split; assumption].
  - unfold step. rewrite Ec. cbn [step_of].
    eexists. split; [reflexivity|].
    split; cbn [current_date programmes]; [exact Hcur|].
    apply Forall_app. split; [exact Hprogs|].
    constructor; [|constructor]. cbn [start combine dt_date].
    apply Hcur. exact (classify_title_inv _ _ _ _ Ec).
  - unfold step. rewrite Ec. exists st. split; [reflexivity | split; assumption].
Qed.

Lemma scan_returns (today : date) (lines : list string) (st : scan_state) :
  92 <= toordinal today <= Calendar.MAXORDINAL - 92 ->
  state_in_range st ->
  (forall ln, In ln lines ->
              time_shaped ln -> SpecTimeMarker.is_time_marker ln = true) ->
  exists st', scan today lines st = Ok st' /\ state_in_range st'.
Proof.
  intros Ht. revert st. induction lines as [|ln rest IH]; intros st Hst Hl.
  - exists st. split; [reflexivity | exact Hst].
  - destruct (step_returns today st ln Ht Hst (Hl ln (or_introl eq_refl)))
      as (st1 & Hs & Hst1).
    cbn [scan]. rewrite Hs. cbn [bind].
    apply IH; [exact Hst1|]. intros ln' Hin. apply Hl. now right.
Qed.

Lemma assign_stops_returns (l : list Programme) :
  Forall (fun p => date_in_range (dt_date (start p))) l ->
  exists ws, assign_stops l = Ok ws.
Proof.
  induction 1 as [|p r Hp Hr IH]; [now exists []|].
  cbn [assign_stops]. destruct r as [|q r'].
  - unfold midnight_after, date_add_days. unfold date_in_range in Hp.
    destruct ((1 <=? toordinal (dt_date (start p)) + 1)
              && (toordinal (dt_date (start p)) + 1 <=? Calendar.MAXORDINAL))
      eqn:E; [|lia].
    cbn [bind]. eauto.
  - destruct IH as (ws & ->). cbn [bind]. eauto.
Qed.

Lemma finalize_returns (ps : list Programme) :
  Forall (fun p => date_in_range (dt_date (start p))) ps ->
  exists out, finalize ps = Ok out.
Proof.
  intros H. apply (sort_by_start_Forall _ ps) in H.
  apply assign_stops_returns in H. destruct H as (ws & Hws).
  unfold finalize. destruct (sort_by_start ps); [eauto|].
  rewrite Hws. cbn [bind]. eauto.
Qed.

(** For every [today] from 0001-04-02 to 9999-09-30 and every page whose
    lines of the time shape all denote a time of day, the parse returns a
    list. *)
Lemma parse_schedule_returns (today : date) (raw_lines : list string) :
  92 <= toordinal today <= Calendar.MAXORDINAL - 92 ->
  (forall ln, In ln (extract_lines raw_lines) ->
              time_shaped ln -> SpecTimeMarker.is_time_marker ln = true) ->
  exists out, parse_schedule today raw_lines = Ok out.
Proof.
  intros Ht Hl. unfold parse_schedule.
  destruct (scan_returns today (extract_lines raw_lines) initial_state Ht)
    as (st & -> & _ & Hprogs); [|exact Hl|].
  - split; [discriminate | constructor].
  - cbn [bind]. now apply finalize_returns.
Qed.

(** ** The finalized list *)

(** C4.  When the finalized list is not empty, its last entry stops at
    00:00:00 of the calendar day that follows the day of its start. *)
Theorem last_entry_stops_at_next_midnight
    (today : date) (raw_lines : list string)
    (front : list Programme) (p : Programme) :
  parse_schedule today raw_lines = Ok (front ++ [p]) ->
  toordinal (dt_date (stop p)) = toordinal (dt_date (start p)) + 1
  /\ dt_time (stop p) = mktime 0 0 0 0.
Proof.
  intros Hp.
  destruct (parse_schedule_inv _ _ _ Hp) as (ps & Ht & Hf).
  destruct (finalize_inv _ _ Hf) as (ws & Ha & Hout).
  destruct (finalize_filtered _ _ Ha) as (_ & Hd & _).
  rewrite Hd in Hout.
  destruct (kept_last _ _ (sort_by_start_Forall nonempty_title _ Ht) Ha) as [_ Hlast].
  apply midnight_after_inv. apply (Hlast front). now symmetry.
Qed.

(** The end-to-end scenario: the section of Thursday 2024-02-01, read on
    2024-01-30. *)
Example parse_two_programmes :
  parse_schedule d20240130 two_programmes = Ok [morning_news; talk_show]
  /\ Calendar.ord2ymd 738917 = (2024, 2, 1)
  /\ Calendar.ord2ymd 738918 = (2024, 2, 2).
Proof. vm_compute. repeat split; reflexivity. Qed.

Lemma last_entry_stops_at_next_midnight_witness :
  parse_schedule d20240130 two_programmes = Ok ([morning_news] ++ [talk_show])
  /\ toordinal (dt_date (stop talk_show))
     = toordinal (dt_date (start talk_show)) + 1
  /\ dt_time (stop talk_show) = mktime 0 0 0 0.
Proof.
  split; [vm_compute; reflexivity|].
  apply (last_entry_stops_at_next_midnight d20240130 two_programmes
           [morning_news] talk_show).
  vm_compute. reflexivity.
Defined.

(** C5.  Every entry of the finalized list stops strictly after it
    starts and has a title that is not empty. *)
Theorem finalized_entries_non_degenerate
    (today : date) (raw_lines : list string) (out : list Programme) :
  parse_schedule today raw_lines = Ok out ->
  Forall (fun p => dt_lt (start p) (stop p) /\ title p <> EmptyString) out.
Proof.
  unfold parse_schedule.
  destruct (scan today (extract_lines raw_lines) initial_state) as [st|];
    simpl; [|discriminate].
  intros Hf.
  destruct (finalize_inv _ _ Hf) as (ws & Ha & ->).
  destruct (finalize_filtered _ _ Ha) as (_ & -> & _).
  apply Forall_forall. intros p Hin.
  apply filter_In in Hin. destruct Hin as [_ Hk].
  unfold keep in Hk. apply andb_prop in Hk. destruct Hk as [Ht Hs].
  split; [now apply dt_ltb_iff|].
  intros E. rewrite E in Ht. discriminate.
Qed.

Lemma finalized_entries_non_degenerate_witness :
  parse_schedule d20240130 two_programmes = Ok [morning_news; talk_show]
  /\ Forall (fun p => dt_lt (start p) (stop p) /\ title p <> EmptyString)
       [morning_news; talk_show].
Proof.
  split; [vm_compute; reflexivity|].
  apply (finalized_entries_non_degenerate d20240130 two_programmes).
  vm_compute. reflexivity.
Defined.

(** C8.  Finalizing a finalized list again returns it unchanged. *)
Theorem finalization_idempotent
    (today : date) (raw_lines : list string) (out : list Programme) :
  parse_schedule today raw_lines = Ok out ->
  finalize out = Ok out.
Proof.
  intros Hp.
  destruct (parse_schedule_inv _ _ _ Hp) as (ps & Ht & Hf).
  exact (finalize_idempotent _ _ Ht Hf).
Qed.

Lemma finalization_idempotent_witness :
  parse_schedule d20240130 repeated_start = Ok repeated_start_out
  /\ finalize repeated_start_out = Ok repeated_start_out.
Proof.
  split; [vm_compute; reflexivity|].
  apply (finalization_idempotent d20240130 repeated_start).
  vm_compute. reflexivity.
Defined.

(** The titles matter: on a provisional list with an untitled entry
    (which the scanner never builds, its titles being lines kept by
    [extract_lines]) the dropped entry leaves a gap that a second
    finalization closes. *)
Example finalize_untitled_entry :
  let at_ h := mkdatetime (mkdate 738917) (mktime h 0 0 0) in
  let midnight := mkdatetime (mkdate 738918) (mktime 0 0 0 0) in
  let provisional :=
    [ mkProgramme (at_ 8) (at_ 8) "A";
      mkProgramme (at_ 9) (at_ 9) "";
      mkProgramme (at_ 10) (at_ 10) "C" ] in
  let once :=
    [ mkProgramme (at_ 8) (at_ 9) "A"; mkProgramme (at_ 10) midnight "C" ] in
  let twice :=
    [ mkProgramme (at_ 8) (at_ 10) "A"; mkProgramme (at_ 10) midnight "C" ] in
  finalize provisional = Ok once /\ finalize once = Ok twice.
Proof. vm_compute. split; reflexivity. Qed.

(** C9.  After sorting, stop assignment and the filter, the kept entries
    have strictly increasing start times, no two of them agree on start,
    stop and title, the deduplication returns them unchanged, and they
    are the result of the parse. *)
Theorem dedup_removes_nothing
    (today : date) (raw_lines : list string)
    (st : scan_state) (with_stops : list Programme) :
  scan today (extract_lines raw_lines) initial_state = Ok st ->
  assign_stops (sort_by_start (programmes st)) = Ok with_stops ->
  StronglySorted lt_start (filter keep with_stops)
  /\ ForallOrdPairs (fun a b => key_eqb a b = false) (filter keep with_stops)
  /\ dedup [] (filter keep with_stops) = filter keep with_stops
  /\ parse_schedule today raw_lines = Ok (filter keep with_stops).
Proof.
  intros Hs Ha.
  destruct (finalize_filtered _ _ Ha) as (Hinc & Hd & Hf).
  repeat split; [exact Hinc | now apply strictly_increasing_no_repeat
                | exact Hd |].
  unfold parse_schedule. rewrite Hs. exact Hf.
Qed.

Lemma dedup_removes_nothing_witness :
  let st := mkstate repeated_start_provisional (Some (mkdate 738917)) None in
  scan d20240130 (extract_lines repeated_start) initial_state = Ok st
  /\ assign_stops (sort_by_start (programmes st)) = Ok repeated_start_with_stops
  /\ filter keep repeated_start_with_stops = repeated_start_out
  /\ StronglySorted lt_start (filter keep repeated_start_with_stops)
  /\ ForallOrdPairs (fun a b => key_eqb a b = false)
       (filter keep repeated_start_with_stops)
  /\ dedup [] (filter keep repeated_start_with_stops)
     = filter keep repeated_start_with_stops
  /\ parse_schedule d20240130 repeated_start
     = Ok (filter keep repeated_start_with_stops).
Proof.
  intros st.
  split; [vm_compute; reflexivity|].
  split; [vm_compute; reflexivity|].
  split; [vm_compute; reflexivity|].
  apply (dedup_removes_nothing d20240130 repeated_start st
           repeated_start_with_stops);
    vm_compute; reflexivity.
Defined.

(** * Further properties of [parse_schedule] *)

Lemma parse_schedule_kept (today : date) (raw_lines : list string)
    (out : list Programme) :
  parse_schedule today raw_lines = Ok out ->
  exists ps ws,
    Forall nonempty_title ps
    /\ assign_stops (sort_by_start ps) = Ok ws
    /\ out = filter keep ws
    /\ StronglySorted lt_start out
    /\ assign_stops out = Ok out.
Proof.
  intros Hp.
  destruct (parse_schedule_inv _ _ _ Hp) as (ps & Ht & Hf).
  destruct (finalize_inv _ _ Hf) as (ws & Ha & Hout).
  destruct (finalize_filtered _ _ Ha) as (Hinc & Hd & _).
  rewrite Hd in Hout. subst out.
  exists ps, ws. repeat split; try assumption.
  exact (assign_stops_kept _ _ (sort_by_start_sorted ps)
           (sort_by_start_Forall nonempty_title _ Ht) Ha).
Qed.

Lemma assign_stops_fixed_adjacent (l pre post : list Programme)
    (p q : Programme) :
  assign_stops l = Ok l ->
  l = pre ++ p :: q :: post ->
  stop p = start q.
Proof.
  revert l. induction pre as [|x pre IH]; intros l Ha ->.
  - cbn [app] in Ha. rewrite assign_stops_cons2 in Ha.
    destruct (assign_stops (q :: post)); cbn [bind] in Ha; [|discriminate].
    injection Ha as Hp _. rewrite <- Hp at 1. reflexivity.
  - cbn [app] in Ha.
    destruct (pre ++ p :: q :: post) as [|y r] eqn:E.
    + destruct pre; discriminate.
    + rewrite assign_stops_cons2 in Ha.
      destruct (assign_stops (y :: r)) as [r'|] eqn:Er; cbn [bind] in Ha;
        [|discriminate].
      injection Ha as _ Hr. subst r'. exact (IH (y :: r) Er eq_refl).
Qed.

(** X1.  In the list returned by the parse every entry stops exactly
    when the next entry starts: the schedule has no gap and no overlap,
    also across the entries that the filter dropped. *)
Theorem no_gap_between_entries
    (today : date) (raw_lines : list string)
    (pre post : list Programme) (p q : Programme) :
  parse_schedule today raw_lines = Ok (pre ++ p :: q :: post) ->
  stop p = start q.
Proof.
  intros Hp.
  destruct (parse_schedule_kept _ _ _ Hp) as (ps & ws & _ & _ & _ & _ & Hfix).
  exact (assign_stops_fixed_adjacent _ pre post p q Hfix eq_refl).
Qed.

Lemma no_gap_between_entries_witness :
  parse_schedule d20240130 two_programmes
  = Ok ([] ++ morning_news :: talk_show :: [])
  /\ stop morning_news = start talk_show.
Proof.
  split; [vm_compute; reflexivity|].
  apply (no_gap_between_entries d20240130 two_programmes [] [] morning_news
           talk_show).
  vm_compute. reflexivity.
Defined.

Lemma strictly_sorted_head_le (p : Programme) (l : list Programme) (x : Programme) :
  StronglySorted lt_start (p :: l) -> In x (p :: l) ->
  dt_ltb (start x) (start p) = false.
Proof.
  intros Hs [<-|Hin]; [apply dt_ltb_irrefl|].
  inversion Hs as [|? ? _ Hall]; subst.
  rewrite Forall_forall in Hall. apply dt_ltb_asym. now apply Hall.
Qed.

(** X2.  The range that [main] reports, from the start of the first
    entry to the stop of the last, is never empty or inverted. *)
Theorem reported_range_is_ordered
    (today : date) (raw_lines : list string)
    (first last : Programme) (rest front : list Programme) :
  parse_schedule today raw_lines = Ok (first :: rest) ->
  first :: rest = front ++ [last] ->
  dt_lt (start first) (stop last).
Proof.
  intros Hp Hlast.
  destruct (parse_schedule_kept _ _ _ Hp) as (ps & ws & _ & _ & Hout & Hs & _).
  assert (Hin : In last (first :: rest))
    by (rewrite Hlast; apply in_or_app; right; now left).
  pose proof (strictly_sorted_head_le _ _ _ Hs Hin) as Hle.
  assert (Hk : keep last = true).
  { rewrite Hout in Hin. apply filter_In in Hin. tauto. }
  unfold keep in Hk. apply andb_prop in Hk. destruct Hk as [_ Hk].
  apply dt_ltb_iff. clear - Hk Hle. dt_arith.
Qed.

Lemma reported_range_is_ordered_witness :
  parse_schedule d20240130 two_programmes = Ok (morning_news :: [talk_show])
  /\ morning_news :: [talk_show] = [morning_news] ++ [talk_show]
  /\ dt_lt (start morning_news) (stop talk_show).
Proof.
  split; [vm_compute; reflexivity|].
  split; [reflexivity|].
  apply (reported_range_is_ordered d20240130 two_programmes morning_news
           talk_show [talk_show] [morning_news]).
  - vm_compute. reflexivity.
  - reflexivity.
Defined.

Lemma scan_without_known_header (today : date) (lines : list string)
    (progs : list Programme) :
  (forall ln g1 g2,
      In ln lines -> SECTION_RE_search ln = Some (g1, g2) ->
      dict_get WEEKDAY_ES (str_lower g1) = None) ->
  scan today lines (mkstate progs None None) = Ok (mkstate progs None None).
Proof.
  induction lines as [|ln rest IH]; intros H; [reflexivity|].
  cbn [scan].
  assert (Hs : step today (mkstate progs None None) ln
               = Ok (mkstate progs None None)).
  { unfold step, classify. cbn [current_date pending_start_time].
    destruct (SECTION_RE_search ln) as [[g1 g2]|] eqn:E.
    - cbn [step_of programmes].
      destruct (SECTION_RE_search_digits _ _ _ E) as (n & -> & _).
      rewrite (H ln g1 g2 (or_introl eq_refl) E). reflexivity.
    - destruct (TIME_RE_match ln); reflexivity. }
  rewrite Hs. cbn [bind]. apply IH.
  intros ln' g1 g2 Hin. apply H. now right.
Qed.

(** X3.  A page on which no header names a weekday of the vocabulary
    (no header at all, or only unknown weekday names) gives the empty
    list; nothing on such a page makes the parse raise, whatever the
    time lines look like. *)
Theorem no_known_header_gives_empty_list
    (today : date) (raw_lines : list string) :
  (forall ln g1 g2,
      In ln (extract_lines raw_lines) ->
      SECTION_RE_search ln = Some (g1, g2) ->
      dict_get WEEKDAY_ES (str_lower g1) = None) ->
  parse_schedule today raw_lines = Ok [].
Proof.
  intros H. unfold parse_schedule, initial_state.
  rewrite (scan_without_known_header today _ [] H). reflexivity.
Qed.

Lemma no_known_header_gives_empty_list_witness :
  (forall ln g1 g2,
      In ln (extract_lines ("99:99"%string :: unknown_weekday_page)) ->
      SECTION_RE_search ln = Some (g1, g2) ->
      dict_get WEEKDAY_ES (str_lower g1) = None)
  /\ parse_schedule d20240130 ("99:99"%string :: unknown_weekday_page) = Ok [].
Proof.
  assert (H : forall ln g1 g2,
             In ln (extract_lines ("99:99"%string :: unknown_weekday_page)) ->
             SECTION_RE_search ln = Some (g1, g2) ->
             dict_get WEEKDAY_ES (str_lower g1) = None).
  { intros ln g1 g2 Hin.
    vm_compute in Hin.
    destruct Hin as [<-|[<-|[<-|[<-|[]]]]]; vm_compute;
      try discriminate; intros [= <- <-]; reflexivity. }
  split; [exact H|].
  exact (no_known_header_gives_empty_list d20240130 _ H).
Defined.

Lemma classify_title_all (st : scan_state) (ln : string) (d : date) (t : time) :
  classify st ln = TitleLine d t ->
  SECTION_RE_search ln = None /\ TIME_RE_match ln = None
  /\ current_date st = Some d /\ pending_start_time st = Some t.
Proof.
  unfold classify.
  destruct (SECTION_RE_search ln) as [[a b]|]; [discriminate|].
  destruct (TIME_RE_match ln), (current_date st), (pending_start_time st);
    try discriminate; intros [= <- <-]; auto.
Qed.

(** What a turn of the loop does to the list of programmes: nothing, or
    one entry appended, whose title is the line. *)
Lemma step_programmes (today : date) (st st' : scan_state) (ln : string) :
  step today st ln = Ok st' ->
  programmes st' = programmes st
  \/ exists d t,
       classify st ln = TitleLine d t
       /\ programmes st'
          = programmes st ++ [mkProgramme (combine d t) (combine d t) ln].
Proof.
  unfold step.
  destruct (classify st ln) as [g1 g2|g| |d t|] eqn:Ec; cbn [step_of].
  - destruct (int g2) as [n|]; cbn [bind]; [|discriminate].
    destruct (dict_get WEEKDAY_ES (str_lower g1)) as [wd|]; cbn [bind].
    + destruct (choose_date_for_section wd n today); cbn [bind]; [|discriminate].
      intros [= <-]. now left.
    + intros [= <-]. now left.
  - destruct (map_result int (split_colon g)) as [[|hh [|mm [|? ?]]]|];
      cbn [bind]; try discriminate.
    destruct (time_new hh mm); cbn [bind]; [|discriminate].
    intros [= <-]. now left.
  - intros [= <-]. now left.
  - intros [= <-]. right. eauto.
  - intros [= <-]. now left.
Qed.

Lemma scan_titles_from_lines (today : date) (all lines : list string)
    (st st' : scan_state) :
  (forall ln, In ln lines -> In ln all) ->
  Forall (fun p => In (title p) all /\ SECTION_RE_search (title p) = None
                   /\ TIME_RE_match (title p) = None) (programmes st) ->
  scan today lines st = Ok st' ->
  Forall (fun p => In (title p) all /\ SECTION_RE_search (title p) = None
                   /\ TIME_RE_match (title p) = None) (programmes st').
Proof.
  revert st. induction lines as [|ln rest IH]; intros st Hsub Hst; cbn [scan].
  - now intros [= <-].
  - destruct (step today st ln) as [st1|] eqn:E; cbn [bind]; [|discriminate].
    apply IH; [intros ln' Hin; apply Hsub; now right|].
    destruct (step_programmes _ _ _ _ E) as [->|(d & t & Hc & ->)];
      [exact Hst|].
    apply Forall_app. split; [exact Hst|].
    constructor; [|constructor]. cbn [title].
    destruct (classify_title_all _ _ _ _ Hc) as (H1 & H2 & _).
    split; [apply Hsub; now left | auto].
Qed.

Lemma in_sort_by_start (x : Programme) (l : list Programme) :
  In x (sort_by_start l) -> In x l.
Proof.
  induction l as [|y r IH]; simpl; [exact (fun H => H)|].
  intros H. apply in_insert_by_start in H. destruct H as [->|H]; auto.
Qed.

Lemma assign_stops_in (l ws : list Programme) (w : Programme) :
  assign_stops l = Ok ws -> In w ws ->
  exists x, In x l /\ start x = start w /\ title x = title w.
Proof.
  revert ws. induction l as [|p r IH]; intros ws; cbn [assign_stops].
  - intros [= <-] [].
  - destruct r as [|q r'].
    + destruct (midnight_after (start p)); cbn [bind]; [|discriminate].
      intros [= <-] [<-|[]]. exists p. simpl. auto.
    + destruct (assign_stops (q :: r')) as [ws'|]; cbn [bind]; [|discriminate].
      intros [= <-] [<-|Hin].
      * exists p. simpl. auto.
      * destruct (IH ws' eq_refl Hin) as (x & Hx & Hs & Ht).
        exists x. split; [now right | auto].
Qed.

(** Every returned entry comes from a provisional entry with the same
    start and title. *)
Lemma finalize_in (ps out : list Programme) (p : Programme) :
  finalize ps = Ok out -> In p out ->
  exists p0, In p0 ps /\ start p0 = start p /\ title p0 = title p.
Proof.
  intros Hf Hin.
  destruct (finalize_inv _ _ Hf) as (ws & Ha & Hout).
  destruct (finalize_filtered _ _ Ha) as (_ & Hd & _).
  rewrite Hd in Hout. subst out. apply filter_In in Hin. destruct Hin as [Hin _].
  destruct (assign_stops_in _ _ _ Ha Hin) as (x & Hx & Hs & Ht).
  exists x. split; [now apply in_sort_by_start | auto].
Qed.

(** X4.  Every title in the result is one of the page's lines as
    [extract_lines] returns them, and is neither a section header nor a
    line of the time shape. *)
Theorem titles_are_plain_page_lines
    (today : date) (raw_lines : list string) (out : list Programme) :
  parse_schedule today raw_lines = Ok out ->
  Forall (fun p => In (title p) (extract_lines raw_lines)
                   /\ SECTION_RE_search (title p) = None
                   /\ TIME_RE_match (title p) = None) out.
Proof.
  unfold parse_schedule.
  destruct (scan today (extract_lines raw_lines) initial_state) as [st|] eqn:Es;
    cbn [bind]; [|discriminate].
  intros Hf. apply Forall_forall. intros p Hin.
  destruct (finalize_in _ _ _ Hf Hin) as (p0 & Hp0 & _ & Ht).
  assert (Hall : Forall (fun p => In (title p) (extract_lines raw_lines)
                                 /\ SECTION_RE_search (title p) = None
                                 /\ TIME_RE_match (title p) = None)
                   (programmes st)).
  { apply (scan_titles_from_lines today (extract_lines raw_lines)
             (extract_lines raw_lines) initial_state st);
      [exact (fun _ H => H) | constructor | exact Es]. }
  rewrite Forall_forall in Hall. specialize (Hall p0 Hp0).
  now rewrite Ht in Hall.
Qed.

Lemma titles_are_plain_page_lines_witness :
  parse_schedule d20240130 two_programmes = Ok [morning_news; talk_show]
  /\ Forall (fun p => In (title p) (extract_lines two_programmes)
                      /\ SECTION_RE_search (title p) = None
                      /\ TIME_RE_match (title p) = None)
       [morning_news; talk_show].
Proof.
  split; [vm_compute; reflexivity|].
  apply (titles_are_plain_page_lines d20240130 two_programmes).
  vm_compute. reflexivity.
Defined.

Lemma time_new_on_minute (hh mm : Z) (t : time) :
  time_new hh mm = Ok t -> time_on_minute t.
Proof.
  unfold time_new, time_on_minute.
  destruct (_ && _) eqn:E; [|discriminate].
  intros [= <-]. cbn [hour minute second microsecond]. lia.
Qed.

Lemma step_on_minute (today : date) (st st' : scan_state) (ln : string) :
  state_on_minute st -> step today st ln = Ok st' -> state_on_minute st'.
Proof.
  intros [Hpend Hprogs]. unfold step.
  destruct (classify st ln) as [g1 g2|g| |d t|] eqn:Ec; cbn [step_of].
  - destruct (int g2) as [n|]; cbn [bind]; [|discriminate].
    destruct (dict_get WEEKDAY_ES (str_lower g1)) as [wd|]; cbn [bind];
      [destruct (choose_date_for_section wd n today); cbn [bind];
       [|discriminate]|];
      intros [= <-]; (split; [discriminate | exact Hprogs]).
  - destruct (map_result int (split_colon g)) as [[|hh [|mm [|? ?]]]|];
      cbn [bind]; try discriminate.
    destruct (time_new hh mm) as [t|] eqn:Et; cbn [bind]; [|discriminate].
    intros [= <-]. split; [|exact Hprogs].
    intros t' [= <-]. exact (time_new_on_minute _ _ _ Et).
  - intros [= <-]. now split.
  - intros [= <-]. split; [discriminate|]. cbn [programmes].
    apply Forall_app. split; [exact Hprogs|].
    constructor; [|constructor]. cbn [start combine dt_time].
    apply Hpend. now destruct (classify_title_all _ _ _ _ Ec) as (_ & _ & _ & ?).
  - intros [= <-]. now split.
Qed.

Lemma scan_on_minute (today : date) (lines : list string) (st st' : scan_state) :
  state_on_minute st -> scan today lines st = Ok st' -> state_on_minute st'.
Proof.
  revert st. induction lines as [|ln rest IH]; intros st Hst; cbn [scan].
  - now intros [= <-].
  - destruct (step today st ln) as [st1|] eqn:E; cbn [bind]; [|discriminate].
    apply IH. exact (step_on_minute _ _ _ _ Hst E).
Qed.

(** In a list that stop assignment leaves as it is, every entry stops
    where another one starts, or at the midnight after its start. *)
Lemma assign_stops_fixed_stop (l : list Programme) (p : Programme) :
  assign_stops l = Ok l -> In p l ->
  (exists q, In q l /\ stop p = start q)
  \/ midnight_after (start p) = Ok (stop p).
Proof.
  induction l as [|x r IH]; [intros _ []|].
  destruct r as [|y r'].
  - cbn [assign_stops].
    destruct (midnight_after (start x)) as [s|] eqn:Em; cbn [bind]; [|discriminate].
    intros [= Hx] [<-|[]]. right. rewrite <- Hx at 2. exact Em.
  - rewrite assign_stops_cons2.
    destruct (assign_stops (y :: r')) as [r1|] eqn:Er; cbn [bind]; [|discriminate].
    intros [= Hx Hr] [<-|Hin].
    + left. exists y. split; [right; now left|]. rewrite <- Hx at 1. reflexivity.
    + subst r1. destruct (IH eq_refl Hin) as [(q & Hq & Hs)|Hm]; [left|now right].
      exists q. split; [now right | exact Hs].
Qed.

(** X5.  Every entry of the result starts and stops on a whole minute
    of the day: hour 0-23, minute 0-59, no seconds, no microseconds. *)
Theorem entries_on_whole_minutes
    (today : date) (raw_lines : list string) (out : list Programme) :
  parse_schedule today raw_lines = Ok out ->
  Forall (fun p => time_on_minute (dt_time (start p))
                   /\ time_on_minute (dt_time (stop p))) out.
Proof.
  intros Hp.
  assert (Hstart : forall p, In p out -> time_on_minute (dt_time (start p))).
  { revert Hp. unfold parse_schedule.
    destruct (scan today (extract_lines raw_lines) initial_state) as [st|] eqn:Es;
      cbn [bind]; [|discriminate].
    intros Hf p Hin.
    destruct (finalize_in _ _ _ Hf Hin) as (p0 & Hp0 & Hs & _).
    assert (Hst : state_on_minute st).
    { apply (scan_on_minute today (extract_lines raw_lines) initial_state st);
        [split; [discriminate | constructor] | exact Es]. }
    destruct Hst as [_ Hall]. rewrite Forall_forall in Hall.
    rewrite <- Hs. now apply Hall. }
  destruct (parse_schedule_kept _ _ _ Hp) as (ps & ws & _ & _ & _ & _ & Hfix).
  apply Forall_forall. intros p Hin. split; [now apply Hstart|].
  destruct (assign_stops_fixed_stop _ _ Hfix Hin) as [(q & Hq & ->)|Hm].
  - now apply Hstart.
  - apply midnight_after_inv in Hm. destruct Hm as [_ ->].
    unfold time_on_minute. cbn [hour minute second microsecond]. lia.
Qed.

Lemma entries_on_whole_minutes_witness :
  parse_schedule d20240130 two_programmes = Ok [morning_news; talk_show]
  /\ Forall (fun p => time_on_minute (dt_time (start p))
                      /\ time_on_minute (dt_time (stop p)))
       [morning_news; talk_show].
Proof.
  split; [vm_compute; reflexivity|].
  apply (entries_on_whole_minutes d20240130 two_programmes).
  vm_compute. reflexivity.
Defined.

(** * Properties of [extract_lines] *)

Lemma skip_spaces_head (s : string) : starts_with_space (skip_spaces s) = false.
Proof.
  induction s as [|c r IH]; simpl; [reflexivity|].
  destruct (is_space c) eqn:E; [exact IH | simpl; exact E].
Qed.

Lemma rstrip_end (s : string) : ends_with_space (rstrip s) = false.
Proof.
  induction s as [|c r IH]; [reflexivity|].
  cbn [rstrip]. destruct (rstrip r) as [|c' r''].
  - destruct (is_space c) eqn:E; simpl; [reflexivity | exact E].
  - exact IH.
Qed.

Lemma rstrip_head (s : string) :
  starts_with_space s = false -> starts_with_space (rstrip s) = false.
Proof.
  destruct s as [|c r]; [reflexivity|].
  cbn [rstrip starts_with_space]. intros E.
  destruct (rstrip r); [rewrite E|]; simpl; assumption.
Qed.

Lemma skip_spaces_fixed (s : string) :
  starts_with_space s = false -> skip_spaces s = s.
Proof.
  destruct s as [|c r]; [reflexivity|].
  simpl. now intros ->.
Qed.

Lemma rstrip_fixed (s : string) : ends_with_space s = false -> rstrip s = s.
Proof.
  induction s as [|c r IH]; [reflexivity|].
  cbn [rstrip ends_with_space]. destruct r as [|c' r'].
  - cbn [rstrip]. now intros ->.
  - intros E. now rewrite (IH E).
Qed.

Lemma strip_clean (s : string) :
  starts_with_space (strip s) = false /\ ends_with_space (strip s) = false.
Proof.
  unfold strip. split; [|apply rstrip_end].
  apply rstrip_head, skip_spaces_head.
Qed.

Lemma strip_fixed (s : string) :
  starts_with_space s = false -> ends_with_space s = false -> strip s = s.
Proof.
  intros H1 H2. unfold strip. rewrite (skip_spaces_fixed _ H1).
  exact (rstrip_fixed _ H2).
Qed.

Lemma extract_lines_in (raw_lines : list string) (ln : string) :
  In ln (extract_lines raw_lines) ->
  ln <> EmptyString /\ starts_with_space ln = false
  /\ ends_with_space ln = false.
Proof.
  intros Hin.
  pose proof (extract_lines_nonempty raw_lines) as Hne.
  rewrite Forall_forall in Hne. split; [now apply Hne|].
  unfold extract_lines in Hin. apply in_map_iff in Hin.
  destruct Hin as (r & <- & _). apply strip_clean.
Qed.

(** X6.  Every line that [extract_lines] returns is non-empty and has no
    whitespace at its start or at its end. *)
Theorem extract_lines_clean (raw_lines : list string) :
  Forall (fun ln => ln <> EmptyString
                    /\ starts_with_space ln = false
                    /\ ends_with_space ln = false)
         (extract_lines raw_lines).
Proof.
  apply Forall_forall. intros ln. apply extract_lines_in.
Qed.

Lemma extract_lines_fixed (lines : list string) :
  Forall (fun ln => ln <> EmptyString
                    /\ starts_with_space ln = false
                    /\ ends_with_space ln = false) lines ->
  extract_lines lines = lines.
Proof.
  unfold extract_lines.
  induction 1 as [|ln rest (Hne & Hs & He) Hrest IH]; [reflexivity|].
  cbn [filter]. rewrite (strip_fixed _ Hs He).
  assert (Ht : truthy ln = true).
  { unfold truthy. destruct (String.eqb ln EmptyString) eqn:E; [|reflexivity].
    apply String.eqb_eq in E. contradiction. }
  rewrite Ht. cbn [andb map]. rewrite (strip_fixed _ Hs He). now f_equal.
Qed.

(** X7.  Cleaning the lines twice is the same as cleaning them once, and
    the parse of a page is the parse of its cleaned lines: blank lines
    and whitespace around a line never change the result. *)
Theorem parse_ignores_blank_lines_and_padding
    (today : date) (raw_lines : list string) :
  extract_lines (extract_lines raw_lines) = extract_lines raw_lines
  /\ parse_schedule today (extract_lines raw_lines)
     = parse_schedule today raw_lines.
Proof.
  assert (H : extract_lines (extract_lines raw_lines) = extract_lines raw_lines)
    by exact (extract_lines_fixed _ (extract_lines_clean raw_lines)).
  split; [exact H|]. unfold parse_schedule. now rewrite H.
Qed.

Example parse_untidy_page :
  extract_lines untidy_page = two_programmes
  /\ parse_schedule d20240130 untidy_page = Ok [morning_news; talk_show].
Proof. vm_compute. split; reflexivity. Qed.

(** * Properties of the header pattern *)

Lemma lower_idem (c : ascii) : lower (lower c) = lower c.
Proof. each_ascii c; vm_compute; reflexivity. Qed.

Lemma is_space_lower (c : ascii) : is_space (lower c) = is_space c.
Proof. each_ascii c; vm_compute; reflexivity. Qed.

Lemma is_digit_lower (c : ascii) : is_digit (lower c) = is_digit c.
Proof. each_ascii c; vm_compute; reflexivity. Qed.

Lemma is_letter_lower (c : ascii) : is_letter (lower c) = is_letter c.
Proof. each_ascii c; vm_compute; reflexivity. Qed.

Lemma digit_lower (c : ascii) : is_digit c = true -> lower c = c.
Proof. each_ascii c; vm_compute; congruence. Qed.

Lemma skip_spaces_lower (s : string) :
  skip_spaces (str_lower s) = str_lower (skip_spaces s).
Proof.
  induction s as [|c r IH]; [reflexivity|].
  cbn [str_lower skip_spaces]. rewrite is_space_lower.
  destruct (is_space c); [exact IH | reflexivity].
Qed.

Lemma match_literal_lower (lit s : string) :
  match_literal lit (str_lower s) = option_map str_lower (match_literal lit s).
Proof.
  revert s. induction lit as [|a lit IH]; intros s; [reflexivity|].
  destruct s as [|b s]; [reflexivity|].
  cbn [str_lower match_literal]. rewrite lower_idem.
  destruct (ord (lower a) =? ord (lower b)); [apply IH | reflexivity].
Qed.

Lemma spaces1_lower (s : string) :
  spaces1 (str_lower s) = option_map str_lower (spaces1 s).
Proof.
  destruct s as [|c r]; [reflexivity|].
  cbn [str_lower spaces1]. rewrite is_space_lower.
  destruct (is_space c); [|reflexivity].
  cbn [option_map]. now rewrite skip_spaces_lower.
Qed.

Lemma take_letters_lower (s : string) :
  take_letters (str_lower s)
  = (str_lower (fst (take_letters s)), str_lower (snd (take_letters s))).
Proof.
  induction s as [|c r IH]; [reflexivity|].
  cbn [str_lower take_letters]. rewrite is_letter_lower.
  destruct (is_letter c); [|reflexivity].
  rewrite IH. destruct (take_letters r) as [g rest]. reflexivity.
Qed.

Lemma letters1_lower (s : string) :
  letters1 (str_lower s)
  = option_map (fun gr => (str_lower (fst gr), str_lower (snd gr)))
      (letters1 s).
Proof.
  unfold letters1. rewrite take_letters_lower.
  destruct (take_letters s) as [[|c g] rest]; reflexivity.
Qed.

Lemma digits12_lower (s : string) : digits12 (str_lower s) = digits12 s.
Proof.
  destruct s as [|a [|b r]]; [reflexivity| |]; cbn [str_lower digits12];
    rewrite ?is_digit_lower.
  - destruct (is_digit a) eqn:Ea; [|reflexivity]. now rewrite (digit_lower _ Ea).
  - destruct (is_digit a) eqn:Ea; [|reflexivity]. rewrite (digit_lower _ Ea).
    destruct (is_digit b) eqn:Eb; [|reflexivity]. now rewrite (digit_lower _ Eb).
Qed.

Lemma section_at_lower (s : string) :
  section_at (str_lower s) = option_map lower_groups (section_at s).
Proof.
  unfold section_at.
  rewrite match_literal_lower.
  destruct (match_literal Programacion s) as [r1|]; [|reflexivity].
  cbn [option_map opt_bind]. rewrite spaces1_lower.
  destruct (spaces1 r1) as [r2|]; [|reflexivity].
  cbn [option_map opt_bind]. rewrite match_literal_lower.
  destruct (match_literal "de" r2) as [r3|]; [|reflexivity].
  cbn [option_map opt_bind]. rewrite spaces1_lower.
  destruct (spaces1 r3) as [r4|]; [|reflexivity].
  cbn [option_map opt_bind]. rewrite letters1_lower.
  destruct (letters1 r4) as [[g1 r5]|]; [|reflexivity].
  cbn [option_map opt_bind fst snd]. rewrite spaces1_lower.
  destruct (spaces1 r5) as [r6|]; [|reflexivity].
  cbn [option_map opt_bind]. rewrite digits12_lower.
  destruct (digits12 r6) as [g2|]; reflexivity.
Qed.

Lemma SECTION_RE_search_lower (ln : string) :
  SECTION_RE_search (str_lower ln)
  = option_map lower_groups (SECTION_RE_search ln).
Proof.
  induction ln as [|c r IH].
  - cbn [str_lower SECTION_RE_search].
    change EmptyString with (str_lower EmptyString) at 1.
    rewrite section_at_lower.
    destruct (section_at EmptyString); reflexivity.
  - cbn [SECTION_RE_search].
    change (str_lower (String c r)) with (String (lower c) (str_lower r)).
    cbn [SECTION_RE_search].
    change (String (lower c) (str_lower r)) with (str_lower (String c r)).
    rewrite section_at_lower.
    destruct (section_at (String c r)); [reflexivity | exact IH].
Qed.

Lemma str_lower_idem (s : string) : str_lower (str_lower s) = str_lower s.
Proof.
  induction s as [|c r IH]; [reflexivity|].
  cbn [str_lower]. now rewrite lower_idem, IH.
Qed.

(** X8.  On lines whose code points are all below 256 (Latin-1, the
    strings of this development), header recognition does not look at
    the case of the letters: two such lines with the same [lower()], one
    of them a section header, are both headers and leave the scanner in
    the same state.  (Beyond Latin-1 this fails: under [re.IGNORECASE]
    the capital I with dot above, U+0130, matches the "i" of the pattern,
    while [lower()] turns it into two code points.) *)
Theorem header_case_insensitive
    (today : date) (st : scan_state) (l1 l2 : string) :
  str_lower l1 = str_lower l2 ->
  SECTION_RE_search l1 <> None ->
  SECTION_RE_search l2 <> None /\ step today st l1 = step today st l2.
Proof.
  intros Hl H1.
  pose proof (SECTION_RE_search_lower l1) as E1.
  pose proof (SECTION_RE_search_lower l2) as E2.
  rewrite Hl in E1. rewrite E1 in E2.
  destruct (SECTION_RE_search l1) as [[a1 b1]|] eqn:S1; [|contradiction].
  destruct (SECTION_RE_search l2) as [[a2 b2]|] eqn:S2; [|discriminate].
  split; [discriminate|].
  cbn [option_map] in E2. unfold lower_groups in E2. cbn [fst snd] in E2.
  injection E2 as Ea Eb. subst b2.
  unfold step, classify. rewrite S1, S2. cbn [step_of]. now rewrite Ea.
Qed.

Lemma header_case_insensitive_witness :
  str_lower header_jueves_1_upper = str_lower header_jueves_1
  /\ SECTION_RE_search header_jueves_1_upper <> None
  /\ SECTION_RE_search header_jueves_1 <> None
  /\ step d20240130 initial_state header_jueves_1_upper
     = step d20240130 initial_state header_jueves_1.
Proof.
  split; [vm_compute; reflexivity|].
  split; [vm_compute; discriminate|].
  apply (header_case_insensitive d20240130 initial_state
           header_jueves_1_upper header_jueves_1).
  - vm_compute. reflexivity.
  - vm_compute. discriminate.
Defined.

(** * When a turn of the loop raises *)

(** A time-shaped line met with a current date: the step hands the two
    numbers to [time]. *)
Lemma step_time_shaped (today : date) (st : scan_state) (ln : string)
    (d : date) :
  time_shaped ln ->
  current_date st = Some d ->
  exists hh mm,
    0 <= hh /\ 0 <= mm
    /\ step today st ln
       = (t <- time_new hh mm ;;
          Ok (mkstate (programmes st) (Some d) (Some t)))
    /\ SpecTimeMarker.parse ln
       = if (hh <=? 23) && (mm <=? 59) then Some (mktime hh mm 0 0) else None.
Proof.
  intros (pre & h1 & h2 & m1 & m2 & post & -> & Hp & Hq & H1 & H2 & H3 & H4) Hd.
  set (ln := (pre ++ _)%string).
  assert (Hskip : skip_spaces ln
                  = String h1 (String h2 (String ":" (String m1 (String m2 post))))).
  { unfold ln. rewrite (skip_spaces_app _ _ Hp). cbn [skip_spaces].
    now rewrite (digit_not_space _ H1). }
  assert (Hm : TIME_RE_match ln
               = Some (String h1 (String h2 (String ":" (String m1 (String m2 EmptyString)))))).
  { unfold TIME_RE_match. rewrite Hskip, H1, H2, H3, H4, Hq. reflexivity. }
  exists (10 * (ord h1 - 48) + (ord h2 - 48)), (10 * (ord m1 - 48) + (ord m2 - 48)).
  pose proof (digit_range _ H1). pose proof (digit_range _ H2).
  pose proof (digit_range _ H3). pose proof (digit_range _ H4).
  split; [lia|]. split; [lia|]. split.
  - unfold step, classify.
    rewrite (TIME_RE_match_not_section _ _ Hm), Hm, Hd.
    cbn [step_of split_colon].
    rewrite (digit_not_colon _ H1), (digit_not_colon _ H2),
      (digit_not_colon _ H3), (digit_not_colon _ H4).
    change (ord ":" =? 58) with true. cbn iota.
    cbn [map_result int int_digits bind].
    rewrite H1, H2, H3, H4. cbn [bind].
    replace ((0 * 10 + (ord h1 - 48)) * 10 + (ord h2 - 48))
      with (10 * (ord h1 - 48) + (ord h2 - 48)) by ring.
    replace ((0 * 10 + (ord m1 - 48)) * 10 + (ord m2 - 48))
      with (10 * (ord m1 - 48) + (ord m2 - 48)) by ring.
    now rewrite Hd.
  - unfold SpecTimeMarker.parse, SpecTimeMarker.digit_value.
    rewrite Hskip, H1, H2, H3, H4, Hq.
    change (ord ":" =? 58) with true. reflexivity.
Qed.

Lemma header_step_returns (today : date) (st : scan_state) (ln : string)
    (g1 g2 : string) :
  92 <= toordinal today <= Calendar.MAXORDINAL - 92 ->
  classify st ln = SectionHeader g1 g2 ->
  exists st', step today st ln = Ok st'.
Proof.
  intros Ht Ec. unfold step. rewrite Ec. cbn [step_of].
  apply classify_section_inv in Ec.
  destruct (SECTION_RE_search_digits _ _ _ Ec) as (n & -> & Hn). cbn [bind].
  destruct (dict_get WEEKDAY_ES (str_lower g1)) as [wd|]; cbn [bind]; [|eauto].
  destruct (choose_date_returns wd n today (header_day_fits n Hn) Ht)
    as (d & -> & _).
  cbn [bind]. eauto.
Qed.

Lemma step_raises_cases (today : date) (st : scan_state) (ln : string) (e : exn) :
  92 <= toordinal today <= Calendar.MAXORDINAL - 92 ->
  step today st ln = Raise e ->
  e = ValueError
  /\ time_shaped ln /\ current_date st <> None
  /\ SpecTimeMarker.is_time_marker ln = false.
Proof.
  intros Ht Hr.
  destruct (classify st ln) as [g1 g2|g| |d t|] eqn:Ec.
  - destruct (header_step_returns today st ln g1 g2 Ht Ec) as (st' & Hs).
    rewrite Hs in Hr. discriminate.
  - destruct (proj1 (classify_time_marker st ln) (ex_intro _ g Ec))
      as [Hshape Hdate].
    destruct (current_date st) as [d|] eqn:Ed; [|contradiction].
    destruct (step_time_shaped today st ln d Hshape Ed)
      as (hh & mm & Hh & Hmm & Hs & Hparse).
    rewrite Hs in Hr. unfold time_new in Hr.
    unfold SpecTimeMarker.is_time_marker. rewrite Hparse.
    destruct ((hh <=? 23) && (mm <=? 59)) eqn:E.
    + assert (E' : (0 <=? hh) && (hh <? 24) && (0 <=? mm) && (mm <? 60) = true)
        by lia.
      rewrite E' in Hr. discriminate.
    + assert (E' : (0 <=? hh) && (hh <? 24) && (0 <=? mm) && (mm <? 60) = false)
        by lia.
      rewrite E' in Hr. cbn [bind] in Hr. injection Hr as <-.
      repeat split; [exact Hshape | discriminate].
  - unfold step in Hr. rewrite Ec in Hr. discriminate.
  - unfold step in Hr. rewrite Ec in Hr. discriminate.
  - unfold step in Hr. rewrite Ec in Hr. discriminate.
Qed.

(** X9.  For every [today] from 0001-04-02 to 9999-09-30, a turn of the
    loop raises exactly when the line has the time shape, a current date
    is set and the hour is above 23 or the minute above 59; what it
    raises is [ValueError]. *)
Theorem step_raises_exactly_on_bad_time
    (today : date) (st : scan_state) (ln : string) :
  92 <= toordinal today <= Calendar.MAXORDINAL - 92 ->
  ((exists e, step today st ln = Raise e)
   <-> (time_shaped ln /\ current_date st <> None
        /\ SpecTimeMarker.is_time_marker ln = false))
  /\ (forall e, step today st ln = Raise e -> e = ValueError).
Proof.
  intros Ht. split; [split|].
  - intros (e & He). now destruct (step_raises_cases _ _ _ _ Ht He).
  - intros (Hshape & Hdate & Hbad).
    destruct (current_date st) as [d|] eqn:Ed; [|contradiction].
    destruct (step_time_shaped today st ln d Hshape Ed)
      as (hh & mm & Hh & Hmm & Hs & Hparse).
    unfold SpecTimeMarker.is_time_marker in Hbad. rewrite Hparse in Hbad.
    destruct ((hh <=? 23) && (mm <=? 59)) eqn:E; [discriminate|].
    exists ValueError. rewrite Hs. unfold time_new.
    assert (E' : (0 <=? hh) && (hh <? 24) && (0 <=? mm) && (mm <? 60) = false)
      by lia.
    now rewrite E'.
  - intros e He. now destruct (step_raises_cases _ _ _ _ Ht He).
Qed.

Lemma step_raises_exactly_on_bad_time_witness :
  92 <= toordinal d20240130 <= Calendar.MAXORDINAL - 92
  /\ step d20240130 (mkstate [] (Some d20240130) None) "24:00"
     = Raise ValueError
  /\ ((exists e, step d20240130 (mkstate [] (Some d20240130) None) "24:00"
                 = Raise e)
      <-> (time_shaped "24:00"
           /\ current_date (mkstate [] (Some d20240130) None) <> None
           /\ SpecTimeMarker.is_time_marker "24:00" = false)).
Proof.
  split; [vm_compute; split; discriminate|].
  split; [vm_compute; reflexivity|].
  apply (step_raises_exactly_on_bad_time d20240130
           (mkstate [] (Some d20240130) None) "24:00").
  vm_compute. split; discriminate.
Defined.

Lemma step_keeps_range (today : date) (st st' : scan_state) (ln : string) :
  92 <= toordinal today <= Calendar.MAXORDINAL - 92 ->
  state_in_range st -> step today st ln = Ok st' -> state_in_range st'.
Proof.
  intros Ht [Hcur Hprogs]. unfold step.
  destruct (classify st ln) as [g1 g2|g| |d t|] eqn:Ec; cbn [step_of].
  - apply classify_section_inv in Ec.
    destruct (SECTION_RE_search_digits _ _ _ Ec) as (n & -> & Hn). cbn [bind].
    destruct (dict_get WEEKDAY_ES (str_lower g1)) as [wd|]; cbn [bind].
    + destruct (choose_date_returns wd n today (header_day_fits n Hn) Ht)
        as (d & -> & Hd).
      cbn [bind]. intros [= <-]. split; [|exact Hprogs].
      cbn [current_date]. intros d' [= <-]. unfold date_in_range. lia.
    + intros [= <-]. split; [discriminate | exact Hprogs].
  - destruct (map_result int (split_colon g)) as [[|hh [|mm [|? ?]]]|];
      cbn [bind]; try discriminate.
    destruct (time_new hh mm); cbn [bind]; [|discriminate].
    intros [= <-]. now split.
  - intros [= <-]. now split.
  - intros [= <-]. split; [exact Hcur|]. cbn [programmes].
    apply Forall_app. split; [exact Hprogs|].
    constructor; [|constructor]. cbn [start combine dt_date].
    apply Hcur. exact (classify_title_inv _ _ _ _ Ec).
  - intros [= <-]. now split.
Qed.

Lemma scan_outcome (today : date) (lines : list string) (st : scan_state) :
  92 <= toordinal today <= Calendar.MAXORDINAL - 92 ->
  state_in_range st ->
  (exists st', scan today lines st = Ok st' /\ state_in_range st')
  \/ (scan today lines st = Raise ValueError
      /\ exists ln, In ln lines /\ time_shaped ln
                    /\ SpecTimeMarker.is_time_marker ln = false).
Proof.
  intros Ht. revert st. induction lines as [|ln rest IH]; intros st Hst.
  - left. exists st. split; [reflexivity | exact Hst].
  - cbn [scan]. destruct (step today st ln) as [st1|e] eqn:Es; cbn [bind].
    + destruct (IH st1 (step_keeps_range _ _ _ _ Ht Hst Es))
        as [(st' & Hs & Hr)|(Hs & ln' & Hin & Hshape & Hbad)].
      * left. eauto.
      * right. split; [exact Hs|]. exists ln'. split; [now right | auto].
    + destruct (step_raises_cases _ _ _ _ Ht Es) as (-> & Hshape & _ & Hbad).
      right. split; [reflexivity|]. exists ln. split; [now left | auto].
Qed.

(** X10.  For every [today] from 0001-04-02 to 9999-09-30 the parse
    either returns a list or raises [ValueError], and it raises only when
    some line of the page has the time shape with an hour above 23 or a
    minute above 59. *)
Theorem parse_returns_or_bad_time
    (today : date) (raw_lines : list string) :
  92 <= toordinal today <= Calendar.MAXORDINAL - 92 ->
  (exists out, parse_schedule today raw_lines = Ok out)
  \/ (parse_schedule today raw_lines = Raise ValueError
      /\ exists ln, In ln (extract_lines raw_lines) /\ time_shaped ln
                    /\ SpecTimeMarker.is_time_marker ln = false).
Proof.
  intros Ht. unfold parse_schedule.
  destruct (scan_outcome today (extract_lines raw_lines) initial_state Ht)
    as [(st & -> & _ & Hprogs)|(-> & Hbad)].
  - split; [discriminate | constructor].
  - left. cbn [bind]. now apply finalize_returns.
  - right. split; [reflexivity | exact Hbad].
Qed.

Lemma parse_returns_or_bad_time_witness :
  92 <= toordinal d20240130 <= Calendar.MAXORDINAL - 92
  /\ ((exists out, parse_schedule d20240130 two_programmes = Ok out)
      \/ (parse_schedule d20240130 two_programmes = Raise ValueError
          /\ exists ln, In ln (extract_lines two_programmes) /\ time_shaped ln
                        /\ SpecTimeMarker.is_time_marker ln = false)).
Proof.
  split; [vm_compute; split; discriminate|].
  apply (parse_returns_or_bad_time d20240130 two_programmes).
  vm_compute. split; discriminate.
Defined.

(** * Further properties of [choose_date_for_section] *)

Lemma candidate_at_inv
    (target_weekday target_day : Z) (today : date) (month_offset : Z)
    (c : list date) (d : date) :
  candidate_at target_weekday target_day today month_offset = Ok c ->
  In d c ->
  weekday d = target_weekday /\ day d = target_day.
Proof.
  unfold candidate_at.
  destruct (date_new (year today) (month today) 1) as [f|]; cbn [bind];
    [|discriminate].
  destruct (date_add_days f (31 * month_offset)) as [a|]; cbn [bind];
    [|discriminate].
  destruct (date_new (year a) (month a) target_day) as [x|[]] eqn:Ex;
    try discriminate.
  - destruct (weekday x =? target_weekday) eqn:Ew.
    + intros [= <-] [<-|[]]. apply Z.eqb_eq in Ew.
      split; [exact Ew|]. now destruct (date_new_fields _ _ _ _ Ex) as (_ & _ & ?).
    + intros [= <-] [].
  - intros [= <-] [].
Qed.

(** X11.  When the enumeration leaves at least one candidate, the date
    returned is one of the candidates: it falls on the wanted weekday and
    its day of the month is the wanted one. *)
Theorem choose_date_hits_weekday_and_day
    (target_weekday target_day : Z) (today : date) (cands : list date) :
  candidates target_weekday target_day today = Ok cands ->
  cands <> [] ->
  exists r,
    choose_date_for_section target_weekday target_day today = Ok r
    /\ In r cands
    /\ weekday r = target_weekday /\ day r = target_day.
Proof.
  intros Hc Hne.
  destruct (choose_date_tie_first_enumerated_aux _ _ _ _ Hc Hne)
    as (l1 & r & l2 & Hl & Hr & _).
  assert (Hin : In r cands)
    by (rewrite Hl; apply in_or_app; right; now left).
  exists r. split; [exact Hr|]. split; [exact Hin|].
  destruct (candidates_enumeration _ _ _ _ Hc)
    as (c1 & c2 & c3 & H1 & H2 & H3 & Hcs).
  rewrite Hcs in Hin.
  apply in_app_or in Hin. destruct Hin as [Hin|Hin];
    [exact (candidate_at_inv _ _ _ _ _ _ H1 Hin)|].
  apply in_app_or in Hin. destruct Hin as [Hin|Hin];
    [exact (candidate_at_inv _ _ _ _ _ _ H2 Hin)
    | exact (candidate_at_inv _ _ _ _ _ _ H3 Hin)].
Qed.

Lemma choose_date_hits_weekday_and_day_witness :
  candidates 2 1 d20230215 = Ok [mkdate 738552; mkdate 738580]
  /\ exists r,
       choose_date_for_section 2 1 d20230215 = Ok r
       /\ In r [mkdate 738552; mkdate 738580]
       /\ weekday r = 2 /\ day r = 1.
Proof.
  split; [vm_compute; reflexivity|].
  apply (choose_date_hits_weekday_and_day 2 1 d20230215).
  - vm_compute. reflexivity.
  - discriminate.
Defined.

(** X12.  For every [today] from 0001-04-02 to 9999-09-30, every
    weekday and every day of the month that is a C [int] (from -2^31 to
    2^31 - 1, as every day read from a header is), the resolver returns a
    date, and that date is at most 91 days away from [today]. *)
Theorem choose_date_returns_near_today
    (target_weekday target_day : Z) (today : date) :
  INT_MIN <= target_day <= INT_MAX ->
  92 <= toordinal today <= Calendar.MAXORDINAL - 92 ->
  exists d,
    choose_date_for_section target_weekday target_day today = Ok d
    /\ distance today d <= 91.
Proof.
  intros Hday Ht.
  destruct (choose_date_returns target_weekday target_day today Hday Ht)
    as (d & Hd & Hnear).
  exists d. split; [exact Hd|]. unfold distance, days_between. lia.
Qed.

(** The bound is reached: on 2023-05-31 a Wednesday 1 is resolved to
    2023-03-01, 91 days back. *)
Lemma choose_date_returns_near_today_witness :
  INT_MIN <= 1 <= INT_MAX
  /\ 92 <= toordinal d20230531 <= Calendar.MAXORDINAL - 92
  /\ choose_date_for_section 2 1 d20230531 = Ok (mkdate 738580)
  /\ distance d20230531 (mkdate 738580) = 91
  /\ exists d,
       choose_date_for_section 2 1 d20230531 = Ok d
       /\ distance d20230531 d <= 91.
Proof.
  split; [vm_compute; split; discriminate|].
  split; [vm_compute; split; discriminate|].
  split; [vm_compute; reflexivity|].
  split; [vm_compute; reflexivity|].
  apply (choose_date_returns_near_today 2 1 d20230531).
  - vm_compute. split; discriminate.
  - vm_compute. split; discriminate.
Defined.

(** The bound on the day is needed: a day beyond the C [int]s makes
    [date] raise [OverflowError], which the resolver does not catch. *)
Example choose_date_day_beyond_c_int :
  choose_date_for_section 0 (2 ^ 31) d20240130 = Raise OverflowError
  /\ choose_date_for_section 0 (2 ^ 31 - 1) d20240130 = Ok d20240130.
Proof. vm_compute. split; reflexivity. Qed.

Lemma candidate_at_after_approx
    (target_weekday target_day : Z) (today : date) (month_offset : Z)
    (f a : date) :
  date_new (year today) (month today) 1 = Ok f ->
  date_add_days f (31 * month_offset) = Ok a ->
  (exists c, candidate_at target_weekday target_day today month_offset = Ok c)
  \/ candidate_at target_weekday target_day today month_offset
     = Raise OverflowError.
Proof.
  intros Hf Ha. unfold candidate_at. rewrite Hf. cbn [bind].
  rewrite Ha. cbn [bind].
  destruct (date_new (year a) (month a) target_day) as [x|e] eqn:Ex.
  - destruct (weekday x =? target_weekday); eauto.
  - apply date_new_raises in Ex. destruct Ex as [[-> _]|[-> _]]; eauto.
Qed.

Lemma january_of_year_1 (today : date) :
  1 <= toordinal today <= 31 -> year today = 1 /\ month today = 1.
Proof.
  intros H. unfold year, month.
  replace (toordinal today) with (Calendar.ymd2ord 1 1 (toordinal today))
    by (unfold Calendar.ymd2ord; change (Calendar.days_before_year 1) with 0;
        change (Calendar.days_before_month 1 1) with 0; lia).
  rewrite CalendarFacts.ord2ymd_ymd2ord; [auto | lia | lia |].
  change (Calendar.days_in_month 1 1) with 31. lia.
Qed.

Lemma december_of_year_9999 (today : date) :
  Calendar.MAXORDINAL - 30 <= toordinal today <= Calendar.MAXORDINAL ->
  year today = 9999 /\ month today = 12.
Proof.
  unfold Calendar.MAXORDINAL. intros H. unfold year, month.
  replace (toordinal today)
    with (Calendar.ymd2ord 9999 12 (toordinal today - 3652028))
    by (unfold Calendar.ymd2ord;
        change (Calendar.days_before_year 9999) with 3651694;
        change (Calendar.days_before_month 9999 12) with 334; lia).
  rewrite CalendarFacts.ord2ymd_ymd2ord; [auto | lia | lia |].
  change (Calendar.days_in_month 9999 12) with 31. lia.
Qed.

(** X13.  At the two ends of the calendar the resolver raises: on any
    day of January of year 1 the step one month back, and on any day of
    December 9999 the step one month ahead, leaves the range of [date],
    and the [OverflowError] is not caught. *)
Theorem choose_date_overflows_at_calendar_ends
    (target_weekday target_day : Z) (today : date) :
  1 <= toordinal today <= 31
  \/ Calendar.MAXORDINAL - 30 <= toordinal today <= Calendar.MAXORDINAL ->
  choose_date_for_section target_weekday target_day today
  = Raise OverflowError.
Proof.
  intros [H|H].
  - destruct (january_of_year_1 today H) as [Hy Hm].
    unfold choose_date_for_section, candidates, candidates_over, candidate_at.
    rewrite Hy, Hm. reflexivity.
  - destruct (december_of_year_9999 today H) as [Hy Hm].
    assert (Hf : date_new (year today) (month today) 1 = Ok (mkdate 3652029))
      by (rewrite Hy, Hm; reflexivity).
    unfold choose_date_for_section, candidates, candidates_over.
    destruct (candidate_at_after_approx target_weekday target_day today (-1)
                (mkdate 3652029) (mkdate 3651998) Hf eq_refl)
      as [(c1 & H1)|H1]; rewrite H1; cbn [bind]; [|reflexivity].
    destruct (candidate_at_after_approx target_weekday target_day today 0
                (mkdate 3652029) (mkdate 3652029) Hf eq_refl)
      as [(c2 & H2)|H2]; rewrite H2; cbn [bind]; [|reflexivity].
    unfold candidate_at. rewrite Hf. reflexivity.
Qed.

Lemma choose_date_overflows_at_calendar_ends_witness :
  (1 <= toordinal (mkdate 15) <= 31
   \/ Calendar.MAXORDINAL - 30 <= toordinal (mkdate 15) <= Calendar.MAXORDINAL)
  /\ choose_date_for_section 3 1 (mkdate 15) = Raise OverflowError
  /\ choose_date_for_section 3 1 (mkdate Calendar.MAXORDINAL)
     = Raise OverflowError.
Proof.
  split; [left; vm_compute; split; discriminate|].
  split.
  - apply (choose_date_overflows_at_calendar_ends 3 1 (mkdate 15)).
    left. vm_compute. split; discriminate.
  - apply (choose_date_overflows_at_calendar_ends 3 1
             (mkdate Calendar.MAXORDINAL)).
    right. vm_compute. split; discriminate.
Defined.

(** ** The months that the loop visits *)

Module MonthFacts.
Import Calendar CalendarFacts SpecResolver.

Lemma days_before_year_succ (y : Z) :
  1 <= y ->
  days_before_year (y + 1)
  = days_before_year y + 365 + (if is_leap y then 1 else 0).
Proof.
  intros Hy. unfold days_before_year, is_leap. cbv zeta.
  replace (y + 1 - 1) with y by ring.
  repeat match goal with
         | |- context [?a =? ?b] => destruct (Z.eqb_spec a b)
         end; cbn [andb orb negb]; Z.div_mod_to_equations; lia.
Qed.

Lemma days_in_month_bounds (y m : Z) :
  1 <= m <= 12 -> 28 <= days_in_month y m <= 31.
Proof.
  intros Hm. unfold days_in_month.
  destruct ((m =? 2) && is_leap y); [lia|].
  month_cases m; unfold DAYS_IN_MONTH; lia.
Qed.

Lemma ymd2ord_day (y m d : Z) : ymd2ord y m d = ymd2ord y m 1 + (d - 1).
Proof. unfold ymd2ord. ring. Qed.

Lemma ymd2ord_next_month (y m : Z) :
  1 <= y -> 1 <= m <= 12 ->
  ymd2ord (fst (next_month y m)) (snd (next_month y m)) 1
  = ymd2ord y m 1 + days_in_month y m.
Proof.
  intros Hy Hm. unfold next_month.
  destruct (Z.eqb_spec m 12) as [->|Hne]; cbn [fst snd].
  - unfold ymd2ord, days_before_month, days_in_month.
    rewrite (days_before_year_succ y Hy).
    destruct (is_leap y), (is_leap (y + 1)); month_tables; lia.
  - month_cases m; try lia; simpl (_ + 1);
      unfold ymd2ord, days_before_month, days_in_month;
      destruct (is_leap y); month_tables; lia.
Qed.

Lemma next_of_prev_month (y m : Z) :
  1 <= m <= 12 ->
  next_month (fst (prev_month y m)) (snd (prev_month y m)) = (y, m).
Proof.
  intros Hm. unfold prev_month, next_month.
  destruct (Z.eqb_spec m 1) as [->|Hne]; cbn [fst snd].
  - change (12 =? 12) with true. cbv iota. f_equal. ring.
  - destruct (Z.eqb_spec (m - 1) 12); [lia|]. f_equal. ring.
Qed.

Lemma prev_month_valid (y m : Z) :
  1 <= m <= 12 -> 1 <= snd (prev_month y m) <= 12.
Proof.
  intros Hm. unfold prev_month.
  destruct (Z.eqb_spec m 1); cbn [snd]; lia.
Qed.

Lemma ymd2ord_prev_month (y m : Z) :
  1 <= fst (prev_month y m) -> 1 <= m <= 12 ->
  ymd2ord y m 1
  = ymd2ord (fst (prev_month y m)) (snd (prev_month y m)) 1
    + days_in_month (fst (prev_month y m)) (snd (prev_month y m)).
Proof.
  intros Hy Hm.
  rewrite <- (ymd2ord_next_month _ _ Hy (prev_month_valid y m Hm)).
  now rewrite (next_of_prev_month y m Hm).
Qed.

(** The year and month of an ordinal that lies within a month. *)
Lemma ord2ymd_within_month (y m n : Z) :
  1 <= y -> 1 <= m <= 12 ->
  ymd2ord y m 1 <= n < ymd2ord y m 1 + days_in_month y m ->
  fst (ord2ymd n) = (y, m).
Proof.
  intros Hy Hm Hn.
  replace n with (ymd2ord y m (n - ymd2ord y m 1 + 1))
    by (rewrite ymd2ord_day; ring).
  rewrite ord2ymd_ymd2ord by lia. reflexivity.
Qed.

End MonthFacts.

Lemma year_month_of (d : date) (ym : Z * Z) :
  fst (Calendar.ord2ymd (toordinal d)) = ym -> (year d, month d) = ym.
Proof.
  unfold year, month. destruct (Calendar.ord2ymd (toordinal d)) as [[a b] c].
  cbn [fst snd]. now intros <-.
Qed.

Lemma candidate_at_visited
    (target_weekday target_day : Z) (today : date) (month_offset : Z) :
  candidate_at target_weekday target_day today month_offset
  = (ym <- visited_month today month_offset ;;
     candidate_in_visited target_weekday target_day ym).
Proof.
  unfold candidate_at, visited_month, candidate_in_visited.
  destruct (date_new (year today) (month today) 1) as [f|]; cbn [bind];
    [|reflexivity].
  destruct (date_add_days f (31 * month_offset)); reflexivity.
Qed.

Lemma visited_months_aux (today : date) :
  92 <= toordinal today <= Calendar.MAXORDINAL - 92 ->
  let y := year today in
  let m := month today in
  let p := SpecResolver.prev_month y m in
  visited_month today 0 = Ok (y, m)
  /\ visited_month today 1 = Ok (SpecResolver.next_month y m)
  /\ visited_month today (-1)
     = Ok (if Calendar.days_in_month (fst p) (snd p) =? 31
           then p
           else SpecResolver.prev_month (fst p) (snd p)).
Proof.
  intros Ht y m p.
  assert (Htoday : 1 <= toordinal today <= Calendar.MAXORDINAL) by lia.
  pose proof (date_of_fields today Htoday) as Hf.
  apply date_new_inv in Hf. fold y m in Hf.
  destruct Hf as ((Hy & Hm & Hd) & Hord).
  pose proof (MonthFacts.days_in_month_bounds y m Hm) as Hdim.
  pose proof (MonthFacts.ymd2ord_day y m (day today)) as Hday.
  pose proof (MonthFacts.ymd2ord_next_month y m ltac:(lia) Hm) as Hnext.
  assert (Hp1 : 1 <= fst p).
  { unfold p, SpecResolver.prev_month.
    destruct (Z.eqb_spec m 1) as [Em|Em]; cbn [fst]; [|lia].
    destruct (Z.eq_dec y 1) as [Ey|Ey]; [|lia]. exfalso.
    rewrite Ey, Em in Hord, Hd.
    unfold Calendar.ymd2ord in Hord.
    change (Calendar.days_before_year 1) with 0 in Hord.
    change (Calendar.days_before_month 1 1) with 0 in Hord.
    change (Calendar.days_in_month 1 1) with 31 in Hd. lia. }
  pose proof (MonthFacts.prev_month_valid y m Hm) as Hpm. fold p in Hpm.
  pose proof (MonthFacts.ymd2ord_prev_month y m Hp1 Hm) as Hprev. fold p in Hprev.
  pose proof (MonthFacts.days_in_month_bounds (fst p) (snd p) Hpm) as Hpdim.
  unfold visited_month. fold y m.
  rewrite (date_new_ok y m 1 Hy Hm ltac:(lia)). cbn [bind].
  unfold date_add_days. cbn [toordinal].
  assert (Hrange : forall o, -1 <= o <= 1 ->
            (1 <=? Calendar.ymd2ord y m 1 + 31 * o)
            && (Calendar.ymd2ord y m 1 + 31 * o <=? Calendar.MAXORDINAL) = true)
    by (intros o Ho; lia).
  rewrite !Hrange by lia. cbn [bind].
  split; [|split]; f_equal; apply year_month_of; cbn [toordinal].
  - apply MonthFacts.ord2ymd_within_month; lia.
  - destruct (SpecResolver.next_month y m) as [y' m'] eqn:En.
    cbn [fst snd] in Hnext.
    assert (Hv : 1 <= y' /\ 1 <= m' <= 12).
    { unfold SpecResolver.next_month in En.
      destruct (Z.eqb_spec m 12); injection En as <- <-; lia. }
    pose proof (MonthFacts.days_in_month_bounds y' m' (proj2 Hv)).
    apply MonthFacts.ord2ymd_within_month; lia.
  - destruct (Z.eqb_spec (Calendar.days_in_month (fst p) (snd p)) 31)
      as [E31|E31].
    + destruct p as [y0 m0]. cbn [fst snd] in *.
      apply MonthFacts.ord2ymd_within_month; lia.
    + assert (Hm0 : snd p <> 1).
      { intros E. apply E31. rewrite E. reflexivity. }
      set (pp := SpecResolver.prev_month (fst p) (snd p)).
      assert (Hpp1 : 1 <= fst pp).
      { unfold pp, SpecResolver.prev_month.
        destruct (Z.eqb_spec (snd p) 1); [contradiction|]. cbn [fst]. lia. }
      pose proof (MonthFacts.prev_month_valid (fst p) (snd p) Hpm) as Hppm.
      fold pp in Hppm.
      pose proof (MonthFacts.ymd2ord_prev_month (fst p) (snd p) Hpp1 Hpm)
        as Hpprev.
      fold pp in Hpprev.
      pose proof (MonthFacts.days_in_month_bounds (fst pp) (snd pp) Hppm).
      destruct pp as [y00 m00]. cbn [fst snd] in *.
      apply MonthFacts.ord2ymd_within_month; lia.
Qed.

(** X14.  For every [today] from 0001-04-02 to 9999-09-30: each turn of
    the loop looks for its candidate in the month it visits; the offset 0
    visits today's month, the offset 1 the next calendar month, and the
    offset -1 the previous calendar month when that month has 31 days
    and the month before it otherwise. *)
Theorem visited_months
    (target_weekday target_day : Z) (today : date) :
  92 <= toordinal today <= Calendar.MAXORDINAL - 92 ->
  let y := year today in
  let m := month today in
  let p := SpecResolver.prev_month y m in
  (forall o,
      candidate_at target_weekday target_day today o
      = (ym <- visited_month today o ;;
         candidate_in_visited target_weekday target_day ym))
  /\ visited_month today 0 = Ok (y, m)
  /\ visited_month today 1 = Ok (SpecResolver.next_month y m)
  /\ visited_month today (-1)
     = Ok (if Calendar.days_in_month (fst p) (snd p) =? 31
           then p
           else SpecResolver.prev_month (fst p) (snd p)).
Proof.
  intros Ht y m p. split.
  - intros o. apply candidate_at_visited.
  - exact (visited_months_aux today Ht).
Qed.

(** On 2023-05-02 the months visited are March, May and June 2023; on
    2024-01-30 they are December 2023, January and February 2024. *)
Lemma visited_months_witness :
  92 <= toordinal d20230502 <= Calendar.MAXORDINAL - 92
  /\ (visited_month d20230502 (-1) = Ok (2023, 3)
      /\ visited_month d20230502 0 = Ok (2023, 5)
      /\ visited_month d20230502 1 = Ok (2023, 6))
  /\ (visited_month d20240130 (-1) = Ok (2023, 12)
      /\ visited_month d20240130 0 = Ok (2024, 1)
      /\ visited_month d20240130 1 = Ok (2024, 2))
  /\ (forall o,
         candidate_at 6 30 d20230502 o
         = (ym <- visited_month d20230502 o ;; candidate_in_visited 6 30 ym)).
Proof.
  split; [vm_compute; split; discriminate|].
  split; [vm_compute; repeat split; reflexivity|].
  split; [vm_compute; repeat split; reflexivity|].
  apply (visited_months 6 30 d20230502).
  vm_compute. split; discriminate.
Defined.

(** * Properties of the emitter *)

Lemma Element_ind_nested (P : Element -> Prop) :
  (forall tag attrib text tail children,
      Forall P children -> P (mkElement tag attrib text tail children)) ->
  forall e, P e.
Proof.
  intros H. fix IH 1. intros [tag attrib text tail children].
  apply H. induction children as [|c r IHr]; constructor.
  - apply IH.
  - exact IHr.
Qed.

Lemma skip_spaces_all_spaces (s : string) :
  all_spaces s = true -> skip_spaces s = EmptyString.
Proof.
  induction s as [|c r IH]; [reflexivity|].
  simpl. intros H. apply andb_prop in H. destruct H as [Hc Hr].
  rewrite Hc. auto.
Qed.

Lemma all_spaces_app (a b : string) :
  all_spaces a = true -> all_spaces b = true -> all_spaces (a ++ b) = true.
Proof.
  induction a as [|c r IH]; [auto|].
  simpl. intros H Hb. apply andb_prop in H. destruct H as [Hc Hr].
  rewrite Hc. simpl. auto.
Qed.

Lemma all_spaces_indent (level : nat) : all_spaces (indent_of level) = true.
Proof.
  unfold indent_of. cbn [all_spaces].
  change (is_space (chr 10)) with true. cbn [andb].
  induction level as [|k IH]; [reflexivity|].
  cbn [repeat_string]. now apply all_spaces_app.
Qed.

Lemma blank_all_spaces (s : string) :
  all_spaces s = true -> blank (Some s) = true.
Proof.
  intros H. unfold blank, strip. rewrite (skip_spaces_all_spaces _ H).
  cbn [rstrip]. change (truthy EmptyString) with false. apply orb_true_r.
Qed.

Lemma blank_indent (level : nat) : blank (Some (indent_of level)) = true.
Proof. apply blank_all_spaces, all_spaces_indent. Qed.

Lemma blank_indent_text (level : nat) :
  blank (Some (indent_of level ++ "  ")%string) = true.
Proof.
  apply blank_all_spaces, all_spaces_app; [apply all_spaces_indent | reflexivity].
Qed.

(** Setting a blank text or tail and looking again. *)
Lemma reset_blank (o : option string) (s : string) :
  blank (Some s) = true ->
  (if blank (if blank o then Some s else o) then Some s
   else (if blank o then Some s else o))
  = (if blank o then Some s else o).
Proof.
  intros Hs. destruct (blank o) eqn:E; [now rewrite Hs | now rewrite E].
Qed.

Lemma significant_reset (o : option string) (s : string) :
  blank (Some s) = true ->
  significant (if blank o then Some s else o) = significant o.
Proof.
  intros Hs. unfold significant.
  destruct (blank o) eqn:E; [now rewrite Hs | now rewrite E].
Qed.

(** X15.  Indenting a tree twice is the same as indenting it once. *)
Theorem indent_xml_idempotent (elem : Element) (level : nat) :
  _indent_xml (_indent_xml elem level) level = _indent_xml elem level.
Proof.
  revert level. induction elem as [tag attrib text tail children IH]
    using Element_ind_nested.
  intros level. destruct children as [|c r].
  - cbn [_indent_xml]. f_equal.
    destruct (negb (Nat.eqb level 0)); cbn [andb]; [|reflexivity].
    apply reset_blank, blank_indent.
  - cbn [_indent_xml map]. f_equal.
    + apply reset_blank, blank_indent_text.
    + apply reset_blank, blank_indent.
    + inversion IH as [|? ? Hc Hr]; subst. f_equal; [apply Hc|].
      rewrite map_map. apply map_ext_in. intros x Hx.
      rewrite Forall_forall in Hr. now apply Hr.
Qed.

(** X16.  Indenting changes nothing but texts and tails that are absent
    or blank: the tags, the attributes, the children and their order, and
    every text and tail with something in it are kept. *)
Theorem indent_xml_keeps_content (elem : Element) (level : nat) :
  skeleton (_indent_xml elem level) = skeleton elem.
Proof.
  revert level. induction elem as [tag attrib text tail children IH]
    using Element_ind_nested.
  intros level. destruct children as [|c r].
  - cbn [_indent_xml skeleton map]. f_equal.
    destruct (negb (Nat.eqb level 0)); cbn [andb]; [|reflexivity].
    apply significant_reset, blank_indent.
  - cbn [_indent_xml skeleton map]. f_equal.
    + apply significant_reset, blank_indent_text.
    + apply significant_reset, blank_indent.
    + inversion IH as [|? ? Hc Hr]; subst. f_equal; [apply Hc|].
      rewrite map_map. apply map_ext_in. intros x Hx.
      rewrite Forall_forall in Hr. now apply Hr.
Qed.

Lemma build_xmltv_programmes (cfg : Config) (programmes : list Programme) :
  map read_programme (findall "programme" (build_xmltv cfg programmes))
  = map (fun p => Some (xmltv_dt cfg (start p), xmltv_dt cfg (stop p),
                        CHANNEL_ID cfg, title p)) programmes.
Proof.
  unfold build_xmltv. cbn [_indent_xml map]. unfold findall.
  cbn [e_children filter e_tag _indent_xml map].
  change (String.eqb "channel" "programme") with false. cbv iota.
  induction programmes as [|p r IH]; [reflexivity|].
  cbn [map filter _indent_xml e_tag].
  change (String.eqb "programme" "programme") with true. cbv iota.
  cbn [map]. rewrite IH. reflexivity.
Qed.

(** X17.  The document lists the programmes as they were given: reading
    the [programme] elements of the built tree gives, in order, the
    start, the stop, the channel id and the title of every entry; the
    [channel] element carries the channel id and, as the text of its
    [display-name], the channel name. *)
Theorem build_xmltv_lists_programmes
    (cfg : Config) (programmes : list Programme) :
  map read_programme (findall "programme" (build_xmltv cfg programmes))
  = map (fun p => Some (xmltv_dt cfg (start p), xmltv_dt cfg (stop p),
                        CHANNEL_ID cfg, title p)) programmes
  /\ exists ch dn,
       findall "channel" (build_xmltv cfg programmes) = [ch]
       /\ get_attr (e_attrib ch) "id" = Some (CHANNEL_ID cfg)
       /\ findall "display-name" ch = [dn]
       /\ e_text dn = Some (CHANNEL_NAME cfg).
Proof.
  split; [apply build_xmltv_programmes|].
  unfold build_xmltv. cbn [_indent_xml map]. unfold findall.
  cbn [e_children filter e_tag _indent_xml map].
  change (String.eqb "channel" "channel") with true. cbv iota.
  - eexists. eexists. split; [|split; [|split]].
    + f_equal. induction programmes as [|p r IH]; [reflexivity|].
      cbn [map filter _indent_xml e_tag].
      change (String.eqb "programme" "channel") with false. cbv iota.
      exact IH.
    + reflexivity.
    + reflexivity.
    + reflexivity.
Qed.

Lemma ord_chr (n : Z) : 0 <= n < 256 -> ord (chr n) = n.
Proof.
  intros H. unfold ord, chr.
  rewrite N_ascii_embedding by lia. lia.
Qed.

Lemma digit_char_inj (a b : Z) :
  0 <= a <= 9 -> 0 <= b <= 9 -> digit_char a = digit_char b -> a = b.
Proof.
  intros Ha Hb H. apply (f_equal ord) in H. unfold digit_char in H.
  rewrite !ord_chr in H by lia. lia.
Qed.

Lemma pad2_inj (a b : Z) :
  0 <= a <= 99 -> 0 <= b <= 99 -> pad2 a = pad2 b -> a = b.
Proof.
  intros Ha Hb H. unfold pad2 in H. injection H as H1 H2.
  apply digit_char_inj in H1, H2; Z.div_mod_to_equations; lia.
Qed.

Lemma pad4_inj (a b : Z) :
  0 <= a <= 9999 -> 0 <= b <= 9999 -> pad4 a = pad4 b -> a = b.
Proof.
  intros Ha Hb H. unfold pad4 in H. injection H as H1 H2 H3 H4.
  apply digit_char_inj in H1, H2, H3, H4; Z.div_mod_to_equations; lia.
Qed.

Lemma printable_fields (dt : datetime) :
  printable dt ->
  1000 <= year (dt_date dt) <= 9999
  /\ 1 <= month (dt_date dt) <= 12
  /\ 1 <= day (dt_date dt) <= 31
  /\ date_new (year (dt_date dt)) (month (dt_date dt)) (day (dt_date dt))
     = Ok (dt_date dt).
Proof.
  intros (Hord & Hy & _).
  pose proof (date_of_fields (dt_date dt) Hord) as Hf.
  pose proof Hf as Hi. apply date_new_inv in Hi.
  destruct Hi as ((Hy' & Hm & Hd) & _).
  pose proof (days_in_month_le_31 (year (dt_date dt)) (month (dt_date dt))).
  unfold Calendar.MAXYEAR in Hy'. repeat split; try lia. exact Hf.
Qed.

(** X18.  The timestamps written are told apart: two datetimes of the
    calendar with four-digit years, on whole minutes, that [xmltv_dt]
    renders alike are the same datetime. *)
Theorem xmltv_dt_injective (cfg : Config) (a b : datetime) :
  printable a -> printable b ->
  xmltv_dt cfg a = xmltv_dt cfg b ->
  a = b.
Proof.
  intros Ha Hb H.
  destruct (printable_fields a Ha) as (Hya & Hma & Hda & Hfa).
  destruct (printable_fields b Hb) as (Hyb & Hmb & Hdb & Hfb).
  destruct Ha as (_ & _ & Hha & Hmia & Hsa & Hua).
  destruct Hb as (_ & _ & Hhb & Hmib & Hsb & Hub).
  unfold xmltv_dt, pad4, pad2 in H. cbn [append] in H.
  injection H as Y1 Y2 Y3 Y4 M1 M2 D1 D2 H1 H2 N1 N2 _ _ _.
  assert (Ey : year (dt_date a) = year (dt_date b)).
  { apply pad4_inj; [lia | lia |]. unfold pad4. now rewrite Y1, Y2, Y3, Y4. }
  assert (Em : month (dt_date a) = month (dt_date b)).
  { apply pad2_inj; [lia | lia |]. unfold pad2. now rewrite M1, M2. }
  assert (Ed : day (dt_date a) = day (dt_date b)).
  { apply pad2_inj; [lia | lia |]. unfold pad2. now rewrite D1, D2. }
  assert (Eh : hour (dt_time a) = hour (dt_time b)).
  { apply pad2_inj; [lia | lia |]. unfold pad2. now rewrite H1, H2. }
  assert (En : minute (dt_time a) = minute (dt_time b)).
  { apply pad2_inj; [lia | lia |]. unfold pad2. now rewrite N1, N2. }
  rewrite Ey, Em, Ed, Hfb in Hfa. injection Hfa as Edate.
  destruct a as [da [ha ma sa ua]], b as [db [hb mb sb ub]].
  cbn [dt_date dt_time hour minute second microsecond] in *.
  congruence.
Qed.

Lemma xmltv_dt_injective_witness :
  printable (start talk_show) /\ printable (stop morning_news)
  /\ xmltv_dt default_config (start talk_show) = "20240201093000 -0600"%string
  /\ xmltv_dt default_config (start talk_show)
     = xmltv_dt default_config (stop morning_news)
  /\ start talk_show = stop morning_news.
Proof.
  assert (Hp : printable (start talk_show)).
  { unfold printable, time_on_minute. vm_compute.
    repeat split; discriminate. }
  split; [exact Hp|]. split; [exact Hp|].
  split; [vm_compute; reflexivity|].
  split; [reflexivity|].
  apply (xmltv_dt_injective default_config (start talk_show)
           (stop morning_news) Hp Hp).
  reflexivity.
Defined.

(** X19.  [main] writes a document only when the parse gave at least one
    entry, and the document then lists exactly the entries of the parse,
    in order; on a page without a header that names a known weekday it
    ends with exit status 2 and writes nothing. *)
Theorem main_never_writes_an_empty_guide
    (cfg : Config) (today : date) (raw_lines : list string) :
  (forall tree,
      main cfg today raw_lines = Ok (Written tree) ->
      exists out,
        parse_schedule today raw_lines = Ok out
        /\ out <> []
        /\ map read_programme (findall "programme" tree)
           = map (fun p => Some (xmltv_dt cfg (start p),
                                 xmltv_dt cfg (stop p),
                                 CHANNEL_ID cfg, title p)) out)
  /\ ((forall ln g1 g2,
          In ln (extract_lines raw_lines) ->
          SECTION_RE_search ln = Some (g1, g2) ->
          dict_get WEEKDAY_ES (str_lower g1) = None) ->
      main cfg today raw_lines = Ok (Exit 2)).
Proof.
  unfold main. split.
  - intros tree.
    destruct (parse_schedule today raw_lines) as [[|p r]|]; cbn [bind];
      try discriminate.
    intros [= <-]. exists (p :: r). split; [reflexivity|].
    split; [discriminate | apply build_xmltv_programmes].
  - intros H. unfold parse_schedule, initial_state.
    rewrite (scan_without_known_header today _ [] H). reflexivity.
Qed.

Example main_writes_two_programmes :
  exists tree,
    main default_config d20240130 two_programmes = Ok (Written tree)
    /\ map read_programme (findall "programme" tree)
       = [Some ("20240201080000 -0600", "20240201093000 -0600",
                "multimedios.canal6.monterrey", "Morning News");
          Some ("20240201093000 -0600", "20240202000000 -0600",
                "multimedios.canal6.monterrey", "Talk Show")]%string
    /\ main default_config d20240130 unknown_weekday_page = Ok (Exit 2).
Proof. eexists. vm_compute. repeat split; reflexivity. Qed.

Lemma main_never_writes_an_empty_guide_witness :
  (forall ln g1 g2,
      In ln (extract_lines unknown_weekday_page) ->
      SECTION_RE_search ln = Some (g1, g2) ->
      dict_get WEEKDAY_ES (str_lower g1) = None)
  /\ main default_config d20240130 unknown_weekday_page = Ok (Exit 2).
Proof.
  assert (H : forall ln g1 g2,
             In ln (extract_lines unknown_weekday_page) ->
             SECTION_RE_search ln = Some (g1, g2) ->
             dict_get WEEKDAY_ES (str_lower g1) = None).
  { intros ln g1 g2 Hin. vm_compute in Hin.
    destruct Hin as [<-|[<-|[<-|[]]]]; vm_compute;
      try discriminate; intros [= <- <-]; reflexivity. }
  split; [exact H|].
  exact (proj2 (main_never_writes_an_empty_guide default_config d20240130
                  unknown_weekday_page) H).
Defined.

(** * No time of the page is lost *)

Lemma insert_by_start_in (x z : Programme) (l : list Programme) :
  z = x \/ In z l ->
  In z (insert_stable (fun a b => dt_ltb (start a) (start b)) x l).
Proof.
  induction l as [|y r IH]; simpl.
  - intros [->|[]]. now left.
  - destruct (dt_ltb (start y) (start x)); simpl.
    + intros [->|[->|H]]; [right; apply IH; now left | now left
                          | right; apply IH; now right].
    + intros [->|[->|H]]; auto.
Qed.

Lemma sort_by_start_in (x : Programme) (l : list Programme) :
  In x l -> In x (sort_by_start l).
Proof.
  induction l as [|y r IH]; simpl; [exact (fun H => H)|].
  intros [->|H]; apply insert_by_start_in; [now left | right; now apply IH].
Qed.

Lemma kept_covers_starts (l ws : list Programme) (x : Programme) :
  StronglySorted le_start l ->
  Forall nonempty_title l ->
  assign_stops l = Ok ws ->
  In x l ->
  exists k, In k (filter keep ws) /\ start k = start x.
Proof.
  intros Hs. revert ws. induction Hs as [|p r Hs IH Hp]; intros ws Ht Ha Hin;
    [destruct Hin|].
  inversion Ht as [|? ? Hpt Hr]; subst.
  destruct Hin as [<-|Hin].
  - destruct (kept_head_start (p :: r) ws p r (SSorted_cons p Hs Hp) Ht
                eq_refl Ha) as (k & rest & Hk & Hst).
    exists k. split; [rewrite Hk; now left | exact Hst].
  - destruct r as [|q r']; [destruct Hin|].
    rewrite assign_stops_cons2 in Ha.
    destruct (assign_stops (q :: r')) as [ws'|] eqn:Ea; cbn [bind] in Ha;
      [|discriminate].
    injection Ha as <-.
    destruct (IH ws' Hr eq_refl Hin) as (k & Hk & Hst).
    exists k. split; [|exact Hst].
    cbn [filter]. destruct (keep (set_stop p (start q))); [now right | exact Hk].
Qed.

(** X20.  No time of the page is lost: every start time that the scanner
    paired with a title is the start of an entry of the result. *)
Theorem every_start_is_kept
    (today : date) (raw_lines : list string)
    (st : scan_state) (out : list Programme) (p0 : Programme) :
  scan today (extract_lines raw_lines) initial_state = Ok st ->
  parse_schedule today raw_lines = Ok out ->
  In p0 (programmes st) ->
  exists p, In p out /\ start p = start p0.
Proof.
  intros Hs Hp Hin. unfold parse_schedule in Hp. rewrite Hs in Hp.
  cbn [bind] in Hp.
  assert (Ht : Forall nonempty_title (programmes st)).
  { apply (scan_titles today (extract_lines raw_lines) initial_state st
             (extract_lines_nonempty raw_lines)); [constructor | exact Hs]. }
  destruct (finalize_inv _ _ Hp) as (ws & Ha & Hout).
  destruct (finalize_filtered _ _ Ha) as (_ & Hd & _).
  rewrite Hd in Hout. subst out.
  exact (kept_covers_starts _ ws p0 (sort_by_start_sorted _)
           (sort_by_start_Forall nonempty_title _ Ht) Ha
           (sort_by_start_in _ _ Hin)).
Qed.

(** Of the two entries at 08:00 the first is dropped, yet 08:00 starts
    an entry of the result. *)
Lemma every_start_is_kept_witness :
  let st := mkstate repeated_start_provisional (Some (mkdate 738917)) None in
  let dropped :=
    mkProgramme (mkdatetime (mkdate 738917) (mktime 8 0 0 0))
                (mkdatetime (mkdate 738917) (mktime 8 0 0 0)) "A" in
  scan d20240130 (extract_lines repeated_start) initial_state = Ok st
  /\ parse_schedule d20240130 repeated_start = Ok repeated_start_out
  /\ In dropped (programmes st)
  /\ exists p, In p repeated_start_out /\ start p = start dropped.
Proof.
  intros st dropped.
  split; [vm_compute; reflexivity|].
  split; [vm_compute; reflexivity|].
  split; [left; reflexivity|].
  apply (every_start_is_kept d20240130 repeated_start st repeated_start_out
           dropped).
  - vm_compute. reflexivity.
  - vm_compute. reflexivity.
  - left. reflexivity.
Defined.
